(** * FTJobOffersAPI: the windowed, paged retrieval of job offers

    A shallow embedding of [get_nb_offers], [get_lazy_job_offers] and
    [get_all_job_offers] of [ftjoboffersapi.py], and the properties of the
    bisection of the creation-date window and of the partial-content paging
    loop.

    The Python generator is modelled by the trace of events it produces when
    it is driven to exhaustion: every HEAD probe, every GET fetch, every
    yielded chunk and every logged error, in program order.  Dictionaries
    live in a store and are passed by reference, as in Python.

    [Api] embeds the object itself: [__init__], the OAuth token and its
    cache, [_build_headers], [session_get] with its retry after a refusal,
    [get_masterdata], [get_nb_offers] and [get_offer], over a token endpoint
    and a network that are parameters.

    [Runtime] is the traversal again on a network whose requests can raise:
    the adapter of the session repeats an exchange as its [Retry] policy
    says and raises [RetryError] when the retries are spent, the transport
    can fail, and the interpreter bounds the nesting of the recursive calls
    and raises [RecursionError].  On a network whose requests all return it
    is the traversal of the first part. *)

From stdpp Require Import gmap strings list fin_maps sorting.
From Stdlib Require Import ZArith Lia Ascii String.
From Stdlib Require QArith_base.

Local Open Scope string_scope.
Local Open Scope Z_scope.
Local Open Scope list_scope.

(** ** Exceptions and results *)

Inductive exn :=
  | TypeError
  | ValueError
  | KeyError
  | IndexError
  | AttributeError
  | OverflowError
  | JSONDecodeError
  | RetryError
  | ConnectionError
  | RecursionError.

(** The result of running a piece of Python code with a bounded number of
    unfoldings of its recursion and of its [while] loop. *)
Inductive res (A : Type) :=
  | Ok (a : A)
  | Raise (e : exn)
  | OutOfFuel.
Arguments Ok {A} a.
Arguments Raise {A} e.
Arguments OutOfFuel {A}.

Definition res_bind {A B} (r : res A) (k : A → res B) : res B :=
  match r with
  | Ok a => k a
  | Raise e => Raise e
  | OutOfFuel => OutOfFuel
  end.

(** ** Strings: [str.split], [str.strip] and [int] *)

Module PyStr.

(** A string is a sequence of code points below 256, one per character:
    what a header holds once it is decoded as latin-1. *)

(** The characters that [str.strip] removes: those for which [str.isspace]
    holds, which are the ASCII white space, the separators 0x1C to 0x1F, the
    next-line character 0x85 and the no-break space 0xA0. *)
Definition is_space (c : ascii) : bool :=
  let n := nat_of_ascii c in
  ((9 <=? n)%nat && (n <=? 13)%nat) || ((28 <=? n)%nat && (n <=? 32)%nat)
  || (n =? 133)%nat || (n =? 160)%nat.

(** The characters that [int] skips around a literal: the white space of
    the C locale, and 0x85 and 0xA0, which it first turns into blanks.  The
    separators 0x1C to 0x1F are not among them. *)
Definition is_int_space (c : ascii) : bool :=
  let n := nat_of_ascii c in
  ((9 <=? n)%nat && (n <=? 13)%nat) || (n =? 32)%nat
  || (n =? 133)%nat || (n =? 160)%nat.

Definition is_digit (c : ascii) : bool :=
  let n := nat_of_ascii c in (48 <=? n)%nat && (n <=? 57)%nat.

Definition digit_val (c : ascii) : Z := Z.of_nat (nat_of_ascii c) - 48.

(** [s.split(sep)] for a separator of one character. *)
Fixpoint split (sep : ascii) (s : string) : list string :=
  match s with
  | EmptyString => [EmptyString]
  | String c r =>
      if Ascii.eqb c sep then EmptyString :: split sep r
      else match split sep r with
           | h :: t => String c h :: t
           | [] => [String c EmptyString]
           end
  end.

(** The characters of [space] removed from the left and from the right. *)
Fixpoint lskip (space : ascii → bool) (s : string) : string :=
  match s with
  | EmptyString => EmptyString
  | String c r => if space c then lskip space r else s
  end.

Fixpoint rskip (space : ascii → bool) (s : string) : string :=
  match s with
  | EmptyString => EmptyString
  | String c r =>
      match rskip space r with
      | EmptyString => if space c then EmptyString else String c EmptyString
      | r' => String c r'
      end
  end.

Definition lstrip (s : string) : string := lskip is_space s.
Definition rstrip (s : string) : string := rskip is_space s.

(** [s.strip()] *)
Definition strip (s : string) : string := rstrip (lstrip s).

(** Decimal digits, with single underscores allowed between digits. *)
Fixpoint digits (s : string) (acc : Z) (after_digit : bool) : option Z :=
  match s with
  | EmptyString => if after_digit then Some acc else None
  | String c r =>
      if is_digit c then digits r (10 * acc + digit_val c) true
      else if Ascii.eqb c "_"%char then
        if after_digit then
          match r with
          | EmptyString => None
          | _ => digits r acc false
          end
        else None
      else None
  end.

(** The number of digits of a literal, and the most that [int] converts:
    the default of [sys.get_int_max_str_digits()]. *)
Fixpoint count_digits (s : string) : Z :=
  match s with
  | EmptyString => 0
  | String c r => (if is_digit c then 1 else 0) + count_digits r
  end.

Definition MAX_STR_DIGITS : Z := 4300.

(** An unsigned literal: well-formed and within the limit of digits. *)
Definition literal (s : string) : option Z :=
  if MAX_STR_DIGITS <? count_digits s then None else digits s 0 false.

(** [int(s)] on a string: surrounding white space, an optional sign and
    decimal digits; anything else, and a literal of more than
    [MAX_STR_DIGITS] digits, is a [ValueError]. *)
Definition int (s : string) : res Z :=
  match rskip is_int_space (lskip is_int_space s) with
  | String "-"%char r =>
      match literal r with
      | Some n => Ok (- n)
      | None => Raise ValueError
      end
  | String "+"%char r =>
      match literal r with
      | Some n => Ok n
      | None => Raise ValueError
      end
  | r =>
      match literal r with
      | Some n => Ok n
      | None => Raise ValueError
      end
  end.

End PyStr.

(** ** Dates

    A [datetime] is the number of microseconds since 0001-01-01T00:00:00, a
    [timedelta] a number of microseconds.  Python bounds both. *)

Module PyDate.

Definition US_PER_SECOND : Z := 1000000.
Definition US_PER_DAY : Z := 86400 * US_PER_SECOND.
(** [datetime.max] is 9999-12-31T23:59:59.999999, the last microsecond
    of day 3652059. *)
Definition DATETIME_END : Z := 3652059 * US_PER_DAY.
Definition TIMEDELTA_MAX_DAYS : Z := 999999999.

Definition valid (dt : Z) : bool := (0 <=? dt) && (dt <? DATETIME_END).

(** [timedelta(days=n)] *)
Definition timedelta_days (n : Z) : res Z :=
  if (Z.abs n <=? TIMEDELTA_MAX_DAYS) then Ok (n * US_PER_DAY)
  else Raise OverflowError.

(** [timedelta(seconds=1)] *)
Definition one_second : Z := US_PER_SECOND.

(** [dt + td] and [dt - td] *)
Definition add (dt td : Z) : res Z :=
  if valid (dt + td) then Ok (dt + td) else Raise OverflowError.
Definition sub (dt td : Z) : res Z := add dt (- td).

(** [td / 2]: [_divide_and_round] of the microseconds, which rounds a
    half to the even neighbour. *)
Definition halve (td : Z) : Z :=
  let q := td `div` 2 in
  let r := 2 * (td `mod` 2) in
  if (2 <? r) || ((r =? 2) && (q `mod` 2 =? 1)) then q + 1 else q.

(** The second a datetime is printed as by ["%Y-%m-%dT%H:%M:%SZ"]: the
    microsecond field is dropped. *)
Definition second_of (dt : Z) : Z := dt `div` US_PER_SECOND.

(** *** The calendar *)

Definition is_leap (y : Z) : bool :=
  (y `mod` 4 =? 0) && (negb (y `mod` 100 =? 0) || (y `mod` 400 =? 0)).

Definition days_in_month (y m : Z) : Z :=
  if m =? 2 then (if is_leap y then 29 else 28)
  else if (m =? 4) || (m =? 6) || (m =? 9) || (m =? 11) then 30
  else 31.

(** The days before 1 January of year [y], and before the first day of
    month [m] in year [y]. *)
Definition days_before_year (y : Z) : Z :=
  let p := y - 1 in p * 365 + p `div` 4 - p `div` 100 + p `div` 400.

Definition days_before_month (y m : Z) : Z :=
  foldr (λ k acc, days_in_month y (Z.of_nat k) + acc) 0
    (seq 1 (Z.to_nat (m - 1))).

(** [datetime(y, m, d, hour, minute, second)], in seconds since
    0001-01-01T00:00:00; [None] where Python raises [ValueError]. *)
Definition datetime (y m d hour minute second : Z) : option Z :=
  if (1 <=? y) && (y <=? 9999) && (1 <=? m) && (m <=? 12)
     && (1 <=? d) && (d <=? days_in_month y m)
     && (0 <=? hour) && (hour <=? 23) && (0 <=? minute) && (minute <=? 59)
     && (0 <=? second) && (second <=? 59)
  then Some ((days_before_year y + days_before_month y m + (d - 1)) * 86400
             + hour * 3600 + minute * 60 + second)
  else None.

(** *** Parsing with the format ["%Y-%m-%dT%H:%M:%SZ"]

    [strptime] matches the string against the regular expression of the
    format, ignoring case, and refuses what is left after the match. *)

(** One given character at the head of the string, or one of two. *)
Definition expect (c : ascii) (s : string) : option string :=
  match s with
  | String x r => if Ascii.eqb x c then Some r else None
  | EmptyString => None
  end.

Definition expect_either (c c' : ascii) (s : string) : option string :=
  match s with
  | String x r => if Ascii.eqb x c || Ascii.eqb x c' then Some r else None
  | EmptyString => None
  end.

(** [%Y]: four digits. *)
Definition year_field (s : string) : option (Z * string) :=
  match s with
  | String a (String b (String c (String d r))) =>
      if PyStr.is_digit a && PyStr.is_digit b && PyStr.is_digit c
         && PyStr.is_digit d
      then Some (1000 * PyStr.digit_val a + 100 * PyStr.digit_val b
                 + 10 * PyStr.digit_val c + PyStr.digit_val d, r)
      else None
  | _ => None
  end.

(** [%m], [%d], [%H], [%M] and [%S]: two digits, or one digit, with a value
    from [lo] to [hi]; for [%d] also a blank and one digit.  Each of these
    fields is followed by a character that is no digit, so that two digits
    are never read as one digit and a rest. *)
Definition field (lo hi : Z) (blank : bool) (s : string)
  : option (Z * string) :=
  let within (v : Z) (r : string) :=
    if (lo <=? v) && (v <=? hi) then Some (v, r) else None in
  match s with
  | String a (String b r) =>
      if PyStr.is_digit a then
        if PyStr.is_digit b
        then within (10 * PyStr.digit_val a + PyStr.digit_val b) r
        else within (PyStr.digit_val a) (String b r)
      else if blank && Ascii.eqb a " "%char && PyStr.is_digit b
      then within (PyStr.digit_val b) r
      else None
  | String a EmptyString =>
      if PyStr.is_digit a then within (PyStr.digit_val a) EmptyString
      else None
  | EmptyString => None
  end.

(** [datetime.strptime(s, "%Y-%m-%dT%H:%M:%SZ")] on a string, in seconds
    since 0001-01-01T00:00:00; [None] where Python raises [ValueError].
    The regular expression accepts seconds up to 61, which [datetime] then
    refuses. *)
Definition parse (s : string) : option Z :=
  '(y, s) ← year_field s;
  s ← expect "-" s;
  '(m, s) ← field 1 12 false s;
  s ← expect "-" s;
  '(d, s) ← field 1 31 true s;
  s ← expect_either "T" "t" s;
  '(hour, s) ← field 0 23 false s;
  s ← expect ":" s;
  '(minute, s) ← field 0 59 false s;
  s ← expect ":" s;
  '(second, s) ← field 0 61 false s;
  s ← expect_either "Z" "z" s;
  match s with
  | EmptyString => datetime y m d hour minute second
  | _ => None
  end.

End PyDate.

(** ** Query parameters, responses, events *)

(** A value of the params dictionary.  [PTime t] stands for the string that
    [strftime] with format ["%Y-%m-%dT%H:%M:%SZ"] prints for the instant [t]
    seconds after 0001-01-01T00:00:00; [PStr] holds any other string, among
    them the strings that [strptime] parses although [strftime] does not
    print them. *)
Inductive pvalue :=
  | PStr (s : string)
  | PInt (n : Z)
  | PTime (t : Z).

Global Instance pvalue_eq_dec : EqDecision pvalue.
Proof. solve_decision. Defined.

Abbreviation dict := (gmap string pvalue).

(** An opaque result record, and one page of them. *)
Definition offer := string.
Abbreviation chunk := (list offer).

(** [datetime.strptime(v, format)] *)
Definition strptime (v : pvalue) : res Z :=
  match v with
  | PTime t =>
      if PyDate.valid (t * PyDate.US_PER_SECOND)
      then Ok (t * PyDate.US_PER_SECOND) else Raise ValueError
  | PStr s =>
      match PyDate.parse s with
      | Some t => Ok (t * PyDate.US_PER_SECOND)
      | None => Raise ValueError
      end
  | PInt _ => Raise TypeError
  end.

(** [datetime.strftime(dt, format)] *)
Definition strftime (dt : Z) : pvalue := PTime (PyDate.second_of dt).

(** [int(v)] on a value of the params. *)
Definition int_of_pvalue (v : pvalue) : res Z :=
  match v with
  | PStr s => PyStr.int s
  | PInt n => Ok n
  | PTime _ => Raise ValueError
  end.

(** An HTTP response: status, headers (keyed by canonical header name) and
    the JSON body, [None] when the body does not parse as a JSON object. *)
Record response := Response {
  status_code : Z;
  headers : gmap string string;
  json : option (gmap string chunk);
}.

(** The subscript of [response.json()[...]]: the string ["resultats"] or the
    empty list []. *)
Inductive subscript :=
  | SubStr (s : string)
  | SubEmptyList.

(** [d[k]] on a Python dict: a list is not hashable. *)
Definition json_getitem (d : gmap string chunk) (k : subscript) : res chunk :=
  match k with
  | SubStr s =>
      match d !! s with
      | Some c => Ok c
      | None => Raise KeyError
      end
  | SubEmptyList => Raise TypeError
  end.

(** [response.json()["resultats" if "resultats" in response.json().keys() else []]] *)
Definition resultats (r : response) : res chunk :=
  match json r with
  | None => Raise JSONDecodeError
  | Some d =>
      json_getitem d
        (match d !! "resultats" with
         | Some _ => SubStr "resultats"
         | None => SubEmptyList
         end)
  end.

(** [int(h.get(name).split("/")[1].strip())] *)
Definition range_total (h : gmap string string) (name : string) : res Z :=
  match h !! name with
  | None => Raise AttributeError
  | Some v =>
      match PyStr.split "/"%char v !! 1%nat with
      | None => Raise IndexError
      | Some s => PyStr.int (PyStr.strip s)
      end
  end.

(** [int(h.get(name))] *)
Definition int_header (h : gmap string string) (name : string) : res Z :=
  match h !! name with
  | None => Raise TypeError
  | Some v => PyStr.int v
  end.

(** What the generator does, in program order.  A request is recorded with
    the contents of the params it was sent with and the response received; a
    yielded chunk with the params of the window it was fetched for. *)
Inductive event :=
  | EHead (p : dict) (h : gmap string string)
  | EGet (p : dict) (r : response)
  | EYield (p : dict) (c : chunk)
  | ELogPage (status : Z)
  | ELogAbort (status : Z) (p : dict).

(** The chunks yielded along a trace, in order. *)
Definition yielded (t : list event) : list chunk :=
  omap (λ e, match e with EYield _ c => Some c | _ => None end) t.

(** The responses of the GET requests of a trace, in order. *)
Definition fetched (t : list event) : list response :=
  omap (λ e, match e with EGet _ r => Some r | _ => None end) t.

(** The params of the HEAD requests of a trace, in order: one per call of
    [get_lazy_job_offers]. *)
Definition probed (t : list event) : list dict :=
  omap (λ e, match e with EHead p _ => Some p | _ => None end) t.

(** The creation-date window written in a params dict. *)
Definition window_start (p : dict) : option Z :=
  match p !! "minCreationDate" with
  | Some (PTime a) => Some a
  | _ => None
  end.

Definition window_end (p : dict) : option Z :=
  match p !! "maxCreationDate" with
  | Some (PTime b) => Some b
  | _ => None
  end.

(** The start of the window of each yielded chunk, in order. *)
Definition yield_starts (t : list event) : list Z :=
  omap (λ e, match e with
             | EYield p _ => window_start p
             | _ => None
             end) t.

(** A yielded chunk whose params hold the start of a window. *)
Definition has_start (e : event) : Prop :=
  match e with
  | EYield p _ => is_Some (window_start p)
  | _ => True
  end.

(** A second-resolution timestamp lies in the closed window [a .. b]. *)
Definition in_window (x a b : Z) : Prop := a ≤ x ∧ x ≤ b.

Definition MAX_RANGE : Z := 3000.

(** [nb_offers >= self.MAX_RANGE]: [None] does not compare with an int. *)
Definition ge_max_range (nb_offers : option Z) : res bool :=
  match nb_offers with
  | Some n => Ok (MAX_RANGE <=? n)
  | None => Raise TypeError
  end.

(** [range_d + range if range_d + range <= range_end else range_end] *)
Definition range_advance (range_d range range_end : Z) : Z :=
  if range_d + range <=? range_end then range_d + range else range_end.

(** ** The store, the environment and the generator monad *)

(** A reference to a dict in the store. *)
Abbreviation loc := nat.

Section Engine.

(** The environment: its state [W], the clock read by [datetime.now()] (in
    microseconds), the HEAD request of the count probe ([requests.head]) and
    the authenticated GET ([session_get], with its token refresh and its
    retries).  Each of them answers from the params sent and the state of
    the environment, and always delivers a response; [Runtime] below is the
    traversal on a network whose requests can raise. *)
Variable W : Type.
Variable clock : W → Z * W.
Variable http_head : dict → W → gmap string string * W.
Variable http_get : dict → W → response * W.

Record state := State {
  heap : list dict;
  world : W;
}.

(** A computation emits events, changes the state and returns, raises or
    runs out of fuel. *)
Definition gen (A : Type) : Type := state → list event * state * res A.

Definition ret {A} (a : A) : gen A := λ s, ([], s, Ok a).

Definition bind {A B} (c : gen A) (k : A → gen B) : gen B :=
  λ s,
    match c s with
    | (t1, s1, Ok a) =>
        match k a s1 with
        | (t2, s2, r) => (t1 ++ t2, s2, r)
        end
    | (t1, s1, Raise e) => (t1, s1, Raise e)
    | (t1, s1, OutOfFuel) => (t1, s1, OutOfFuel)
    end.

Definition lift {A} (r : res A) : gen A := λ s, ([], s, r).
Definition emit (e : event) : gen unit := λ s, ([e], s, Ok tt).
Definition out_of_fuel {A} : gen A := lift OutOfFuel.

(** The dict a reference points to. *)
Definition deref (s : state) (l : loc) : dict := default ∅ (heap s !! l).
Definition read (l : loc) : gen dict := λ s, ([], s, Ok (deref s l)).

(** In-place update of the dict behind a reference. *)
Definition modify (l : loc) (f : dict → dict) : gen unit :=
  λ s, ([], State (alter f l (heap s)) (world s), Ok tt).

(** [d.copy()]: a new dict with the same items. *)
Definition copy (l : loc) : gen loc :=
  λ s, ([], State (heap s ++ [deref s l]) (world s), Ok (List.length (heap s))).

(** [datetime.now()] *)
Definition now : gen Z :=
  λ s, let '(t, w) := clock (world s) in ([], State (heap s) w, Ok t).

Notation "'let*' x ':=' c 'in' k" := (bind c (λ x, k))
  (at level 10, x name, c at level 100, k at level 200).
Notation "'let*' ( x , y ) ':=' c 'in' k" := (bind c (λ '(x, y), k))
  (at level 10, x name, y name, c at level 100, k at level 200).
Notation "c ';;' k" := (bind c (λ _, k))
  (at level 100, k at level 200, right associativity).

(** [requests.head(self.ENDPOINT_OFFERS, params=params, ...)] *)
Definition head_request (params : loc) : gen (gmap string string) :=
  λ s,
    let d := deref s params in
    let '(h, w) := http_head d (world s) in
    ([EHead d h], State (heap s) w, Ok h).

(** [self.session_get(self.ENDPOINT_OFFERS, params=params)] *)
Definition session_get (params : loc) : gen response :=
  λ s,
    let d := deref s params in
    let '(r, w) := http_get d (world s) in
    ([EGet d r], State (heap s) w, Ok r).

(** [yield c] in the frame whose params are [params]. *)
Definition yield (params : loc) (c : chunk) : gen unit :=
  λ s, ([EYield (deref s params) c], s, Ok tt).

(** ** [get_nb_offers] *)
Definition get_nb_offers (params : loc) : gen (option Z) :=
  let* h := head_request params in
  match h !! "Content-Range" with
  | Some _ =>
      let* n := lift (range_total h "Content-Range") in
      ret (Some n)
  | None => ret None
  end.

(** ** The window of a splitting call, from [minCreationDate] and
    [maxCreationDate] or their defaults. *)
Definition window_bounds (params : loc) (maxCreationDays : Z)
  : gen (Z * Z) :=
  let* d := read params in
  let* start_date :=
    match d !! "minCreationDate" with
    | Some v => lift (strptime v)
    | None =>
        let* t := now in
        let* td := lift (PyDate.timedelta_days maxCreationDays) in
        lift (PyDate.sub t td)
    end in
  let* end_date :=
    match d !! "maxCreationDate" with
    | Some v => lift (strptime v)
    | None => now
    end in
  ret (start_date, end_date).

(** ** [publieeDepuis] turned into a date and folded into [start_date];
    returns the new [start_date]. *)
Definition fold_published (params : loc) (start_date : Z) : gen Z :=
  let* d := read params in
  match d !! "publieeDepuis" with
  | Some v =>
      let* published_for_param := lift (int_of_pvalue v) in
      let* t := now in
      let* td := lift (PyDate.timedelta_days published_for_param) in
      let* published_for_date := lift (PyDate.sub t td) in
      if start_date <? published_for_date then
        modify params (delete "publieeDepuis") ;;
        ret published_for_date
      else ret start_date
  | None => ret start_date
  end.

Definition effective_window (params : loc) (maxCreationDays : Z)
  : gen (Z * Z) :=
  let* (start_date, end_date) := window_bounds params maxCreationDays in
  let* start_date := fold_published params start_date in
  ret (start_date, end_date).

(** ** The two copies of the params, one per half of the window. *)
Definition split_params (params : loc) (start_date end_date : Z)
  : gen (loc * loc) :=
  let* mid_date :=
    lift (PyDate.add start_date (PyDate.halve (end_date - start_date))) in
  let* params1 := copy params in
  let* params2 := copy params in
  modify params1 (insert "minCreationDate" (strftime start_date)) ;;
  modify params1 (insert "maxCreationDate" (strftime mid_date)) ;;
  let* after_mid := lift (PyDate.add mid_date PyDate.one_second) in
  modify params2 (insert "minCreationDate" (strftime after_mid)) ;;
  modify params2 (insert "maxCreationDate" (strftime end_date)) ;;
  ret (params1, params2).

Definition unexpected (status : Z) : bool :=
  negb (status =? 200) && negb (status =? 206).

(** ** The [while range_d < range_end] loop of the 206 branch. *)
Fixpoint page_loop (fuel : nat) (params : loc)
    (range range_p range_d range_end : Z) : gen unit :=
  if range_d <? range_end then
    match fuel with
    | O => out_of_fuel
    | S fuel' =>
        let range_p := range_p + range in
        let range_d := range_advance range_d range range_end in
        let* response := session_get params in
        if unexpected (status_code response) then
          emit (ELogPage (status_code response)) ;;
          page_loop fuel' params range range_p range_d range_end
        else
          let* c := lift (resultats response) in
          yield params c ;;
          page_loop fuel' params range range_p range_d range_end
    end
  else ret tt.

(** ** The base case: one window fetched page by page. *)
Definition fetch_window (fuel : nat) (params : loc) : gen unit :=
  let* response := session_get params in
  if status_code response =? 200 then
    let* c := lift (resultats response) in
    yield params c
  else if status_code response =? 206 then
    let* c := lift (resultats response) in
    yield params c ;;
    let* range_end := lift (range_total (headers response) "Content-Range") in
    let* range := lift (int_header (headers response) "Accept-Range") in
    page_loop fuel params range 0 (range - 1) range_end
  else
    let* d := read params in
    emit (ELogAbort (status_code response) d).

(** ** [get_lazy_job_offers]

    [fuel] bounds the nesting of the recursive calls and the turns of the
    loop.  A run that is [OutOfFuel] whatever the fuel is a run that Python
    does not finish by itself: the loop goes on for ever, or the nesting
    grows until the interpreter stops it with [RecursionError], which
    [Runtime] below makes explicit. *)
Fixpoint get_lazy_job_offers (fuel : nat) (params : loc)
    (maxCreationDays : Z) : gen unit :=
  match fuel with
  | O => out_of_fuel
  | S fuel' =>
      let* nb_offers := get_nb_offers params in
      let* recursive := lift (ge_max_range nb_offers) in
      if recursive : bool then
        let* (start_date, end_date) :=
          effective_window params maxCreationDays in
        let* (params1, params2) :=
          split_params params start_date end_date in
        get_lazy_job_offers fuel' params1 365 ;;
        get_lazy_job_offers fuel' params2 365
      else fetch_window fuel' params
  end.

(** The recursive part of [get_lazy_job_offers], with [fuel] left for
    each of the two recursive calls. *)
Definition split_branch (fuel : nat) (params : loc) (maxCreationDays : Z)
  : gen unit :=
  let* (start_date, end_date) := effective_window params maxCreationDays in
  let* (params1, params2) := split_params params start_date end_date in
  get_lazy_job_offers fuel params1 365 ;;
  get_lazy_job_offers fuel params2 365.

(** ** [get_all_job_offers]: the generator drained into one list. *)
Definition get_all_job_offers (fuel : nat) (params : loc)
    (maxCreationDays : Z) : gen (list offer) :=
  λ s,
    match get_lazy_job_offers fuel params maxCreationDays s with
    | (t, s', Ok _) => (t, s', Ok (List.concat (yielded t)))
    | (t, s', Raise e) => (t, s', Raise e)
    | (t, s', OutOfFuel) => (t, s', OutOfFuel)
    end.

End Engine.

Arguments State {W} heap world.
Arguments heap {W} s.
Arguments world {W} s.
Arguments deref {W} s l.
Arguments ret {W A} a s.
Arguments bind {W A B} c k s.
Arguments lift {W A} r s.
Arguments emit {W} e s.
Arguments read {W} l s.
Arguments modify {W} l f s.
Arguments copy {W} l s.
Arguments yield {W} params c s.
Arguments now {W} clock s.
Arguments head_request {W} http_head params s.
Arguments session_get {W} http_get params s.
Arguments get_nb_offers {W} http_head params s.
Arguments window_bounds {W} clock params maxCreationDays s.
Arguments fold_published {W} clock params start_date s.
Arguments effective_window {W} clock params maxCreationDays s.
Arguments split_params {W} params start_date end_date s.
Arguments page_loop {W} http_get fuel params range range_p range_d range_end s.
Arguments fetch_window {W} http_get fuel params s.
Arguments get_lazy_job_offers {W} clock http_head http_get
  fuel params maxCreationDays s.
Arguments split_branch {W} clock http_head http_get
  fuel params maxCreationDays s.
Arguments get_all_job_offers {W} clock http_head http_get
  fuel params maxCreationDays s.

(** ** Simulated servers *)

(** A scripted server: the clock readings, the HEAD responses and the GET
    responses are consumed in order, whatever the params. *)
Module Mock.

Record world := World {
  ticks : list Z;
  heads : list (gmap string string);
  gets : list response;
}.

Definition clock (w : world) : Z * world :=
  match ticks w with
  | t :: r => (t, World r (heads w) (gets w))
  | [] => (0, w)
  end.

Definition http_head (_ : dict) (w : world) : gmap string string * world :=
  match heads w with
  | h :: r => (h, World (ticks w) r (gets w))
  | [] => (∅, w)
  end.

Definition http_get (_ : dict) (w : world) : response * world :=
  match gets w with
  | g :: r => (g, World (ticks w) (heads w) r)
  | [] => (Response 500 ∅ None, w)
  end.

Definition get_nb_offers := get_nb_offers http_head.
Definition get_lazy_job_offers := get_lazy_job_offers clock http_head http_get.
Definition get_all_job_offers := get_all_job_offers clock http_head http_get.

(** A call on a dict held by the caller: the dict is the only object of
    the store. *)
Definition start (d : dict) (w : world) : state world := State [d] w.

End Mock.

(** Headers and bodies of the simulated responses. *)
Definition content_range (total : string) : gmap string string :=
  {[ "Content-Range" := "offres 0-149/" +:+ total ]}.

Definition partial_headers (total page : string) : gmap string string :=
  <[ "Accept-Range" := page ]> (content_range total).

Definition page (status : Z) (h : gmap string string) (c : chunk) : response :=
  Response status h (Some {[ "resultats" := c ]}).

(** 2024-01-01T00:00:00 and one day, in microseconds and in seconds. *)
Definition T2024 : Z := 738885 * PyDate.US_PER_DAY.
Definition S2024 : Z := 738885 * 86400.
Definition DAY : Z := 86400.

(** A window of one day, two days before 2024-01-01. *)
Definition params_window : dict :=
  {[ "departement" := PStr "42";
     "minCreationDate" := PTime (S2024 - 2 * DAY);
     "maxCreationDate" := PTime (S2024 - DAY) ]}.

(** The example of the documentation: a department and no dates. *)
Definition params_dept : dict := {[ "departement" := PStr "42" ]}.

(** A response with status 200 whose body has no [resultats] field. *)
Definition empty_body : response := Response 200 ∅ (Some ∅).

(** A server that counts 12 offers and answers the fetch with [empty_body]. *)
Definition world_empty_body : Mock.world :=
  Mock.World [] [content_range "12"] [empty_body].

(** A server whose count probe carries no [Content-Range] header. *)
Definition world_no_range : Mock.world :=
  Mock.World [] [∅] [page 200 ∅ ["offer-1"]].

(** An outcome with the events [t] put before its own. *)
Definition after {W A} (t : list event)
    (out : list event * state W * res A) : list event * state W * res A :=
  (t ++ out.1.1, out.1.2, out.2).

(** A simulated server without a script: its state counts the requests,
    [count] gives the total of the count probe from the params, [pg] the
    response to the [n]-th request. *)
Module Sim.

Definition clock (n : nat) : Z * nat := (T2024 + Z.of_nat n, S n).

Definition http_head (count : dict → string) (d : dict) (n : nat)
  : gmap string string * nat :=
  (content_range (count d), S n).

Definition http_get (pg : nat → response) (_ : dict) (n : nat)
  : response * nat :=
  (pg n, S n).

End Sim.

(** Pages of 100 out of 320 offers, every other request failing with 503. *)
Definition flaky_page (n : nat) : response :=
  if Nat.even n
  then page 206 (partial_headers "320" "100") ["offer"]
  else Response 503 ∅ None.

(** A response with status 200 or 206. *)
Definition successful (r : response) : bool :=
  negb (unexpected (status_code r)).

(** The chunks of a trace are the [resultats] of its successful fetches, one
    for one and in order. *)
Definition chunk_per_success (t : list event) : Prop :=
  Forall2 (λ c r, resultats r = Ok c) (yielded t)
    (List.filter successful (fetched t)).

(** The events of the walk of the window whose params are [d]. *)
Definition window_event (d : dict) (e : event) : Prop :=
  match e with
  | EHead _ _ => False
  | EGet p _ | EYield p _ | ELogAbort _ p => p = d
  | ELogPage _ => True
  end.

(** Three offers created within the last year, two in the older half. *)
Definition world_two_halves : Mock.world :=
  Mock.World [T2024; T2024 + 3]
    [content_range "3500"; content_range "1800"; content_range "1700"]
    [page 200 ∅ ["offer-1"; "offer-2"]; page 200 ∅ ["offer-3"]].

(** Offers of the last 10 days asked for, with a window that starts 30 days
    before 2024-01-01: [publieeDepuis] raises the start. *)
Definition params_month : dict :=
  {[ "publieeDepuis" := PStr "10";
     "minCreationDate" := PTime (S2024 - 30 * DAY);
     "maxCreationDate" := PTime S2024 ]}.

(** The same with a window that starts 5 days before 2024-01-01:
    [publieeDepuis] does not raise the start. *)
Definition params_recent : dict :=
  {[ "publieeDepuis" := PStr "10";
     "minCreationDate" := PTime (S2024 - 5 * DAY);
     "maxCreationDate" := PTime S2024 ]}.

(** A root above the ceiling, two children below it, read at 2024-01-01. *)
Definition world_one_split : Mock.world :=
  Mock.World [T2024]
    [content_range "3500"; content_range "1800"; content_range "1700"]
    [page 200 ∅ ["offer-1"; "offer-2"]; page 200 ∅ ["offer-3"]].

(** What a call on [params] may do to the store: allocate new dicts, and
    remove [publieeDepuis] from the dict behind [params]. *)
Definition frame {W} (params : loc) (s s' : state W) : Prop :=
  (List.length (heap s) ≤ List.length (heap s'))%nat
  ∧ ∀ l, (l < List.length (heap s))%nat →
      heap s' !! l = heap s !! l
      ∨ (l = params
         ∧ heap s' !! l = delete "publieeDepuis" <$> heap s !! l).

(** Params with an explicit window [a .. b] and no [publieeDepuis]. *)
Definition dated (d : dict) (a b : Z) : Prop :=
  d !! "minCreationDate" = Some (PTime a)
  ∧ d !! "maxCreationDate" = Some (PTime b)
  ∧ d !! "publieeDepuis" = None.

(** The chunks of a trace all carry a window start, these starts lie in
    [lo .. hi] and they never decrease. *)
Definition starts_within (lo hi : Z) (t : list event) : Prop :=
  StronglySorted Z.le (yield_starts t)
  ∧ Forall (λ x, lo ≤ x ≤ hi) (yield_starts t)
  ∧ Forall has_start t.

(** The params of the example at the end of the source file:
    [minCreationDate] 2022-12-21T00:42:12 is later than [maxCreationDate]
    2021-12-21T12:12:42. *)
Definition params_example : dict :=
  {[ "departement" := PStr "42";
     "maxCreationDate" := PTime (738144 * 86400 + 12 * 3600 + 12 * 60 + 42);
     "minCreationDate" := PTime (738509 * 86400 + 0 * 3600 + 42 * 60 + 12) ]}.

(** A root above the ceiling and two children below it, with no clock. *)
Definition world_split_dated : Mock.world :=
  Mock.World []
    [content_range "3500"; content_range "1800"; content_range "1700"]
    [page 200 ∅ ["offer-1"; "offer-2"]; page 200 ∅ ["offer-3"]].

(** A run that returned or raised. *)
Definition finished {A} (r : res A) : Prop := r ≠ OutOfFuel.

(** The window written in [d] is shorter than [len] seconds. *)
Definition shorter (d : dict) (len : Z) : Prop :=
  ∃ a b, window_start d = Some a ∧ window_end d = Some b ∧ b - a < len.

(** Every response with status 206 grants pages of a positive size. *)
Definition pages_positive {W} (http_get : dict → W → response * W) : Prop :=
  ∀ p w g,
    status_code (http_get p w).1 = 206 →
    int_header (headers (http_get p w).1) "Accept-Range" = Ok g →
    0 < g.

(** Each split strictly reduces the duration of the window: whenever the
    count probe of a call is at or above the ceiling, the windows of its two
    children are shorter than the window that is split. *)
Definition splits_reduce {W} (clock : W → Z * W)
    (http_head : dict → W → gmap string string * W) : Prop :=
  ∀ params maxCreationDays (s s0 s1 s2 : state W) t0 n t1 start_date end_date
    t2 l1 l2,
    get_nb_offers http_head params s = (t0, s0, Ok (Some n)) →
    MAX_RANGE ≤ n →
    effective_window clock params maxCreationDays s0
    = (t1, s1, Ok (start_date, end_date)) →
    split_params params start_date end_date s1 = (t2, s2, Ok (l1, l2)) →
    shorter (deref s2 l1)
      (PyDate.second_of end_date - PyDate.second_of start_date)
    ∧ shorter (deref s2 l2)
        (PyDate.second_of end_date - PyDate.second_of start_date).

(** A server that always counts 12 offers and answers every fetch with a
    partial page that grants a page size of 0. *)
Definition small_count (_ : dict) : string := "12".

Definition stuck_page (_ : nat) : response :=
  page 206 (partial_headers "12" "0") ["offer"].

(** A count oracle that is above the ceiling exactly on the windows of half
    a day or more that carry no [publieeDepuis]. *)
Definition splittable (d : dict) : bool :=
  match window_start d, window_end d, d !! "publieeDepuis" with
  | Some a, Some b, None => 43200 <=? b - a
  | _, _, _ => false
  end.

Definition bisect_count (d : dict) : string :=
  if splittable d then "3500" else "120".

(** Pages of 100 out of 320 offers, at every request. *)
Definition steady_page (_ : nat) : response :=
  page 206 (partial_headers "320" "100") ["offer"].

(** A window of 4 seconds that starts 10 days before 2024-01-01, asked for
    with [publieeDepuis] = 10. *)
Definition params_narrow : dict :=
  {[ "publieeDepuis" := PStr "10";
     "minCreationDate" := PTime (S2024 - 10 * DAY);
     "maxCreationDate" := PTime (S2024 - 10 * DAY + 4) ]}.

(** The root and its left child are above the ceiling; the clock is read at
    2024-01-01T00:00:00 by the root and 10 seconds later by its left
    child. *)
Definition world_late_fold : Mock.world :=
  Mock.World [T2024; T2024 + 10 * PyDate.US_PER_SECOND]
    [content_range "3500"; content_range "3200"; content_range "1500";
     content_range "1700"; content_range "300"]
    [page 200 ∅ ["offer-1"]; page 200 ∅ ["offer-2"]; page 200 ∅ ["offer-3"]].

(** The number of turns the paging loop makes from [range_d] when pages of
    [range] are granted out of [range_end]. *)
Definition turns (range range_d range_end : Z) : nat :=
  Z.to_nat ((range_end - range_d + range - 1) `div` range).

(** * The client object: token, headers, session and the other requests *)

Module Api.

Definition SCOPE : string := "api_offresdemploiv2 o2dsoffre".
Definition TOKEN_URL : string :=
  "https://entreprise.francetravail.fr/connexion/oauth2/access_token?realm=/partenaire".
Definition BASE_URL : string :=
  "https://api.francetravail.io/partenaire/offresdemploi/".
Definition ENDPOINT_OFFERS : string := BASE_URL +:+ "v2/offres/search".
Definition ENDPOINT_OFFER : string := BASE_URL +:+ "v2/offres/".
Definition ENDPOINT_MASTERDATA : string := BASE_URL +:+ "v2/referentiel/".

Definition MASTER_DATA : gmap string string :=
  list_to_map [
    ("appellations", "Referentiel des appellations ROME");
    ("communes", "Referentiel des communes");
    ("continents", "Referentiel des continents");
    ("departements", "Referentiel des départements");
    ("domaines", "Referentiel des domaines métiers");
    ("langues", "Referentiel des langues");
    ("metiers", "Referentiel des métiers ROME");
    ("nafs", "Referentiel des codes NAF");
    ("naturesContrats", "Referentiel des natures de contrats");
    ("niveauxFormations", "Referentiel des niveaux de formation");
    ("pays", "Referentiel des pays");
    ("permis", "Referentiel des permis");
    ("regions", "Referentiel des régions");
    ("secteursActivites", "Referentiel des secteurs d'activité");
    ("themes", "Referentiel des thèmes");
    ("typesContrats", "Referentiel des types de contrats")
  ].

(** [Retry(total=..., backoff_factor=..., status_forcelist=...)]; the
    backoff factor is kept as the decimal fraction written in the source. *)
Record Retry := MkRetry {
  total : Z;
  backoff_factor : QArith_base.Q;
  status_forcelist : list Z;
}.

(** [HTTPAdapter(max_retries=retry)] *)
Record HTTPAdapter := MkHTTPAdapter {
  max_retries : Retry;
}.

(** A [requests.Session] with the adapters mounted on it by this code, by
    URL prefix. *)
Record Session := MkSession {
  mounts : gmap string HTTPAdapter;
}.

(** [requests.Session()] followed by [mount("https://", a)]. *)
Definition mounted (a : HTTPAdapter) : Session :=
  MkSession (<["https://" := a]> ∅).

(** An OAuth token: the items of the dict that [fetch_token] returns, each
    value as [str] prints it. *)
Abbreviation token := (gmap string string).

Inductive verb := GET | HEAD.

Section Client.

(** The types of the [proxies] and [config] arguments, and of the JSON
    values other than [null]. *)
Variables Proxies Config J : Type.

(** A response: [json] is what [response.json()] gives, [Ok None] for the
    body [null]. *)
Record reply := Reply {
  status_code : Z;
  headers : gmap string string;
  json : res (option J);
  text : string;
}.

(** A request as it is handed to [requests]: [through] is the session it is
    sent through, [None] for a plain [requests.head]. *)
Record request := Request {
  method : verb;
  through : option Session;
  url : string;
  params : option dict;
  req_headers : gmap string string;
  req_proxies : option Proxies;
}.

(** The fields of the object. *)
Record client := Client {
  client_id : string;
  client_secret : string;
  proxies : option Proxies;
  config : option Config;
  token_ : option token;
  session_ : option Session;
  adapter : HTTPAdapter;
}.

Definition set_token (t : token) (c : client) : client :=
  Client (client_id c) (client_secret c) (proxies c) (config c)
    (Some t) (session_ c) (adapter c).

Definition set_session (x : Session) (c : client) : client :=
  Client (client_id c) (client_secret c) (proxies c) (config c)
    (token_ c) (Some x) (adapter c).

(** ** [__init__] *)
Definition __init__ (client_id client_secret : string)
    (proxies : option Proxies) (config : option Config) : client :=
  let retry :=
    MkRetry 4 (QArith_base.Qmake 2 10) [429; 500; 502; 503] in
  Client client_id client_secret proxies config None None
    (MkHTTPAdapter retry).

(** The environment: its state [W], the token endpoint behind
    [OAuth2Session.fetch_token] (called with the token URL, the client id,
    the client secret, the scope and the proxies) and the network behind
    [requests].  Both always deliver. *)
Variable W : Type.
Variable fetch_token :
  string → string → string → string → option Proxies → W → token * W.
Variable send : request → W → reply * W.

(** What the object does, in program order. *)
Inductive call :=
  | CToken (t : token)
  | CSend (q : request) (r : reply)
  | CLogError (mdata : string)
  | CLogWarning (offer_id : string) (status : Z) (text : string).

Record state := State {
  self : client;
  world : W;
}.

Definition act (A : Type) : Type := state → list call * state * res A.

Definition ret {A} (a : A) : act A := λ s, ([], s, Ok a).

Definition bind {A B} (c : act A) (k : A → act B) : act B :=
  λ s,
    match c s with
    | (t1, s1, Ok a) =>
        match k a s1 with
        | (t2, s2, r) => (t1 ++ t2, s2, r)
        end
    | (t1, s1, Raise e) => (t1, s1, Raise e)
    | (t1, s1, OutOfFuel) => (t1, s1, OutOfFuel)
    end.

Definition lift {A} (r : res A) : act A := λ s, ([], s, r).
Definition log (e : call) : act unit := λ s, ([e], s, Ok tt).

Notation "'let*' x ':=' c 'in' k" := (bind c (λ x, k))
  (at level 10, x name, c at level 100, k at level 200).
Notation "c ';;' k" := (bind c (λ _, k))
  (at level 100, k at level 200, right associativity).

(** ** [_get_new_oauth_token] *)
Definition _get_new_oauth_token : act token :=
  λ s,
    let c := self s in
    let '(t, w) :=
      fetch_token TOKEN_URL (client_id c) (client_secret c) SCOPE
        (proxies c) (world s) in
    ([CToken t], State (set_token t c) w, Ok t).

(** ** [_get_oauth_token]: [if self.__token] holds for a token that is
    neither [None] nor an empty dict. *)
Definition _get_oauth_token : act token :=
  λ s,
    match token_ (self s) with
    | Some t =>
        if bool_decide (t = ∅) then _get_new_oauth_token s else ret t s
    | None => _get_new_oauth_token s
    end.

(** ** [_build_headers] *)
Definition _build_headers : act (gmap string string) :=
  let* token := _get_oauth_token in
  match token !! "access_token" with
  | Some a =>
      ret (<["Authorization" := "Bearer " +:+ a]>
             (<["Accept" := "application/json"]> ∅))
  | None => lift (Raise KeyError)
  end.

(** [self._session.get(url=url, headers=headers, params=params,
    proxies=self.proxies)] *)
Definition session_send (url : string) (headers : gmap string string)
    (params : option dict) : act reply :=
  λ s,
    match session_ (self s) with
    | Some x =>
        let q := Request GET (Some x) url params headers (proxies (self s)) in
        let '(r, w) := send q (world s) in
        ([CSend q r], State (self s) w, Ok r)
    | None => ([], s, Raise AttributeError)
    end.

(** [if not self._session: ...]: a session object is always true. *)
Definition ensure_session : act unit :=
  λ s,
    match session_ (self s) with
    | Some _ => ([], s, Ok tt)
    | None =>
        let x := mounted (adapter (self s)) in
        ([], State (set_session x (self s)) (world s), Ok tt)
    end.

(** ** [session_get] *)
Definition session_get (url : string) (params : option dict)
    (headers : option (gmap string string)) : act reply :=
  ensure_session ;;
  let* headers :=
    match headers with
    | None => _build_headers
    | Some h => ret h
    end in
  let* r := session_send url headers params in
  if status_code r =? 403 then
    _get_new_oauth_token ;;
    session_send url headers params
  else ret r.

(** ** [get_masterdata] *)
Definition get_masterdata (mdata : string) : act (option J) :=
  if bool_decide (mdata ∈ dom MASTER_DATA) then
    let* response := session_get (ENDPOINT_MASTERDATA +:+ mdata) None None in
    lift (json response)
  else
    log (CLogError mdata) ;;
    ret None.

(** [requests.head(url, params=params, headers=headers,
    proxies=self.proxies)] *)
Definition requests_head (url : string) (params : dict)
    (headers : gmap string string) : act reply :=
  λ s,
    let q := Request HEAD None url (Some params) headers (proxies (self s)) in
    let '(r, w) := send q (world s) in
    ([CSend q r], State (self s) w, Ok r).

(** ** [get_nb_offers], with the headers it builds *)
Definition get_nb_offers (params : dict) : act (option Z) :=
  let* built := _build_headers in
  let* r := requests_head ENDPOINT_OFFERS params built in
  match headers r !! "Content-Range" with
  | Some _ =>
      let* n := lift (range_total (headers r) "Content-Range") in
      ret (Some n)
  | None => ret None
  end.

(** ** [get_offer] *)
Definition get_offer (offer_id : string) : act (option J) :=
  let* response := session_get (ENDPOINT_OFFERS +:+ offer_id) None None in
  if status_code response =? 200 then lift (json response)
  else
    log (CLogWarning offer_id (status_code response) (text response)) ;;
    ret None.

(** A use of the object through its public methods. *)
Inductive op :=
  | SessionGet (url : string) (params : option dict)
      (headers : option (gmap string string))
  | GetMasterdata (mdata : string)
  | GetNbOffers (params : dict)
  | GetOffer (offer_id : string).

Definition run_op (o : op) : act unit :=
  match o with
  | SessionGet url params headers => session_get url params headers ;; ret tt
  | GetMasterdata mdata => get_masterdata mdata ;; ret tt
  | GetNbOffers params => get_nb_offers params ;; ret tt
  | GetOffer offer_id => get_offer offer_id ;; ret tt
  end.

(** A series of uses, each one started whatever the previous one returned
    or raised, as by a caller that catches the exceptions. *)
Fixpoint run_ops (os : list op) : act unit :=
  match os with
  | [] => ret tt
  | o :: os =>
      λ s,
        match run_op o s with
        | (t1, s1, _) =>
            match run_ops os s1 with
            | (t2, s2, r) => (t1 ++ t2, s2, r)
            end
        end
  end.

(** [bool(self.__token)] *)
Definition has_token (c : client) : bool :=
  match token_ c with
  | Some t => negb (bool_decide (t = ∅))
  | None => false
  end.

(** The token fetch that the next call of [_get_oauth_token] makes. *)
Definition owed (c : client) : nat := if has_token c then 0%nat else 1%nat.

(** The requests of a trace, in order, the number of tokens fetched and the
    number of session requests answered with status 403. *)
Definition sent (t : list call) : list request :=
  omap (λ e, match e with CSend q _ => Some q | _ => None end) t.

Definition is_fetch (e : call) : bool :=
  match e with
  | CToken _ => true
  | _ => false
  end.

Definition fetches (t : list call) : nat :=
  List.length (List.filter is_fetch t).

Definition is_refusal (e : call) : bool :=
  match e with
  | CSend q r =>
      match method q with
      | GET => status_code r =? 403
      | HEAD => false
      end
  | _ => false
  end.

Definition refusals (t : list call) : nat :=
  List.length (List.filter is_refusal t).

(** A token is fetched only when none is held or after a refusal. *)
Definition frugal {A} (m : act A) : Prop :=
  ∀ s, (fetches (m s).1.1 + owed (self (m s).1.2)
        ≤ owed (self s) + refusals (m s).1.1)%nat.

(** A request carries the proxies [p]; a GET goes through the session that
    has [a] mounted, a HEAD through none. *)
Definition routed (a : HTTPAdapter) (p : option Proxies) (e : call) : Prop :=
  match e with
  | CSend q _ =>
      req_proxies q = p
      ∧ through q = match method q with
                    | GET => Some (mounted a)
                    | HEAD => None
                    end
  | _ => True
  end.

Definition wired (a : HTTPAdapter) (p : option Proxies) (c : client) : Prop :=
  adapter c = a ∧ proxies c = p
  ∧ (session_ c = None ∨ session_ c = Some (mounted a)).

Definition tidy {A} (a : HTTPAdapter) (p : option Proxies) (m : act A)
  : Prop :=
  ∀ s, wired a p (self s) →
       wired a p (self (m s).1.2) ∧ Forall (routed a p) (m s).1.1.

(** A request of a trace is a GET of [u] with the params [p]. *)
Definition aimed (u : string) (p : option dict) (e : call) : Prop :=
  match e with
  | CSend q _ => method q = GET ∧ url q = u ∧ params q = p
  | _ => True
  end.

End Client.

Arguments Reply {J}.
Arguments status_code {J}.
Arguments headers {J}.
Arguments json {J}.
Arguments text {J}.
Arguments Request {Proxies}.
Arguments method {Proxies}.
Arguments through {Proxies}.
Arguments url {Proxies}.
Arguments params {Proxies}.
Arguments req_headers {Proxies}.
Arguments req_proxies {Proxies}.
Arguments Client {Proxies Config}.
Arguments client_id {Proxies Config}.
Arguments client_secret {Proxies Config}.
Arguments proxies {Proxies Config}.
Arguments config {Proxies Config}.
Arguments token_ {Proxies Config}.
Arguments session_ {Proxies Config}.
Arguments adapter {Proxies Config}.
Arguments set_token {Proxies Config}.
Arguments set_session {Proxies Config}.
Arguments __init__ {Proxies Config}.
Arguments CToken {Proxies J}.
Arguments CSend {Proxies J}.
Arguments CLogError {Proxies J}.
Arguments CLogWarning {Proxies J}.
Arguments State {Proxies Config W}.
Arguments self {Proxies Config W}.
Arguments world {Proxies Config W}.
Arguments ret {Proxies Config J W A}.
Arguments bind {Proxies Config J W A B}.
Arguments lift {Proxies Config J W A}.
Arguments log {Proxies Config J W}.
Arguments _get_new_oauth_token {Proxies Config J W}.
Arguments _get_oauth_token {Proxies Config J W}.
Arguments _build_headers {Proxies Config J W}.
Arguments session_send {Proxies Config J W}.
Arguments ensure_session {Proxies Config J W}.
Arguments session_get {Proxies Config J W}.
Arguments get_masterdata {Proxies Config J W}.
Arguments requests_head {Proxies Config J W}.
Arguments get_nb_offers {Proxies Config J W}.
Arguments get_offer {Proxies Config J W}.
Arguments run_op {Proxies Config J W}.
Arguments run_ops {Proxies Config J W}.
Arguments has_token {Proxies Config}.
Arguments owed {Proxies Config}.
Arguments frugal {Proxies Config J W A}.
Arguments routed {Proxies J}.
Arguments wired {Proxies Config}.
Arguments tidy {Proxies Config J W A}.
Arguments aimed {Proxies J}.
Arguments sent {Proxies J}.
Arguments is_fetch {Proxies J}.
Arguments fetches {Proxies J}.
Arguments is_refusal {Proxies J}.
Arguments refusals {Proxies J}.

End Api.

(** ** More simulated servers *)

(** A count probe that always reports 3500 offers. *)
Definition crowded (_ : dict) : string := "3500".

(** A window of zero duration: the second 2024-01-01T00:00:00. *)
Definition params_instant : dict :=
  {[ "minCreationDate" := PTime S2024;
     "maxCreationDate" := PTime S2024 ]}.

(** A count probe whose [Content-Range] holds the total alone. *)
Definition world_bare_total : Mock.world :=
  Mock.World [] [{[ "Content-Range" := "3500" ]}] [].

(** A token endpoint and a server for the client object.  The state counts
    the calls; the endpoint hands out the access token [fresh], and the
    server refuses with status 403 every request that does not carry it.
    To the others it answers, by URL: the offer [123ABC], the referential
    [themes], a count of 320 offers on the search endpoint, and status 404
    with a JSON error body for anything else. *)
Module Net.

Definition token_of (a : string) : Api.token :=
  {[ "access_token" := a; "token_type" := "Bearer" ]}.

Definition fetch_token (_ _ _ _ : string) (_ : option unit) (n : nat)
  : Api.token * nat :=
  (token_of "fresh", S n).

Definition accepted (q : Api.request unit) : bool :=
  bool_decide (Api.req_headers q !! "Authorization" = Some "Bearer fresh").

Definition refusal : Api.reply string :=
  Api.Reply 403 ∅ (Raise JSONDecodeError) "Forbidden".

Definition answer (q : Api.request unit) : Api.reply string :=
  if String.eqb (Api.url q) (Api.ENDPOINT_OFFERS +:+ "123ABC") then
    Api.Reply 200 ∅ (Ok (Some "offer 123ABC")) "offer 123ABC"
  else if String.eqb (Api.url q) (Api.ENDPOINT_MASTERDATA +:+ "themes") then
    Api.Reply 200 ∅ (Ok (Some "themes")) "themes"
  else if String.eqb (Api.url q) Api.ENDPOINT_OFFERS then
    Api.Reply 206 (partial_headers "320" "100") (Ok (Some "offers"))
      "offers"
  else
    Api.Reply 404 ∅ (Ok (Some "not found")) "not found".

Definition send (q : Api.request unit) (n : nat) : Api.reply string * nat :=
  (if accepted q then answer q else refusal, S n).

(** A new object, and an object that holds the access token [stale] and
    has made no request yet. *)
Definition new : Api.client unit unit :=
  Api.__init__ "id" "secret" None None.

Definition stale : Api.client unit unit :=
  Api.set_token (token_of "stale") new.

(** The same object once it holds the access token [fresh]. *)
Definition renewed : Api.client unit unit :=
  Api.set_token (token_of "fresh") new.

End Net.

(** A window whose start is written as a day, without a time. *)
Definition params_day : dict :=
  {[ "departement" := PStr "42";
     "minCreationDate" := PStr "2023-12-30" ]}.

(** * The traversal when a request can fail

    The engine above takes a network that answers every request.  Here a
    request may raise instead, as it does in the program: the session of
    [session_get] goes through the adapter that [__init__] built, which
    repeats an exchange answered with a status of its [status_forcelist] and
    raises [RetryError] when its retries are spent; the transport may fail;
    and the interpreter bounds the nesting of the recursive calls.  Nothing
    in [ftjoboffersapi.py] catches an exception. *)

Module Runtime.

(** The retry policy that [__init__] gives to the adapter of the session. *)
Definition policy : Api.Retry :=
  Api.MkRetry 4 (QArith_base.Qmake 2 10) [429; 500; 502; 503].

(** [Retry.RETRY_AFTER_STATUS_CODES] *)
Definition RETRY_AFTER_STATUS_CODES : list Z := [413; 429; 503].

(** [bool(response.headers.get("Retry-After"))] *)
Definition has_retry_after (r : response) : bool :=
  match headers r !! "Retry-After" with
  | Some v => negb (String.eqb v "")
  | None => false
  end.

(** [Retry.is_retry] for a GET with [total] retries left: a status of the
    force list, or, while retries are left, a [Retry-After] header on a
    status 413, 429 or 503. *)
Definition is_retry (p : Api.Retry) (total : nat) (r : response) : bool :=
  bool_decide (status_code r ∈ Api.status_forcelist p)
  || (negb (Nat.eqb total 0) && has_retry_after r
      && bool_decide (status_code r ∈ RETRY_AFTER_STATUS_CODES)).

Section Traversal.

Variable W : Type.

(** What the environment does with its state: it returns or raises. *)
Definition io (A : Type) : Type := W → (exn + A) * W.

Definition io_ret {A} (a : A) : io A := λ w, (inr a, w).

Definition io_bind {A B} (c : io A) (k : A → io B) : io B :=
  λ w,
    match c w with
    | (inr a, w') => k a w'
    | (inl e, w') => (inl e, w')
    end.

(** The environment: the clock; the count probe, that is
    [requests.head(..., headers=self._build_headers(), ...)] as a whole;
    [self._build_headers()] at the start of [session_get]; one exchange of
    the session's GET with the server, a transport failure being an
    exception; and [self._get_new_oauth_token()]. *)
Record network := Network {
  clock : W → Z * W;
  head : dict → io (gmap string string);
  build_headers : io unit;
  exchange : dict → io response;
  new_token : io unit;
}.

Variable net : network.

(** [self._session.get(...)]: the adapter repeats the exchange while
    [is_retry] holds and retries are left, and raises [RetryError] when
    [is_retry] holds with none left. *)
Fixpoint adapter_send (total : nat) (d : dict) : io response :=
  io_bind (exchange net d)
    (λ r,
       if is_retry policy total r then
         match total with
         | O => λ w, (inl RetryError, w)
         | S total' => adapter_send total' d
         end
       else io_ret r).

Definition session_send (d : dict) : io response :=
  adapter_send (Z.to_nat (Api.total policy)) d.

(** The body of [session_get] for the params [d], on the environment. *)
Definition session_get_io (d : dict) : io response :=
  io_bind (build_headers net)
    (λ _,
       io_bind (session_send d)
         (λ r,
            if status_code r =? 403 then
              io_bind (new_token net) (λ _, session_send d)
            else io_ret r)).

(** An action of the environment inside the generator. *)
Definition perform {A} (c : io A) : gen W A :=
  λ s,
    match c (world s) with
    | (inr a, w) => ([], State (heap s) w, Ok a)
    | (inl e, w) => ([], State (heap s) w, Raise e)
    end.

Notation "'let*' x ':=' c 'in' k" := (bind c (λ x, k))
  (at level 10, x name, c at level 100, k at level 200).
Notation "'let*' ( x , y ) ':=' c 'in' k" := (bind c (λ '(x, y), k))
  (at level 10, x name, y name, c at level 100, k at level 200).
Notation "c ';;' k" := (bind c (λ _, k))
  (at level 100, k at level 200, right associativity).

(** [requests.head(self.ENDPOINT_OFFERS, params=params, ...)]; the response
    is recorded once it has arrived. *)
Definition head_request (params : loc) : gen W (gmap string string) :=
  let* d := read params in
  let* h := perform (head net d) in
  emit (EHead d h) ;;
  ret h.

(** [self.session_get(self.ENDPOINT_OFFERS, params=params)]; the response
    that it returns is recorded. *)
Definition session_get (params : loc) : gen W response :=
  let* d := read params in
  let* r := perform (session_get_io d) in
  emit (EGet d r) ;;
  ret r.

(** ** [get_nb_offers] *)
Definition get_nb_offers (params : loc) : gen W (option Z) :=
  let* h := head_request params in
  match h !! "Content-Range" with
  | Some _ =>
      let* n := lift (range_total h "Content-Range") in
      ret (Some n)
  | None => ret None
  end.

(** ** The [while range_d < range_end] loop of the 206 branch. *)
Fixpoint page_loop (fuel : nat) (params : loc)
    (range range_p range_d range_end : Z) : gen W unit :=
  if range_d <? range_end then
    match fuel with
    | O => lift OutOfFuel
    | S fuel' =>
        let range_p := range_p + range in
        let range_d := range_advance range_d range range_end in
        let* response := session_get params in
        if unexpected (status_code response) then
          emit (ELogPage (status_code response)) ;;
          page_loop fuel' params range range_p range_d range_end
        else
          let* c := lift (resultats response) in
          yield params c ;;
          page_loop fuel' params range range_p range_d range_end
    end
  else ret tt.

(** ** The base case: one window fetched page by page. *)
Definition fetch_window (fuel : nat) (params : loc) : gen W unit :=
  let* response := session_get params in
  if status_code response =? 200 then
    let* c := lift (resultats response) in
    yield params c
  else if status_code response =? 206 then
    let* c := lift (resultats response) in
    yield params c ;;
    let* range_end := lift (range_total (headers response) "Content-Range") in
    let* range := lift (int_header (headers response) "Accept-Range") in
    page_loop fuel params range 0 (range - 1) range_end
  else
    let* d := read params in
    emit (ELogAbort (status_code response) d).

(** ** [get_lazy_job_offers]

    Every recursive call nests one more generator frame, and the
    interpreter raises [RecursionError] once its limit on nested calls is
    reached.  [depth] is the number of nested calls of [get_lazy_job_offers]
    that the limit still allows to get their count probe through: a call
    made when none is left raises [RecursionError] before its probe
    returns.  [fuel] bounds the turns of the paging loop of each window. *)
Fixpoint get_lazy_job_offers (depth fuel : nat) (params : loc)
    (maxCreationDays : Z) : gen W unit :=
  match depth with
  | O => lift (Raise RecursionError)
  | S depth' =>
      let* nb_offers := get_nb_offers params in
      let* recursive := lift (ge_max_range nb_offers) in
      if recursive : bool then
        let* (start_date, end_date) :=
          effective_window (clock net) params maxCreationDays in
        let* (params1, params2) :=
          split_params params start_date end_date in
        get_lazy_job_offers depth' fuel params1 365 ;;
        get_lazy_job_offers depth' fuel params2 365
      else fetch_window fuel params
  end.

(** ** [get_all_job_offers]: the generator drained into one list. *)
Definition get_all_job_offers (depth fuel : nat) (params : loc)
    (maxCreationDays : Z) : gen W (list offer) :=
  λ s,
    match get_lazy_job_offers depth fuel params maxCreationDays s with
    | (t, s', Ok _) => (t, s', Ok (List.concat (yielded t)))
    | (t, s', Raise e) => (t, s', Raise e)
    | (t, s', OutOfFuel) => (t, s', OutOfFuel)
    end.

(** The network as the engine above takes it: the count probe and the GET
    of a network on which they return. *)
Definition delivered_head (d : dict) (w : W) : gmap string string * W :=
  match head net d w with
  | (inr h, w') => (h, w')
  | (inl _, w') => (∅, w')
  end.

Definition delivered_get (d : dict) (w : W) : response * W :=
  match session_get_io d w with
  | (inr r, w') => (r, w')
  | (inl _, w') => (Response 0 ∅ None, w')
  end.

(** Every count probe and every GET of the network returns. *)
Definition delivers : Prop :=
  (∀ d w, ∃ h, (head net d w).1 = inr h)
  ∧ (∀ d w, ∃ r, (session_get_io d w).1 = inr r).

End Traversal.

Arguments io_ret {W A} a w.
Arguments io_bind {W A B} c k w.
Arguments Network {W}.
Arguments clock {W} n.
Arguments head {W} n.
Arguments build_headers {W} n.
Arguments exchange {W} n.
Arguments new_token {W} n.
Arguments adapter_send {W} net total d w.
Arguments session_send {W} net d w.
Arguments session_get_io {W} net d w.
Arguments perform {W A} c s.
Arguments head_request {W} net params s.
Arguments session_get {W} net params s.
Arguments get_nb_offers {W} net params s.
Arguments page_loop {W} net fuel params range range_p range_d range_end s.
Arguments fetch_window {W} net fuel params s.
Arguments get_lazy_job_offers {W} net depth fuel params maxCreationDays s.
Arguments get_all_job_offers {W} net depth fuel params maxCreationDays s.
Arguments delivered_head {W} net d w.
Arguments delivered_get {W} net d w.
Arguments delivers {W} net.

End Runtime.

(** ** Simulated networks for the traversal with failing requests *)

(** A count probe that always reports 320 offers. *)
Definition steady_count (_ : dict) : string := "320".

(** A network whose state counts the exchanges of the GETs: the count probe
    reports [count] of the params, the [n]-th exchange is answered with
    [pg n], and the token is always at hand. *)
Definition network_of (count : dict → string) (pg : nat → response)
  : Runtime.network nat :=
  Runtime.Network Sim.clock
    (λ d n, (inr (content_range (count d)), n))
    (λ n, (inr tt, n))
    (λ _ n, (inr (pg n), S n))
    (λ n, (inr tt, n)).

(** The first page of 320 offers, then status 503 at every exchange. *)
Definition outage_page (n : nat) : response :=
  if Nat.eqb n 0
  then page 206 (partial_headers "320" "100") ["offer"]
  else Response 503 ∅ None.

(** Pages of 100 out of 320 offers, but status 404 at exchange 1. *)
Definition gap_page (n : nat) : response :=
  if Nat.eqb n 1
  then Response 404 ∅ None
  else page 206 (partial_headers "320" "100") ["offer"].

(** * Properties *)

Section Properties.

Context {W : Type}.
Variable clock : W → Z * W.
Variable http_head : dict → W → gmap string string * W.
Variable http_get : dict → W → response * W.

(** ** The monad *)

Lemma bind_ok {A B} (c : gen W A) (k : A → gen W B) s t1 s1 a :
  c s = (t1, s1, Ok a) →
  bind c k s = (t1 ++ (k a s1).1.1, (k a s1).1.2, (k a s1).2).
Proof. unfold bind. intros ->. by destruct (k a s1) as [[??]?]. Qed.

Lemma bind_raise {A B} (c : gen W A) (k : A → gen W B) s t1 s1 e :
  c s = (t1, s1, Raise e) → bind c k s = (t1, s1, Raise e).
Proof. unfold bind. by intros ->. Qed.

Lemma bind_out_of_fuel {A B} (c : gen W A) (k : A → gen W B) s t1 s1 :
  c s = (t1, s1, OutOfFuel) → bind c k s = (t1, s1, OutOfFuel).
Proof. unfold bind. by intros ->. Qed.

(** ** Responses *)

Lemma resultats_missing r d :
  json r = Some d → d !! "resultats" = None → resultats r = Raise TypeError.
Proof. unfold resultats. by intros -> ->. Qed.

Lemma resultats_present r d c :
  json r = Some d → d !! "resultats" = Some c → resultats r = Ok c.
Proof. unfold resultats. intros -> Hc. rewrite Hc. simpl. by rewrite Hc. Qed.

(** ** Dates *)

Lemma halve_bounds td : 0 ≤ td → 0 ≤ PyDate.halve td ≤ td.
Proof.
  intros Htd. unfold PyDate.halve.
  pose proof (Z.mod_pos_bound td 2 ltac:(lia)).
  pose proof (Z.div_mod td 2 ltac:(lia)).
  pose proof (Z.mod_pos_bound (td `div` 2) 2 ltac:(lia)).
  pose proof (Z.div_mod (td `div` 2) 2 ltac:(lia)).
  destruct (_ || _) eqn:E; [|lia].
  apply orb_true_iff in E as [E | E]; [lia|].
  apply andb_true_iff in E as [E1 E2]. lia.
Qed.

Lemma second_of_add_second dt :
  PyDate.second_of (dt + PyDate.one_second) = PyDate.second_of dt + 1.
Proof.
  unfold PyDate.second_of, PyDate.one_second.
  replace (dt + PyDate.US_PER_SECOND)
    with (dt + 1 * PyDate.US_PER_SECOND) by lia.
  by rewrite Z.div_add.
Qed.

Lemma second_of_mono a b : a ≤ b → PyDate.second_of a ≤ PyDate.second_of b.
Proof. intros. apply Z.div_le_mono; [done | lia]. Qed.

Lemma second_of_scaled a :
  PyDate.second_of (a * PyDate.US_PER_SECOND) = a.
Proof. unfold PyDate.second_of, PyDate.US_PER_SECOND. by rewrite Z.div_mul. Qed.

Lemma add_ok dt td r : PyDate.add dt td = Ok r → r = dt + td.
Proof. unfold PyDate.add. case_match; congruence. Qed.

(** ** The store after a split *)

Lemma alter_fresh_pair (h : list dict) (d : dict)
    (f1 f2 g1 g2 : dict → dict) :
  alter g2 (S (List.length h))
    (alter g1 (S (List.length h))
       (alter f2 (List.length h)
          (alter f1 (List.length h) ((h ++ [d]) ++ [d]))))
  = h ++ [f2 (f1 d); g2 (g1 d)].
Proof.
  rewrite <- app_assoc. simpl.
  rewrite !alter_app_r_alt by (simpl; lia).
  rewrite Nat.sub_diag.
  replace (S (List.length h) - List.length h)%nat with 1%nat by lia.
  reflexivity.
Qed.

(** The two children are the last two dicts of the store. *)
Lemma split_params_ok (params : loc) (start_date end_date mid after : Z)
    (s : state W) :
  (params < List.length (heap s))%nat →
  PyDate.add start_date (PyDate.halve (end_date - start_date)) = Ok mid →
  PyDate.add mid PyDate.one_second = Ok after →
  split_params params start_date end_date s
  = ([], State (heap s ++
                [<["maxCreationDate" := strftime mid]>
                   (<["minCreationDate" := strftime start_date]>
                      (deref s params));
                 <["maxCreationDate" := strftime end_date]>
                   (<["minCreationDate" := strftime after]>
                      (deref s params))])
            (world s),
     Ok (List.length (heap s), S (List.length (heap s)))).
Proof.
  intros Hv Hmid Hafter.
  unfold split_params, bind, lift, copy, modify, ret. rewrite Hmid. simpl.
  rewrite Hafter. simpl.
  rewrite length_app. simpl. rewrite Nat.add_1_r.
  unfold deref at 2. simpl.
  rewrite lookup_app_l by done. fold (deref s params).
  by rewrite alter_fresh_pair.
Qed.

(** Whenever [split_params] returns, it is by the equation above. *)
Lemma split_params_inv params start_date end_date (s : state W) t s' l1 l2 :
  split_params params start_date end_date s = (t, s', Ok (l1, l2)) →
  PyDate.add start_date (PyDate.halve (end_date - start_date))
  = Ok (start_date + PyDate.halve (end_date - start_date))
  ∧ PyDate.add (start_date + PyDate.halve (end_date - start_date))
      PyDate.one_second
    = Ok (start_date + PyDate.halve (end_date - start_date)
          + PyDate.one_second).
Proof.
  unfold split_params, bind, lift, copy, modify, ret.
  destruct (PyDate.add start_date _) as [mid| |] eqn:Hmid; [|done..].
  simpl.
  destruct (PyDate.add mid _) as [after| |] eqn:Hafter; [|done..].
  intros _.
  pose proof (add_ok _ _ _ Hmid) as ->.
  pose proof (add_ok _ _ _ Hafter) as ->. done.
Qed.

Lemma deref_fresh_1 (h : list dict) (w : W) (d1 d2 : dict) :
  deref (State (h ++ [d1; d2]) w) (List.length h) = d1.
Proof.
  unfold deref. simpl. rewrite lookup_app_r by lia. by rewrite Nat.sub_diag.
Qed.

Lemma deref_fresh_2 (h : list dict) (w : W) (d1 d2 : dict) :
  deref (State (h ++ [d1; d2]) w) (S (List.length h)) = d2.
Proof.
  unfold deref. simpl. rewrite lookup_app_r by lia.
  by replace (S (List.length h) - List.length h)%nat with 1%nat by lia.
Qed.

(** ** C1: a body without [resultats] *)

(** C1 (defect in the code): when the body of a response with status 200
    or 206 has no [resultats] field, the subscript of [response.json()] is
    the empty list, which is not hashable: the walker raises [TypeError]
    right after the fetch and yields nothing for that response, be it the
    first response of a window or a later page of the 206 loop.  The claim
    asks for one empty chunk and a normal completion. *)
Theorem missing_resultats_raises fuel params (s : state W) r w' d :
  http_get (deref s params) (world s) = (r, w') →
  json r = Some d →
  d !! "resultats" = None →
  status_code r = 200 ∨ status_code r = 206 →
  fetch_window http_get fuel params s
  = ([EGet (deref s params) r], State (heap s) w', Raise TypeError)
  ∧ ∀ range range_p range_d range_end,
      range_d < range_end →
      page_loop http_get (S fuel) params range range_p range_d range_end s
      = ([EGet (deref s params) r], State (heap s) w', Raise TypeError).
Proof.
  intros Hget Hj Hd Hst. split.
  - unfold fetch_window, bind, session_get. rewrite Hget.
    rewrite (resultats_missing r d Hj Hd).
    destruct Hst as [-> | ->]; reflexivity.
  - intros g rp rd re Hlt. simpl.
    destruct (Z.ltb_spec rd re); [|lia].
    unfold bind, session_get, lift. rewrite Hget.
    rewrite (resultats_missing r d Hj Hd).
    unfold unexpected. destruct Hst as [-> | ->]; reflexivity.
Qed.

(** ** C2: a count probe without [Content-Range] *)

Lemma get_nb_offers_unknown params (s : state W) h w' :
  http_head (deref s params) (world s) = (h, w') →
  h !! "Content-Range" = None →
  get_nb_offers http_head params s
  = ([EHead (deref s params) h], State (heap s) w', Ok None).
Proof.
  intros Hhead Hh. unfold get_nb_offers, bind, head_request.
  rewrite Hhead, Hh. reflexivity.
Qed.

(** C2 (defect in the code): when the response of the count probe has no
    [Content-Range] header, [get_nb_offers] returns [None] without raising,
    as claimed, but [get_lazy_job_offers] then compares [None] with
    [MAX_RANGE] and raises [TypeError] right after the probe: it neither
    splits nor fetches. *)
Theorem unknown_count_raises fuel params maxCreationDays (s : state W) h w' :
  http_head (deref s params) (world s) = (h, w') →
  h !! "Content-Range" = None →
  get_nb_offers http_head params s
  = ([EHead (deref s params) h], State (heap s) w', Ok None)
  ∧ get_lazy_job_offers clock http_head http_get
      (S fuel) params maxCreationDays s
    = ([EHead (deref s params) h], State (heap s) w', Raise TypeError).
Proof.
  intros Hhead Hh. split; [by apply get_nb_offers_unknown|].
  simpl. unfold bind at 1.
  by rewrite (get_nb_offers_unknown _ _ _ _ Hhead Hh).
Qed.

(** ** C3: the two halves of a window *)

(** C3: when a window [start_date .. end_date] with
    [start_date <= end_date] is split, the left child is written as
    [second_of start_date .. second_of mid_date] and the right child as
    [second_of mid_date + 1 .. second_of end_date], with
    [mid_date = start_date + (end_date - start_date) / 2]; every second of
    the parent window lies in one of the two children, every second of a
    child lies in the parent, and no second lies in both. *)
Theorem split_windows_partition params start_date end_date
    (s : state W) t s' l1 l2 :
  (params < List.length (heap s))%nat →
  start_date ≤ end_date →
  split_params params start_date end_date s = (t, s', Ok (l1, l2)) →
  let mid_date := start_date + PyDate.halve (end_date - start_date) in
  let a := PyDate.second_of start_date in
  let m := PyDate.second_of mid_date in
  let b := PyDate.second_of end_date in
  (window_start (deref s' l1) = Some a ∧ window_end (deref s' l1) = Some m)
  ∧ (window_start (deref s' l2) = Some (m + 1)
     ∧ window_end (deref s' l2) = Some b)
  ∧ (∀ x, in_window x a b ↔ in_window x a m ∨ in_window x (m + 1) b)
  ∧ (∀ x, ¬ (in_window x a m ∧ in_window x (m + 1) b)).
Proof.
  intros Hv Hle Hsplit mid_date a m b.
  destruct (split_params_inv _ _ _ _ _ _ _ _ Hsplit) as [Hmid Hafter].
  rewrite (split_params_ok _ _ _ _ _ _ Hv Hmid Hafter) in Hsplit.
  injection Hsplit as <- <- <- <-.
  rewrite !deref_fresh_1, !deref_fresh_2. fold mid_date.
  pose proof (halve_bounds (end_date - start_date) ltac:(lia)) as Hh.
  assert (a ≤ m) by (apply second_of_mono; subst mid_date; lia).
  assert (m ≤ b) by (apply second_of_mono; subst mid_date; lia).
  unfold window_start, window_end, strftime.
  rewrite second_of_add_second. fold m a b.
  split_and!.
  - rewrite lookup_insert_ne by done. by rewrite lookup_insert_eq.
  - by rewrite lookup_insert_eq.
  - rewrite lookup_insert_ne by done. by rewrite lookup_insert_eq.
  - by rewrite lookup_insert_eq.
  - intros x. unfold in_window. lia.
  - intros x. unfold in_window. lia.
Qed.

(** ** Traces *)

Lemma after_nil {A} (out : list event * state W * res A) : after [] out = out.
Proof. by destruct out as [[??]?]. Qed.

Lemma after_app {A} t1 t2 (out : list event * state W * res A) :
  after t1 (after t2 out) = after (t1 ++ t2) out.
Proof. unfold after. simpl. by rewrite app_assoc. Qed.

Lemma bind_after {A B} (c : gen W A) (k : A → gen W B) s t1 s1 a :
  c s = (t1, s1, Ok a) → bind c k s = after t1 (k a s1).
Proof. apply bind_ok. Qed.

Lemma yielded_app t1 t2 : yielded (t1 ++ t2) = yielded t1 ++ yielded t2.
Proof. apply omap_app. Qed.

Lemma fetched_app t1 t2 : fetched (t1 ++ t2) = fetched t1 ++ fetched t2.
Proof. apply omap_app. Qed.

Lemma probed_app t1 t2 : probed (t1 ++ t2) = probed t1 ++ probed t2.
Proof. apply omap_app. Qed.

(** ** One iteration of the paging loop *)

Lemma page_loop_done fuel params g rp d e (s : state W) :
  e ≤ d → page_loop http_get fuel params g rp d e s = ([], s, Ok tt).
Proof.
  intros Hle. destruct fuel; simpl;
    (destruct (d <? e) eqn:E; [lia | reflexivity]).
Qed.

Lemma page_loop_skip fuel params g rp d e (s : state W) r w' :
  d < e →
  http_get (deref s params) (world s) = (r, w') →
  unexpected (status_code r) = true →
  page_loop http_get (S fuel) params g rp d e s
  = after [EGet (deref s params) r; ELogPage (status_code r)]
      (page_loop http_get fuel params g (rp + g) (range_advance d g e) e
         (State (heap s) w')).
Proof.
  intros Hlt Hget Hbad. simpl.
  destruct (d <? e) eqn:E; [|lia].
  unfold bind at 1. unfold session_get. rewrite Hget, Hbad.
  unfold bind, emit.
  by destruct (page_loop _ _ _ _ _ _ _ _) as [[??]?].
Qed.

Lemma page_loop_yield fuel params g rp d e (s : state W) r w' c :
  d < e →
  http_get (deref s params) (world s) = (r, w') →
  unexpected (status_code r) = false →
  resultats r = Ok c →
  page_loop http_get (S fuel) params g rp d e s
  = after [EGet (deref s params) r; EYield (deref s params) c]
      (page_loop http_get fuel params g (rp + g) (range_advance d g e) e
         (State (heap s) w')).
Proof.
  intros Hlt Hget Hgood Hres. simpl.
  destruct (d <? e) eqn:E; [|lia].
  unfold bind at 1. unfold session_get. rewrite Hget, Hgood.
  unfold bind, lift, yield. rewrite Hres.
  by destruct (page_loop _ _ _ _ _ _ _ _) as [[??]?].
Qed.

Lemma page_loop_raise_body fuel params g rp d e (s : state W) r w' x :
  d < e →
  http_get (deref s params) (world s) = (r, w') →
  unexpected (status_code r) = false →
  resultats r = Raise x →
  page_loop http_get (S fuel) params g rp d e s
  = ([EGet (deref s params) r], State (heap s) w', Raise x).
Proof.
  intros Hlt Hget Hgood Hres. simpl.
  destruct (d <? e) eqn:E; [|lia].
  unfold bind at 1. unfold session_get. rewrite Hget, Hgood.
  unfold bind, lift. by rewrite Hres.
Qed.

Lemma resultats_not_out_of_fuel r : resultats r ≠ OutOfFuel.
Proof.
  unfold resultats, json_getitem. repeat case_match; congruence.
Qed.

(** The first fetch of a window. *)
Lemma fetch_window_abort fuel params (s : state W) r w' :
  http_get (deref s params) (world s) = (r, w') →
  unexpected (status_code r) = true →
  fetch_window http_get fuel params s
  = ([EGet (deref s params) r; ELogAbort (status_code r) (deref s params)],
     State (heap s) w', Ok tt).
Proof.
  intros Hget Hbad. unfold fetch_window, bind, session_get. rewrite Hget.
  unfold unexpected in Hbad. apply andb_true_iff in Hbad as [H1 H2].
  apply negb_true_iff in H1, H2. rewrite H1, H2. reflexivity.
Qed.

Lemma fetch_window_200 fuel params (s : state W) r w' c :
  http_get (deref s params) (world s) = (r, w') →
  status_code r = 200 →
  resultats r = Ok c →
  fetch_window http_get fuel params s
  = ([EGet (deref s params) r; EYield (deref s params) c],
     State (heap s) w', Ok tt).
Proof.
  intros Hget Hst Hres. unfold fetch_window, bind, session_get.
  rewrite Hget, Hst. simpl. unfold lift. rewrite Hres. reflexivity.
Qed.

Lemma fetch_window_206 fuel params (s : state W) r w' c e g :
  http_get (deref s params) (world s) = (r, w') →
  status_code r = 206 →
  resultats r = Ok c →
  range_total (headers r) "Content-Range" = Ok e →
  int_header (headers r) "Accept-Range" = Ok g →
  fetch_window http_get fuel params s
  = after [EGet (deref s params) r; EYield (deref s params) c]
      (page_loop http_get fuel params g 0 (g - 1) e (State (heap s) w')).
Proof.
  intros Hget Hst Hres He Hg. unfold fetch_window, bind, session_get.
  rewrite Hget, Hst. simpl. unfold lift. rewrite Hres. unfold yield.
  rewrite He, Hg.
  by destruct (page_loop _ _ _ _ _ _ _ _) as [[??]?].
Qed.

(** ** Pages and windows that fail *)

Lemma chunk_per_success_app t1 t2 :
  chunk_per_success t1 → chunk_per_success t2 → chunk_per_success (t1 ++ t2).
Proof.
  unfold chunk_per_success. intros H1 H2.
  rewrite yielded_app, fetched_app, List.filter_app. by apply Forall2_app.
Qed.

(** When the paging loop raises, the response it was handling had status
    200 or 206. *)
Lemma page_loop_raise fuel : ∀ params g rp d e (s : state W) t s' x,
  page_loop http_get fuel params g rp d e s = (t, s', Raise x) →
  ∃ r, last (fetched t) = Some r ∧ successful r = true.
Proof.
  induction fuel as [|fuel IH]; intros params g rp d e s t s' x Hrun.
  - simpl in Hrun. destruct (d <? e); discriminate.
  - destruct (Z.lt_ge_cases d e) as [Hlt | Hge];
      [| by rewrite page_loop_done in Hrun by done].
    destruct (http_get (deref s params) (world s)) as [r w'] eqn:Hget.
    destruct (unexpected (status_code r)) eqn:Hst.
    + rewrite (page_loop_skip _ _ _ _ _ _ _ _ _ Hlt Hget Hst) in Hrun.
      destruct (page_loop _ _ _ _ _ _ _ _) as [[t1 s1] r1] eqn:Hrest.
      unfold after in Hrun. simpl in Hrun. injection Hrun as <- <- ->.
      destruct (IH _ _ _ _ _ _ _ _ _ Hrest) as (r' & Hlast & Hok).
      exists r'. split; [|done].
      change (fetched (_ :: _ :: t1)) with (r :: fetched t1).
      destruct (fetched t1); [done|]. by rewrite last_cons, Hlast.
    + destruct (resultats r) as [c|y|] eqn:Hres.
      * rewrite (page_loop_yield _ _ _ _ _ _ _ _ _ _ Hlt Hget Hst Hres)
          in Hrun.
        destruct (page_loop _ _ _ _ _ _ _ _) as [[t1 s1] r1] eqn:Hrest.
        unfold after in Hrun. simpl in Hrun. injection Hrun as <- <- ->.
        destruct (IH _ _ _ _ _ _ _ _ _ Hrest) as (r' & Hlast & Hok).
        exists r'. split; [|done].
        change (fetched (_ :: _ :: t1)) with (r :: fetched t1).
        destruct (fetched t1); [done|]. by rewrite last_cons, Hlast.
      * rewrite (page_loop_raise_body _ _ _ _ _ _ _ _ _ _ Hlt Hget Hst Hres)
          in Hrun.
        injection Hrun as <- <- <-. exists r. split; [done|].
        unfold successful. by rewrite Hst.
      * by destruct (resultats_not_out_of_fuel r).
Qed.

Lemma fetch_window_raise fuel params (s : state W) t s' x :
  fetch_window http_get fuel params s = (t, s', Raise x) →
  ∃ r, last (fetched t) = Some r ∧ successful r = true.
Proof.
  intros Hrun.
  destruct (http_get (deref s params) (world s)) as [r w'] eqn:Hget.
  destruct (unexpected (status_code r)) eqn:Hst.
  { by rewrite (fetch_window_abort _ _ _ _ _ Hget Hst) in Hrun. }
  assert (successful r = true) as Hok by (unfold successful; by rewrite Hst).
  unfold fetch_window, bind, session_get in Hrun. rewrite Hget in Hrun.
  destruct (status_code r =? 200) eqn:E200.
  { unfold lift, yield in Hrun.
    destruct (resultats r); simplify_eq; by exists r. }
  destruct (status_code r =? 206) eqn:E206.
  2:{ unfold unexpected in Hst. rewrite E200, E206 in Hst. done. }
  unfold lift, yield in Hrun.
  destruct (resultats r); [|simplify_eq; by exists r..].
  destruct (range_total _ _); [|simplify_eq; by exists r..].
  destruct (int_header _ _); [|simplify_eq; by exists r..].
  destruct (page_loop _ _ _ _ _ _ _ _) as [[t1 s1] r1] eqn:Hrest.
  simpl in Hrun. injection Hrun as <- <- ->.
  destruct (fetched t1) eqn:Hf.
  - destruct (page_loop_raise _ _ _ _ _ _ _ _ _ _ Hrest) as (r' & Hlast & _).
    by rewrite Hf in Hlast.
  - destruct (page_loop_raise _ _ _ _ _ _ _ _ _ _ Hrest) as (r' & Hlast & Hr').
    exists r'. split; [|done].
    change (fetched (_ :: _ :: t1)) with (r :: fetched t1).
    rewrite Hf in *. by rewrite last_cons, Hlast.
Qed.

(** ** C5: the pages of a window *)

Lemma range_advance_min d g e : range_advance d g e = Z.min (d + g) e.
Proof. unfold range_advance. destruct (Z.leb_spec (d + g) e); lia. Qed.

(** One turn of the loop on a server whose successful responses all carry
    the [resultats] field: one fetch, and one chunk if it succeeded. *)
Lemma page_loop_turn fuel params g rp d e (s : state W) :
  (∀ p w, successful (http_get p w).1 = true →
          ∃ c, resultats (http_get p w).1 = Ok c) →
  d < e →
  ∃ ev,
    page_loop http_get (S fuel) params g rp d e s
    = after ev
        (page_loop http_get fuel params g (rp + g) (range_advance d g e) e
           (State (heap s) (http_get (deref s params) (world s)).2))
    ∧ List.length (fetched ev) = 1%nat
    ∧ chunk_per_success ev.
Proof.
  intros Hbody Hlt.
  destruct (http_get (deref s params) (world s)) as [r w'] eqn:Hget.
  destruct (unexpected (status_code r)) eqn:Hst.
  - eexists. split; [by apply page_loop_skip|]. split; [done|].
    unfold chunk_per_success. simpl. unfold successful. rewrite Hst. simpl.
    constructor.
  - destruct (Hbody (deref s params) (world s)) as [c Hc].
    { rewrite Hget. simpl. unfold successful. by rewrite Hst. }
    rewrite Hget in Hc. simpl in Hc.
    eexists. split; [by eapply page_loop_yield|]. split; [done|].
    unfold chunk_per_success. simpl. unfold successful. rewrite Hst. simpl.
    by repeat constructor.
Qed.

(** C5: the loop starts from [range - 1], adds [range] capped at the total
    on every turn and stops once the total is reached.  For a first response
    206 that reports a total of 320 and grants pages of 100, on a server
    whose responses with status 200 or 206 carry [resultats], the walk
    completes after exactly 4 fetches, the first one and three turns of the
    loop, and yields one chunk per successful fetch. *)
Theorem paging_320_by_100 fuel params (s : state W) r0 w0 :
  http_get (deref s params) (world s) = (r0, w0) →
  status_code r0 = 206 →
  range_total (headers r0) "Content-Range" = Ok 320 →
  int_header (headers r0) "Accept-Range" = Ok 100 →
  (∀ p w, successful (http_get p w).1 = true →
          ∃ c, resultats (http_get p w).1 = Ok c) →
  (∀ d g e, range_advance d g e = Z.min (d + g) e)
  ∧ (∀ fuel' params' rp (s1 : state W),
       page_loop http_get fuel' params' 100 rp 320 320 s1 = ([], s1, Ok tt))
  ∧ ∃ t s',
      fetch_window http_get (3 + fuel) params s = (t, s', Ok tt)
      ∧ List.length (fetched t) = 4%nat
      ∧ chunk_per_success t.
Proof.
  intros Hget Hst He Hg Hbody.
  split; [apply range_advance_min|].
  split; [intros; by apply page_loop_done|].
  destruct (Hbody (deref s params) (world s)) as [c0 Hc0].
  { rewrite Hget. simpl. unfold successful, unexpected. by rewrite Hst. }
  rewrite Hget in Hc0. simpl in Hc0.
  rewrite (fetch_window_206 _ _ _ _ _ _ _ _ Hget Hst Hc0 He Hg).
  change (100 - 1) with 99. change (3 + fuel)%nat with (S (S (S fuel))).
  destruct (page_loop_turn (S (S fuel)) params 100 0 99 320
              (State (heap s) w0) Hbody ltac:(lia)) as (ev1 & -> & Hn1 & Hp1).
  change (range_advance 99 100 320) with 199.
  set (s1 := State _ _).
  destruct (page_loop_turn (S fuel) params 100 (0 + 100) 199 320
              s1 Hbody ltac:(lia)) as (ev2 & -> & Hn2 & Hp2).
  change (range_advance 199 100 320) with 299.
  set (s2 := State _ _).
  destruct (page_loop_turn fuel params 100 (0 + 100 + 100) 299 320
              s2 Hbody ltac:(lia)) as (ev3 & -> & Hn3 & Hp3).
  change (range_advance 299 100 320) with 320.
  rewrite page_loop_done by lia.
  eexists _, _. split; [reflexivity|].
  unfold after. simpl. rewrite !app_nil_r.
  split.
  - change (fetched (?a :: ?b :: ?t)) with (fetched [a; b] ++ fetched t).
    rewrite !fetched_app, !length_app. simpl. lia.
  - change (?a :: ?b :: ?t) with ([a; b] ++ t).
    repeat apply chunk_per_success_app; try done.
    unfold chunk_per_success. simpl.
    unfold successful, unexpected. rewrite Hst. simpl. by repeat constructor.
Qed.

(** ** What a call leaves in the trace and in the store *)

Lemma get_nb_offers_known params (s : state W) h w' v n :
  http_head (deref s params) (world s) = (h, w') →
  h !! "Content-Range" = Some v →
  range_total h "Content-Range" = Ok n →
  get_nb_offers http_head params s
  = ([EHead (deref s params) h], State (heap s) w', Ok (Some n)).
Proof.
  intros Hhead Hh Hn. unfold get_nb_offers, bind, head_request.
  rewrite Hhead, Hh. unfold lift. rewrite Hn. reflexivity.
Qed.

Lemma get_nb_offers_trace params (s : state W) :
  (get_nb_offers http_head params s).1.1
  = [EHead (deref s params) (http_head (deref s params) (world s)).1]
  ∧ heap (get_nb_offers http_head params s).1.2 = heap s.
Proof.
  unfold get_nb_offers, bind, head_request, lift, ret.
  destruct (http_head _ _) as [h w']. simpl.
  destruct (h !! "Content-Range"); [|done].
  by destruct (range_total _ _).
Qed.

Lemma window_bounds_silent params maxCreationDays (s : state W) :
  (window_bounds clock params maxCreationDays s).1.1 = []
  ∧ heap (window_bounds clock params maxCreationDays s).1.2 = heap s.
Proof.
  unfold window_bounds, bind, read, lift, ret, now.
  repeat (case_match; simpl in *; simplify_eq); done.
Qed.

Lemma fold_published_silent params start_date (s : state W) :
  (fold_published clock params start_date s).1.1 = [].
Proof.
  unfold fold_published, bind, read, lift, ret, now, modify.
  repeat (case_match; simpl in *; simplify_eq); done.
Qed.

Lemma effective_window_silent params maxCreationDays (s : state W) :
  (effective_window clock params maxCreationDays s).1.1 = [].
Proof.
  unfold effective_window. unfold bind at 1.
  pose proof (window_bounds_silent params maxCreationDays s) as [Hb _].
  destruct (window_bounds _ _ _ _) as [[t1 s1] [[a b]| |]]; simpl in *;
    subst; [|done..].
  unfold bind.
  pose proof (fold_published_silent params a s1) as Hf.
  destruct (fold_published _ _ _ _) as [[t2 s2] [c| |]]; simpl in *;
    subst; done.
Qed.

Lemma split_params_silent params start_date end_date (s : state W) :
  (split_params params start_date end_date s).1.1 = [].
Proof.
  unfold split_params, bind, lift, copy, modify, ret.
  repeat (case_match; simpl in *; simplify_eq); done.
Qed.

Lemma page_loop_events fuel : ∀ params g rp d e (s : state W),
  Forall (window_event (deref s params))
    (page_loop http_get fuel params g rp d e s).1.1
  ∧ heap (page_loop http_get fuel params g rp d e s).1.2 = heap s.
Proof.
  induction fuel as [|fuel IH]; intros params g rp d e s.
  - simpl. destruct (d <? e); simpl; by split.
  - destruct (Z.lt_ge_cases d e) as [Hlt | Hge];
      [| rewrite page_loop_done by done; simpl; by split].
    destruct (http_get (deref s params) (world s)) as [r w'] eqn:Hget.
    specialize (IH params g (rp + g) (range_advance d g e) e
                  (State (heap s) w')).
    destruct (unexpected (status_code r)) eqn:Hst.
    + rewrite (page_loop_skip _ _ _ _ _ _ _ _ _ Hlt Hget Hst).
      destruct IH as [IH1 IH2]. unfold after. simpl. split; [|done].
      by repeat constructor.
    + destruct (resultats r) as [c|y|] eqn:Hres.
      * rewrite (page_loop_yield _ _ _ _ _ _ _ _ _ _ Hlt Hget Hst Hres).
        destruct IH as [IH1 IH2]. unfold after. simpl. split; [|done].
        by repeat constructor.
      * rewrite (page_loop_raise_body _ _ _ _ _ _ _ _ _ _ Hlt Hget Hst Hres).
        simpl. split; [|done]. by repeat constructor.
      * by destruct (resultats_not_out_of_fuel r).
Qed.

Lemma fetch_window_events fuel params (s : state W) :
  Forall (window_event (deref s params))
    (fetch_window http_get fuel params s).1.1
  ∧ heap (fetch_window http_get fuel params s).1.2 = heap s.
Proof.
  destruct (http_get (deref s params) (world s)) as [r w'] eqn:Hget.
  unfold fetch_window, bind, session_get, lift, yield, read, emit.
  rewrite Hget.
  destruct (status_code r =? 200).
  { destruct (resultats r); simpl; (split; [by repeat constructor | done]). }
  destruct (status_code r =? 206);
    [| simpl; split; [by repeat constructor | done]].
  destruct (resultats r); [| simpl; (split; [by repeat constructor | done])..].
  destruct (range_total _ _) as [e| |];
    [| simpl; (split; [by repeat constructor | done])..].
  destruct (int_header _ _) as [g| |];
    [| simpl; (split; [by repeat constructor | done])..].
  pose proof (page_loop_events fuel params g 0 (g - 1) e
                (State (heap s) w')) as [H1 H2].
  destruct (page_loop _ _ _ _ _ _ _ _) as [[t1 s1] r1]. simpl in *.
  split; [|done]. by repeat constructor.
Qed.

Lemma window_event_probed d t : Forall (window_event d) t → probed t = [].
Proof.
  induction 1 as [|e t He _ IH]; [done|].
  destruct e; simpl in *; done.
Qed.

(** ** C4: splitting at the ceiling *)

Lemma get_lazy_known fuel params maxCreationDays (s s0 : state W) t0 n :
  get_nb_offers http_head params s = (t0, s0, Ok (Some n)) →
  get_lazy_job_offers clock http_head http_get (S fuel) params maxCreationDays s
  = after t0
      (if MAX_RANGE <=? n
       then split_branch clock http_head http_get fuel params maxCreationDays s0
       else fetch_window http_get fuel params s0).
Proof.
  intros Hnb. simpl. rewrite (bind_after _ _ _ _ _ _ Hnb).
  unfold bind at 1, lift at 1. simpl.
  destruct (MAX_RANGE <=? n).
  - change (bind (effective_window clock params maxCreationDays) _ s0)
      with (split_branch clock http_head http_get fuel params
              maxCreationDays s0).
    by destruct (split_branch _ _ _ _ _ _ _) as [[??]?].
  - by destruct (fetch_window _ _ _ _) as [[??]?].
Qed.

Lemma split_branch_run fuel params maxCreationDays (s0 s1 s2 : state W)
    t1 start_date end_date t2 l1 l2 :
  effective_window clock params maxCreationDays s0
  = (t1, s1, Ok (start_date, end_date)) →
  split_params params start_date end_date s1 = (t2, s2, Ok (l1, l2)) →
  split_branch clock http_head http_get fuel params maxCreationDays s0
  = after (t1 ++ t2)
      (bind (get_lazy_job_offers clock http_head http_get fuel l1 365)
         (λ _, get_lazy_job_offers clock http_head http_get fuel l2 365) s2).
Proof.
  intros Hwin Hsplit. unfold split_branch.
  rewrite (bind_after _ _ _ _ _ _ Hwin). cbn beta iota.
  rewrite (bind_after _ _ _ _ _ _ Hsplit). cbn beta iota.
  by rewrite after_app.
Qed.

Lemma get_nb_offers_inv params (s s0 : state W) t0 r :
  get_nb_offers http_head params s = (t0, s0, r) →
  t0 = [EHead (deref s params) (http_head (deref s params) (world s)).1]
  ∧ heap s0 = heap s.
Proof.
  intros H. pose proof (get_nb_offers_trace params s) as [H1 H2].
  rewrite H in H1, H2. done.
Qed.

Lemma fetch_window_inv fuel params (s s' : state W) t r :
  fetch_window http_get fuel params s = (t, s', r) →
  Forall (window_event (deref s params)) t ∧ heap s' = heap s.
Proof.
  intros H. pose proof (fetch_window_events fuel params s) as [H1 H2].
  rewrite H in H1, H2. done.
Qed.

Lemma deref_heap (s s' : state W) l : heap s' = heap s → deref s' l = deref s l.
Proof. unfold deref. by intros ->. Qed.

Lemma fold_published_heap params start_date (s : state W) :
  heap (fold_published clock params start_date s).1.2 = heap s
  ∨ heap (fold_published clock params start_date s).1.2
    = alter (delete "publieeDepuis") params (heap s).
Proof.
  unfold fold_published, bind, read, lift, ret, now, modify.
  repeat (case_match; simpl in *; simplify_eq); auto.
Qed.

Lemma effective_window_heap params maxCreationDays (s : state W) :
  heap (effective_window clock params maxCreationDays s).1.2 = heap s
  ∨ heap (effective_window clock params maxCreationDays s).1.2
    = alter (delete "publieeDepuis") params (heap s).
Proof.
  pose proof (window_bounds_silent params maxCreationDays s) as [_ Hb].
  unfold effective_window, bind.
  destruct (window_bounds _ _ _ _) as [[t1 s1] [[a b]| |]]; simpl in *;
    [|auto..].
  pose proof (fold_published_heap params a s1) as Hf.
  destruct (fold_published _ _ _ _) as [[t2 s2] [c| |]]; simpl in *;
    rewrite <- Hb; done.
Qed.

Lemma effective_window_length params maxCreationDays (s s1 : state W) t r :
  effective_window clock params maxCreationDays s = (t, s1, r) →
  List.length (heap s1) = List.length (heap s).
Proof.
  intros H. pose proof (effective_window_heap params maxCreationDays s) as Hh.
  rewrite H in Hh. simpl in Hh.
  destruct Hh as [-> | ->]; [done | by rewrite length_alter].
Qed.

(** The children of a split: two dicts appended to the store. *)
Lemma split_params_children params start_date end_date (s s' : state W)
    t l1 l2 :
  (params < List.length (heap s))%nat →
  split_params params start_date end_date s = (t, s', Ok (l1, l2)) →
  let mid := start_date + PyDate.halve (end_date - start_date) in
  t = [] ∧ l1 = List.length (heap s) ∧ l2 = S (List.length (heap s))
  ∧ world s' = world s
  ∧ heap s'
    = heap s ++
      [<["maxCreationDate" := PTime (PyDate.second_of mid)]>
         (<["minCreationDate" := PTime (PyDate.second_of start_date)]>
            (deref s params));
       <["maxCreationDate" := PTime (PyDate.second_of end_date)]>
         (<["minCreationDate" := PTime (PyDate.second_of mid + 1)]>
            (deref s params))].
Proof.
  intros Hv Hsplit mid.
  destruct (split_params_inv _ _ _ _ _ _ _ _ Hsplit) as [Hmid Hafter].
  rewrite (split_params_ok _ _ _ _ _ _ Hv Hmid Hafter) in Hsplit.
  injection Hsplit as <- <- <- <-. simpl.
  unfold strftime. rewrite second_of_add_second. done.
Qed.

Lemma deref_lookup (s : state W) l d :
  heap s !! l = Some d → deref s l = d.
Proof. unfold deref. by intros ->. Qed.

(** C4: a call whose count probe reports [n] splits when [3000 <= n] and
    fetches its window directly when [n < 3000].  When the root probe is at
    or above the ceiling (3500 in the scenario) and both children probe
    below it, three probes are made in all, for the root and for its two
    children, each child is fetched directly, and [get_all_job_offers]
    returns the records of the left child followed by those of the right
    child, whose window starts one second after the left one ends. *)
Theorem split_iff_ceiling fuel params maxCreationDays (s s0 : state W) t0 n :
  (params < List.length (heap s))%nat →
  get_nb_offers http_head params s = (t0, s0, Ok (Some n)) →
  (MAX_RANGE ≤ n →
   get_lazy_job_offers clock http_head http_get (S fuel) params
     maxCreationDays s
   = after t0
       (split_branch clock http_head http_get fuel params maxCreationDays s0))
  ∧ (n < MAX_RANGE →
     get_lazy_job_offers clock http_head http_get (S fuel) params
       maxCreationDays s
     = after t0 (fetch_window http_get fuel params s0))
  ∧ (∀ t1 s1 start_date end_date t2 s2 l1 l2 t3 s3 c1 t4 s4 t5 s5 c2 t6 s6,
       MAX_RANGE ≤ n →
       effective_window clock params maxCreationDays s0
       = (t1, s1, Ok (start_date, end_date)) →
       split_params params start_date end_date s1 = (t2, s2, Ok (l1, l2)) →
       get_nb_offers http_head l1 s2 = (t3, s3, Ok (Some c1)) →
       c1 < MAX_RANGE →
       fetch_window http_get fuel l1 s3 = (t4, s4, Ok tt) →
       get_nb_offers http_head l2 s4 = (t5, s5, Ok (Some c2)) →
       c2 < MAX_RANGE →
       fetch_window http_get fuel l2 s5 = (t6, s6, Ok tt) →
       get_all_job_offers clock http_head http_get (S (S fuel)) params
         maxCreationDays s
       = (t0 ++ t1 ++ t2 ++ t3 ++ t4 ++ t5 ++ t6, s6,
          Ok (List.concat (yielded t4) ++ List.concat (yielded t6)))
       ∧ probed (t0 ++ t1 ++ t2 ++ t3 ++ t4 ++ t5 ++ t6)
         = [deref s params; deref s2 l1; deref s2 l2]
       ∧ ∃ m, window_end (deref s2 l1) = Some m
              ∧ window_start (deref s2 l2) = Some (m + 1)).
Proof.
  intros Hv Hnb. split_and!.
  - intros Hn. rewrite (get_lazy_known _ _ _ _ _ _ _ Hnb).
    by destruct (Z.leb_spec MAX_RANGE n); [|lia].
  - intros Hn. rewrite (get_lazy_known _ _ _ _ _ _ _ Hnb).
    by destruct (Z.leb_spec MAX_RANGE n); [lia|].
  - intros t1 s1 start_date end_date t2 s2 l1 l2 t3 s3 c1 t4 s4 t5 s5 c2 t6 s6
      Hn Hwin Hsplit Hnb1 Hc1 Hf1 Hnb2 Hc2 Hf2.
    destruct (get_nb_offers_inv _ _ _ _ _ Hnb) as [Ht0 Hh0].
    destruct (get_nb_offers_inv _ _ _ _ _ Hnb1) as [Ht3 Hh3].
    destruct (get_nb_offers_inv _ _ _ _ _ Hnb2) as [Ht5 Hh5].
    destruct (fetch_window_inv _ _ _ _ _ _ Hf1) as [He4 Hh4].
    destruct (fetch_window_inv _ _ _ _ _ _ Hf2) as [He6 Hh6].
    pose proof (effective_window_silent params maxCreationDays s0) as Ht1.
    rewrite Hwin in Ht1. simpl in Ht1.
    pose proof (split_params_silent params start_date end_date s1) as Ht2.
    rewrite Hsplit in Ht2. simpl in Ht2.
    assert (get_lazy_job_offers clock http_head http_get (S (S fuel)) params
              maxCreationDays s
            = (t0 ++ t1 ++ t2 ++ t3 ++ t4 ++ t5 ++ t6, s6, Ok tt)) as Hrun.
    { assert (get_lazy_job_offers clock http_head http_get (S fuel) l1 365 s2
              = (t3 ++ t4, s4, Ok tt)) as Hleft.
      { rewrite (get_lazy_known _ _ _ _ _ _ _ Hnb1).
        destruct (Z.leb_spec MAX_RANGE c1); [lia|]. by rewrite Hf1. }
      assert (get_lazy_job_offers clock http_head http_get (S fuel) l2 365 s4
              = (t5 ++ t6, s6, Ok tt)) as Hright.
      { rewrite (get_lazy_known _ _ _ _ _ _ _ Hnb2).
        destruct (Z.leb_spec MAX_RANGE c2); [lia|]. by rewrite Hf2. }
      rewrite (get_lazy_known _ _ _ _ _ _ _ Hnb).
      destruct (Z.leb_spec MAX_RANGE n); [|lia].
      rewrite (split_branch_run _ _ _ _ _ _ _ _ _ _ _ _ Hwin Hsplit).
      rewrite (bind_after _ _ _ _ _ _ Hleft), Hright.
      unfold after. simpl. by rewrite <- !app_assoc. }
    split_and!.
    + unfold get_all_job_offers. rewrite Hrun. do 2 f_equal.
      rewrite !yielded_app, Ht0, Ht1, Ht2, Ht3, Ht5. simpl.
      by rewrite concat_app.
    + rewrite !probed_app, Ht0, Ht1, Ht2, Ht3, Ht5.
      rewrite (window_event_probed _ _ He4), (window_event_probed _ _ He6).
      simpl. do 2 f_equal.
      rewrite (deref_heap s4 s2) by congruence. done.
    + assert (params < List.length (heap s1))%nat as Hv1.
      { rewrite (effective_window_length _ _ _ _ _ _ Hwin). by rewrite Hh0. }
      destruct (split_params_children _ _ _ _ _ _ _ _ Hv1 Hsplit)
        as (_ & -> & -> & _ & Hheap).
      eexists.
      erewrite (deref_lookup s2 (List.length (heap s1)));
        [| rewrite Hheap, lookup_app_r by lia;
           rewrite Nat.sub_diag; reflexivity].
      erewrite (deref_lookup s2 (S (List.length (heap s1))));
        [| rewrite Hheap, lookup_app_r by lia;
           replace (S (List.length (heap s1)) - List.length (heap s1))%nat
             with 1%nat by lia; reflexivity].
      unfold window_end, window_start.
      rewrite lookup_insert_eq.
      rewrite lookup_insert_ne by done. rewrite lookup_insert_eq. done.
Qed.
(** ** C6: [publieeDepuis] folded into the start of the window *)

Lemma deref_valid (s : state W) l k v :
  deref s l !! k = Some v → (l < List.length (heap s))%nat.
Proof.
  unfold deref. destruct (heap s !! l) eqn:E; simpl.
  - intros _. by eapply lookup_lt_Some.
  - by rewrite lookup_empty.
Qed.

Lemma deref_alter (s : state W) l f (w : W) :
  deref (State (alter f l (heap s)) w) l
  = match heap s !! l with Some d => f d | None => ∅ end.
Proof.
  unfold deref. simpl. rewrite list_lookup_alter_eq.
  destruct (heap s !! l); reflexivity.
Qed.

Lemma fold_published_present params start_date (s s' : state W) v n t start' :
  deref s params !! "publieeDepuis" = Some v →
  int_of_pvalue v = Ok n →
  fold_published clock params start_date s = (t, s', Ok start') →
  let published := (clock (world s)).1 - n * PyDate.US_PER_DAY in
  start' = Z.max start_date published
  ∧ (start_date < published →
     s' = State (alter (delete "publieeDepuis") params (heap s))
            (clock (world s)).2)
  ∧ (published ≤ start_date → s' = State (heap s) (clock (world s)).2).
Proof.
  intros Hv Hn. unfold fold_published, bind, read, lift, now, modify, ret.
  rewrite Hv, Hn. simpl.
  destruct (clock (world s)) as [now_t w'] eqn:Hclock. simpl.
  destruct (PyDate.timedelta_days n) as [td| |] eqn:Htd; simpl; [|done..].
  unfold PyDate.timedelta_days in Htd.
  destruct (Z.abs n <=? _); [|done]. injection Htd as <-.
  destruct (PyDate.sub _ _) as [p| |] eqn:Hp; simpl; [|done..].
  unfold PyDate.sub in Hp. apply add_ok in Hp. subst p.
  destruct (Z.ltb_spec start_date (now_t + - (n * PyDate.US_PER_DAY)));
    simpl; intros [= <- <- <-]; (split; [lia|]); split; intros; (done || lia).
Qed.

(** C6, amended: in a splitting call whose params hold [publieeDepuis] = n,
    the start of the window that is split is the later of the resolved
    [minCreationDate] bound and [now - n days]; the key [publieeDepuis] is
    absent from the params of both children when that bound was earlier than
    [now - n days], and is kept, with its value, in both children
    otherwise. *)
Theorem published_since_folded params start_date end_date
    (s s1 s2 : state W) v n t1 start' t2 l1 l2 :
  deref s params !! "publieeDepuis" = Some v →
  int_of_pvalue v = Ok n →
  fold_published clock params start_date s = (t1, s1, Ok start') →
  split_params params start' end_date s1 = (t2, s2, Ok (l1, l2)) →
  let published := (clock (world s)).1 - n * PyDate.US_PER_DAY in
  start' = Z.max start_date published
  ∧ window_start (deref s2 l1) = Some (PyDate.second_of start')
  ∧ (start_date < published →
     deref s2 l1 !! "publieeDepuis" = None
     ∧ deref s2 l2 !! "publieeDepuis" = None)
  ∧ (published ≤ start_date →
     deref s2 l1 !! "publieeDepuis" = Some v
     ∧ deref s2 l2 !! "publieeDepuis" = Some v).
Proof.
  intros Hv Hn Hfold Hsplit published.
  pose proof (deref_valid _ _ _ _ Hv) as Hvalid.
  destruct (fold_published_present _ _ _ _ _ _ _ _ Hv Hn Hfold)
    as (Hstart & Hraised & Hkept).
  fold published in Hstart, Hraised, Hkept.
  assert (params < List.length (heap s1))%nat as Hvalid1.
  { destruct (Z.lt_ge_cases start_date published) as [Hlt | Hge].
    - rewrite (Hraised Hlt). simpl. by rewrite length_alter.
    - by rewrite (Hkept Hge). }
  destruct (split_params_children _ _ _ _ _ _ _ _ Hvalid1 Hsplit)
    as (_ & -> & -> & _ & Hheap).
  assert (∀ d1 d2, heap s2 = heap s1 ++ [d1; d2] →
            deref s2 (List.length (heap s1)) = d1
            ∧ deref s2 (S (List.length (heap s1))) = d2) as Hchildren.
  { intros d1 d2 E. destruct s2 as [h2 w2]. simpl in E. subst h2.
    split; [apply deref_fresh_1 | apply deref_fresh_2]. }
  destruct (Hchildren _ _ Hheap) as [-> ->].
  split_and!; [done | | |].
  - unfold window_start.
    rewrite lookup_insert_ne by done. by rewrite lookup_insert_eq.
  - intros Hlt. rewrite (Hraised Hlt). rewrite deref_alter.
    rewrite !lookup_insert_ne by done.
    destruct (heap s !! params); [by rewrite lookup_delete_eq|done].
  - intros Hge. rewrite (Hkept Hge).
    rewrite !lookup_insert_ne by done.
    change (deref (State (heap s) _) params) with (deref s params). done.
Qed.

(** ** C10: the store across a traversal *)

Lemma frame_heap_eq params (s s' : state W) :
  heap s' = heap s → frame params s s'.
Proof. intros E. unfold frame. rewrite E. split; [lia | auto]. Qed.

Lemma frame_alter params (s s' : state W) :
  heap s' = alter (delete "publieeDepuis") params (heap s) →
  frame params s s'.
Proof.
  intros E. unfold frame. rewrite E, length_alter. split; [lia|].
  intros l Hl. destruct (decide (l = params)) as [-> | Hne].
  - right. split; [done|]. apply list_lookup_alter_eq.
  - left. by apply list_lookup_alter_ne.
Qed.

Lemma frame_grow params (s s1 s2 : state W) ds :
  frame params s s1 → heap s2 = heap s1 ++ ds → frame params s s2.
Proof.
  intros [Hlen Hf] E. unfold frame. rewrite E, length_app. split; [lia|].
  intros l Hl. rewrite lookup_app_l by lia. by apply Hf.
Qed.

Lemma frame_child params l (s s2 s3 : state W) :
  frame params s s2 → frame l s2 s3 → (List.length (heap s) ≤ l)%nat →
  frame params s s3.
Proof.
  intros [Hlen Hf] [Hlen' Hf'] Hl. split; [lia|].
  intros l' Hl'. destruct (Hf' l' ltac:(lia)) as [E | [-> _]]; [|lia].
  rewrite E. by apply Hf.
Qed.

Lemma split_params_grows params start_date end_date (s : state W) :
  ∃ ds, heap (split_params params start_date end_date s).1.2 = heap s ++ ds.
Proof.
  unfold split_params, bind, lift, copy, modify, ret.
  destruct (PyDate.add start_date _) as [mid| |]; simpl;
    [| by exists []; rewrite app_nil_r..].
  rewrite length_app. simpl. rewrite Nat.add_1_r.
  set (d1 := deref s params). set (d2 := deref _ params).
  destruct (PyDate.add mid _) as [after_mid| |]; simpl.
  - rewrite <- app_assoc. simpl.
    rewrite !alter_app_r_alt by (simpl; lia). by eexists.
  - rewrite <- app_assoc. simpl.
    rewrite !alter_app_r_alt by (simpl; lia). by eexists.
  - rewrite <- app_assoc. simpl.
    rewrite !alter_app_r_alt by (simpl; lia). by eexists.
Qed.

Lemma split_params_locs params start_date end_date (s s' : state W) t l1 l2 :
  split_params params start_date end_date s = (t, s', Ok (l1, l2)) →
  l1 = List.length (heap s) ∧ l2 = S (List.length (heap s)).
Proof.
  unfold split_params, bind, lift, copy, modify, ret.
  destruct (PyDate.add start_date _) as [mid| |]; simpl; [|done..].
  destruct (PyDate.add mid _) as [after_mid| |]; simpl; [|done..].
  rewrite length_app. simpl. rewrite Nat.add_1_r. by intros [= _ _ <- <-].
Qed.

Lemma effective_window_frame params maxCreationDays (s : state W) :
  frame params s (effective_window clock params maxCreationDays s).1.2.
Proof.
  destruct (effective_window_heap params maxCreationDays s) as [E | E].
  - by apply frame_heap_eq.
  - by apply frame_alter.
Qed.

Lemma split_branch_frame fuel params maxCreationDays (s : state W) :
  (∀ l m (s0 : state W),
     frame l s0
       (get_lazy_job_offers clock http_head http_get fuel l m s0).1.2) →
  frame params s
    (split_branch clock http_head http_get fuel params maxCreationDays s).1.2.
Proof.
  intros IH. unfold split_branch. unfold bind at 1.
  pose proof (effective_window_frame params maxCreationDays s) as Hw.
  destruct (effective_window _ _ _ _) as [[t1 s1] [[a b]| |]];
    simpl in Hw; [|done..].
  unfold bind at 1.
  destruct (split_params_grows params a b s1) as [ds Hds].
  pose proof (frame_grow _ _ _ _ _ Hw Hds) as Hs.
  destruct (split_params params a b s1) as [[t2 s2] [[l1 l2]| |]] eqn:Hsplit;
    simpl in Hds, Hs; [|done..].
  destruct (split_params_locs _ _ _ _ _ _ _ _ Hsplit) as [-> ->].
  destruct Hw as [Hlen1 _].
  unfold bind.
  pose proof (IH (List.length (heap s1)) 365 s2) as H1.
  destruct (get_lazy_job_offers _ _ _ fuel (List.length (heap s1)) _ _)
    as [[t3 s3] [[]| |]]; simpl in H1.
  - pose proof (IH (S (List.length (heap s1))) 365 s3) as H2.
    destruct (get_lazy_job_offers _ _ _ fuel (S (List.length (heap s1))) _ _)
      as [[t4 s4] r4]; simpl in *.
    eapply frame_child; [| exact H2 | lia].
    eapply frame_child; [exact Hs | exact H1 | lia].
  - simpl. eapply frame_child; [exact Hs | exact H1 | lia].
  - simpl. eapply frame_child; [exact Hs | exact H1 | lia].
Qed.

Lemma get_lazy_frame fuel : ∀ params maxCreationDays (s : state W),
  frame params s
    (get_lazy_job_offers clock http_head http_get fuel params
       maxCreationDays s).1.2.
Proof.
  induction fuel as [|fuel IH]; intros params m s.
  - by apply frame_heap_eq.
  - simpl. unfold bind at 1.
    destruct (get_nb_offers http_head params s) as [[t0 s0] r0] eqn:Hnb.
    destruct (get_nb_offers_inv _ _ _ _ _ Hnb) as [_ Hh0].
    destruct r0 as [nb| |]; [| by apply frame_heap_eq..].
    unfold bind at 1, lift at 1.
    destruct (ge_max_range nb) as [[]| |]; simpl;
      [| | by apply frame_heap_eq..].
    + pose proof (split_branch_frame fuel params m s0 IH) as Hb.
      unfold split_branch in Hb.
      destruct (bind (effective_window _ _ _) _ s0) as [[t1 s1] r1].
      simpl in *. destruct Hb as [Hlen Hf]. unfold frame.
      rewrite <- Hh0. by split.
    + pose proof (fetch_window_events fuel params s0) as [_ Hf].
      destruct (fetch_window _ _ _ _) as [[t1 s1] r1]. simpl in *.
      apply frame_heap_eq. congruence.
Qed.

(** C10, amended: the two children of a split are two new dicts, distinct
    from each other and from every dict that existed before, and the split
    leaves the existing dicts as they are; a traversal changes no dict of
    the caller other than the params it was given, and in those params it
    adds no key and removes at most the key [publieeDepuis]. *)
Theorem params_copied_not_aliased fuel params maxCreationDays (s : state W) :
  (params < List.length (heap s))%nat →
  let s' := (get_lazy_job_offers clock http_head http_get fuel params
               maxCreationDays s).1.2 in
  (∀ l, (l < List.length (heap s))%nat → l ≠ params →
        deref s' l = deref s l)
  ∧ (deref s' params = deref s params
     ∨ deref s' params = delete "publieeDepuis" (deref s params))
  ∧ (∀ start_date end_date t s2 l1 l2,
       split_params params start_date end_date s = (t, s2, Ok (l1, l2)) →
       l1 ≠ l2
       ∧ (List.length (heap s) ≤ l1)%nat ∧ (List.length (heap s) ≤ l2)%nat
       ∧ (∀ l, (l < List.length (heap s))%nat → deref s2 l = deref s l)
       ∧ delete "maxCreationDate" (delete "minCreationDate" (deref s2 l1))
         = delete "maxCreationDate" (delete "minCreationDate" (deref s params))
       ∧ delete "maxCreationDate" (delete "minCreationDate" (deref s2 l2))
         = delete "maxCreationDate" (delete "minCreationDate" (deref s params))).
Proof.
  intros Hv s'.
  destruct (get_lazy_frame fuel params maxCreationDays s) as [Hlen Hf].
  fold s' in Hlen, Hf. split_and!.
  - intros l Hl Hne. unfold deref.
    destruct (Hf l Hl) as [-> | [? _]]; done.
  - unfold deref. destruct (Hf params Hv) as [-> | [_ ->]]; [by left|].
    right. destruct (heap s !! params) eqn:E; [done|].
    apply lookup_ge_None in E. lia.
  - intros start_date end_date t s2 l1 l2 Hsplit.
    destruct (split_params_children _ _ _ _ _ _ _ _ Hv Hsplit)
      as (_ & -> & -> & _ & Hheap).
    split_and!; [lia | lia | lia | | |].
    + intros l Hl. unfold deref. rewrite Hheap. by rewrite lookup_app_l.
    + erewrite (deref_lookup s2 (List.length (heap s)));
        [| rewrite Hheap, lookup_app_r by lia;
           rewrite Nat.sub_diag; reflexivity].
      rewrite delete_insert_ne by done. by rewrite !delete_insert_eq.
    + erewrite (deref_lookup s2 (S (List.length (heap s))));
        [| rewrite Hheap, lookup_app_r by lia;
           replace (S (List.length (heap s)) - List.length (heap s))%nat
             with 1%nat by lia; reflexivity].
      rewrite delete_insert_ne by done. by rewrite !delete_insert_eq.
Qed.

(** ** C8: the order of the chunks *)

Lemma yield_starts_app t1 t2 :
  yield_starts (t1 ++ t2) = yield_starts t1 ++ yield_starts t2.
Proof. apply omap_app. Qed.

Lemma starts_within_nil lo hi : starts_within lo hi [].
Proof. unfold starts_within. simpl. split_and!; constructor. Qed.

Lemma starts_within_head lo hi p h t :
  starts_within lo hi t → starts_within lo hi (EHead p h :: t).
Proof.
  unfold starts_within. simpl. intros (H1 & H2 & H3).
  split_and!; [done | done | by constructor].
Qed.

Lemma starts_within_weaken lo hi lo' hi' t :
  lo' ≤ lo → hi ≤ hi' → starts_within lo hi t → starts_within lo' hi' t.
Proof.
  intros Hlo Hhi (H1 & H2 & H3). split_and!; [done | | done].
  eapply Forall_impl; [exact H2|]. simpl. lia.
Qed.

Lemma starts_within_app lo mid hi t1 t2 :
  lo ≤ mid → mid ≤ hi →
  starts_within lo mid t1 → starts_within mid hi t2 →
  starts_within lo hi (t1 ++ t2).
Proof.
  intros Hlo Hhi (S1 & B1 & H1) (S2 & B2 & H2).
  unfold starts_within. rewrite yield_starts_app. split_and!.
  - rewrite Forall_forall in B1, B2.
    apply StronglySorted_app_2; [|done..].
    intros x1 x2 Hx1 Hx2. specialize (B1 _ Hx1). specialize (B2 _ Hx2). lia.
  - apply Forall_app. split.
    + eapply Forall_impl; [exact B1|]. simpl. lia.
    + eapply Forall_impl; [exact B2|]. simpl. lia.
  - by apply Forall_app.
Qed.

(** The chunks of one window all carry the start of that window. *)
Lemma starts_within_window d a t :
  window_start d = Some a →
  Forall (window_event d) t → starts_within a a t.
Proof.
  intros Hd. induction 1 as [|e t He _ IH]; [apply starts_within_nil|].
  destruct IH as (S1 & B1 & H1).
  destruct e as [p h|p r|p c|st|st p]; simpl in He;
    try (split_and!; [done | done | by constructor]).
  subst p. unfold starts_within. simpl. rewrite Hd. split_and!.
  - constructor; [done|]. eapply Forall_impl; [exact B1|]. simpl. lia.
  - constructor; [lia | done].
  - constructor; [|done]. simpl. by rewrite Hd.
Qed.

Lemma mid_second_bounds a b :
  a ≤ b + 1 →
  let m := PyDate.second_of
             (a * PyDate.US_PER_SECOND
              + PyDate.halve (b * PyDate.US_PER_SECOND
                              - a * PyDate.US_PER_SECOND)) in
  a ≤ m + 1 ∧ m ≤ b.
Proof.
  intros Hab m. subst m. unfold PyDate.second_of, PyDate.US_PER_SECOND.
  destruct (Z.eq_dec a (b + 1)) as [-> | Hne].
  - replace (b * 1000000 - (b + 1) * 1000000) with (-1000000) by lia.
    change (PyDate.halve (-1000000)) with (-500000).
    split; Z.div_mod_to_equations; lia.
  - pose proof (halve_bounds (b * 1000000 - a * 1000000) ltac:(lia)).
    Z.div_mod_to_equations. lia.
Qed.

Lemma effective_window_dated params maxCreationDays (s : state W) a b :
  dated (deref s params) a b →
  ∃ r, effective_window clock params maxCreationDays s = ([], s, r)
       ∧ ∀ x y, r = Ok (x, y) →
           x = a * PyDate.US_PER_SECOND ∧ y = b * PyDate.US_PER_SECOND.
Proof.
  intros (Hmin & Hmax & Hpub).
  unfold effective_window, window_bounds, fold_published, bind, read, lift,
    ret, strptime.
  rewrite Hmin, Hmax. simpl.
  destruct (PyDate.valid (a * _)); simpl; [|eexists; split; done].
  destruct (PyDate.valid (b * _)); simpl; [|eexists; split; done].
  rewrite Hpub. simpl. eexists. split; [done|]. by intros x y [= <- <-].
Qed.

Lemma dated_child d a m :
  d !! "publieeDepuis" = None →
  dated (<["maxCreationDate" := PTime m]>
           (<["minCreationDate" := PTime a]> d)) a m.
Proof.
  intros Hpub. unfold dated. split_and!.
  - rewrite lookup_insert_ne by done. by rewrite lookup_insert_eq.
  - by rewrite lookup_insert_eq.
  - by rewrite !lookup_insert_ne by done.
Qed.

(** The two halves of a window, walked one after the other. *)
Lemma children_ordered fuel params start_date end_date (s : state W) :
  (∀ l m (s0 : state W) a0 b0,
     dated (deref s0 l) a0 b0 → a0 ≤ b0 + 1 →
     starts_within a0 (b0 + 1)
       (get_lazy_job_offers clock http_head http_get fuel l m s0).1.1) →
  (params < List.length (heap s))%nat →
  deref s params !! "publieeDepuis" = None →
  let m := PyDate.second_of
             (start_date + PyDate.halve (end_date - start_date)) in
  PyDate.second_of start_date ≤ m + 1 →
  m ≤ PyDate.second_of end_date →
  starts_within (PyDate.second_of start_date)
    (PyDate.second_of end_date + 1)
    (bind (split_params params start_date end_date)
       (λ '(params1, params2),
          bind (get_lazy_job_offers clock http_head http_get fuel params1 365)
            (λ _, get_lazy_job_offers clock http_head http_get fuel params2
                    365)) s).1.1.
Proof.
  intros IH Hv Hpub m Hlo Hhi. unfold bind.
  destruct (split_params params _ _ s) as [[t2 s2] r2] eqn:Hsplit.
  pose proof (split_params_silent params start_date end_date s) as Ht2.
  rewrite Hsplit in Ht2. simpl in Ht2. subst t2.
  destruct r2 as [[l1 l2]| |]; [|apply starts_within_nil..].
  destruct (split_params_children _ _ _ _ _ _ _ _ Hv Hsplit)
    as (_ & -> & -> & _ & Hheap).
  fold m in Hheap.
  set (a := PyDate.second_of start_date) in *.
  set (b := PyDate.second_of end_date) in *.
  assert (dated (deref s2 (List.length (heap s))) a m) as Hd1.
  { erewrite deref_lookup;
      [| rewrite Hheap, lookup_app_r by lia;
         rewrite Nat.sub_diag; reflexivity].
    by apply dated_child. }
  pose proof (IH _ 365 s2 _ _ Hd1 Hlo) as H1.
  pose proof (get_lazy_frame fuel (List.length (heap s)) 365 s2)
    as [_ Hframe].
  destruct (get_lazy_job_offers _ _ _ fuel (List.length (heap s)) _ _)
    as [[t3 s3] r3]. simpl in H1, Hframe.
  assert (dated (deref s3 (S (List.length (heap s)))) (m + 1) b) as Hd2.
  { destruct (Hframe (S (List.length (heap s)))) as [E | [? _]]; [| |lia].
    { rewrite Hheap, length_app. simpl. lia. }
    unfold deref. rewrite E, Hheap, lookup_app_r by lia.
    replace (S (List.length (heap s)) - List.length (heap s))%nat
      with 1%nat by lia.
    simpl. by apply dated_child. }
  destruct r3 as [[]| |]; simpl.
  - pose proof (IH _ 365 s3 _ _ Hd2 ltac:(lia)) as H2.
    destruct (get_lazy_job_offers _ _ _ fuel (S (List.length (heap s))) _ _)
      as [[t4 s4] r4]. simpl in *.
    by apply (starts_within_app a (m + 1) (b + 1)); [lia | lia | |].
  - by apply (starts_within_weaken a (m + 1)); [lia | lia |].
  - by apply (starts_within_weaken a (m + 1)); [lia | lia |].
Qed.

Lemma split_branch_ordered fuel params maxCreationDays (s : state W) a b :
  (∀ l m (s0 : state W) a0 b0,
     dated (deref s0 l) a0 b0 → a0 ≤ b0 + 1 →
     starts_within a0 (b0 + 1)
       (get_lazy_job_offers clock http_head http_get fuel l m s0).1.1) →
  dated (deref s params) a b → a ≤ b + 1 →
  starts_within a (b + 1)
    (split_branch clock http_head http_get fuel params maxCreationDays s).1.1.
Proof.
  intros IH Hd Hab.
  pose proof Hd as (Hmin & _ & Hpub).
  pose proof (deref_valid _ _ _ _ Hmin) as Hv.
  destruct (effective_window_dated params maxCreationDays s a b Hd)
    as (r & Hwin & Hr).
  unfold split_branch. unfold bind at 1. rewrite Hwin.
  destruct r as [[x y]| |]; [|apply starts_within_nil..].
  destruct (Hr x y eq_refl) as [-> ->].
  destruct (mid_second_bounds a b Hab) as [Hlo Hhi].
  pose proof (children_ordered fuel params (a * PyDate.US_PER_SECOND)
                (b * PyDate.US_PER_SECOND) s IH Hv Hpub) as Hc.
  rewrite !second_of_scaled in Hc. specialize (Hc Hlo Hhi).
  by destruct (bind (split_params _ _ _) _ s) as [[??]?].
Qed.

Lemma get_lazy_ordered fuel : ∀ params maxCreationDays (s : state W) a b,
  dated (deref s params) a b → a ≤ b + 1 →
  starts_within a (b + 1)
    (get_lazy_job_offers clock http_head http_get fuel params
       maxCreationDays s).1.1.
Proof.
  induction fuel as [|fuel IH]; intros params m s a b Hd Hab.
  - apply starts_within_nil.
  - simpl. unfold bind at 1.
    destruct (get_nb_offers http_head params s) as [[t0 s0] r0] eqn:Hnb.
    destruct (get_nb_offers_inv _ _ _ _ _ Hnb) as [-> Hh0].
    destruct r0 as [nb| |];
      [| apply starts_within_head, starts_within_nil..].
    unfold bind at 1, lift at 1.
    destruct (ge_max_range nb) as [[]| |]; simpl;
      [| | apply starts_within_head, starts_within_nil..].
    + rewrite <- (deref_heap s s0 params Hh0) in Hd.
      pose proof (split_branch_ordered fuel params m s0 a b IH Hd Hab) as Hb.
      unfold split_branch in Hb.
      destruct (bind (effective_window _ _ _) _ s0) as [[t1 s1] r1].
      simpl in *. by apply starts_within_head.
    + pose proof (fetch_window_events fuel params s0) as [Hev _].
      destruct (fetch_window _ _ _ _) as [[t1 s1] r1]. simpl in *.
      apply starts_within_head.
      rewrite (deref_heap s s0 params Hh0) in Hev.
      apply (starts_within_weaken a a); [lia | lia |].
      eapply starts_within_window; [|exact Hev].
      destruct Hd as (Hmin & _). unfold window_start. by rewrite Hmin.
Qed.

(** C8, amended: in every split the right child is started from the state
    the left child's traversal ended in and its events follow all those of
    the left child, so no chunk of the right child comes before a chunk of
    the left one (and the right child is not run when the left one raises);
    when the root call splits a window with [start_date <= end_date] and its
    params hold no [publieeDepuis] once it is folded, every chunk of the
    stream carries the start of its window and these starts never decrease
    along the stream; so it is, split or not, for params that hold a window
    [minCreationDate <= maxCreationDate] and no [publieeDepuis]. *)
Theorem chunks_in_window_order fuel params maxCreationDays (s : state W) :
  (∀ t1 s1 start_date end_date t2 s2 l1 l2,
     effective_window clock params maxCreationDays s
     = (t1, s1, Ok (start_date, end_date)) →
     split_params params start_date end_date s1 = (t2, s2, Ok (l1, l2)) →
     let left := get_lazy_job_offers clock http_head http_get fuel l1 365 s2 in
     split_branch clock http_head http_get fuel params maxCreationDays s
     = after (t1 ++ t2)
         (match left.2 with
          | Ok _ =>
              after left.1.1
                (get_lazy_job_offers clock http_head http_get fuel l2 365
                   left.1.2)
          | _ => left
          end))
  ∧ (∀ t0 s0 n t1 s1 start_date end_date,
       (params < List.length (heap s))%nat →
       get_nb_offers http_head params s = (t0, s0, Ok (Some n)) →
       MAX_RANGE ≤ n →
       effective_window clock params maxCreationDays s0
       = (t1, s1, Ok (start_date, end_date)) →
       start_date ≤ end_date →
       deref s1 params !! "publieeDepuis" = None →
       let t := (get_lazy_job_offers clock http_head http_get (S fuel) params
                   maxCreationDays s).1.1 in
       StronglySorted Z.le (yield_starts t) ∧ Forall has_start t)
  ∧ (∀ a b,
       dated (deref s params) a b → a ≤ b →
       let t := (get_lazy_job_offers clock http_head http_get fuel params
                   maxCreationDays s).1.1 in
       StronglySorted Z.le (yield_starts t) ∧ Forall has_start t).
Proof.
  split_and!.
  - intros t1 s1 start_date end_date t2 s2 l1 l2 Hwin Hsplit left.
    rewrite (split_branch_run _ _ _ _ _ _ _ _ _ _ _ _ Hwin Hsplit).
    f_equal. unfold bind. fold left.
    destruct left as [[t3 s3] [[]| |]]; simpl; [|done..].
    by destruct (get_lazy_job_offers _ _ _ _ _ _ _) as [[??]?].
  - intros t0 s0 n t1 s1 start_date end_date Hv Hnb Hn Hwin Hle Hpub t.
    subst t. rewrite (get_lazy_known _ _ _ _ _ _ _ Hnb).
    destruct (Z.leb_spec MAX_RANGE n); [|lia].
    destruct (get_nb_offers_inv _ _ _ _ _ Hnb) as [-> Hh0].
    pose proof (effective_window_silent params maxCreationDays s0) as Ht1.
    rewrite Hwin in Ht1. simpl in Ht1. subst t1.
    unfold split_branch. rewrite (bind_after _ _ _ _ _ _ Hwin).
    cbn beta iota.
    pose proof (halve_bounds (end_date - start_date) ltac:(lia)) as Hh.
    pose proof (children_ordered fuel params start_date end_date s1
                  (get_lazy_ordered fuel)) as Hc.
    cbv zeta in Hc.
    destruct Hc as (Hs & _ & Hf); [| done | | |].
    + rewrite (effective_window_length _ _ _ _ _ _ Hwin). by rewrite Hh0.
    + pose proof (second_of_mono start_date
                    (start_date + PyDate.halve (end_date - start_date))
                    ltac:(lia)). lia.
    + apply second_of_mono. lia.
    + destruct (bind (split_params _ _ _) _ s1) as [[t2 s2] r2].
      simpl in *. split; [done | by constructor].
  - intros a b Hd Hab t.
    destruct (get_lazy_ordered fuel params maxCreationDays s a b Hd
                ltac:(lia)) as (Hs & _ & Hh).
    by split.
Qed.

(** ** C9: termination *)

Lemma get_lazy_S fuel params maxCreationDays (s : state W) :
  get_lazy_job_offers clock http_head http_get (S fuel) params
    maxCreationDays s
  = bind (get_nb_offers http_head params)
      (λ nb, bind (lift (ge_max_range nb))
               (λ b : bool,
                  if b
                  then split_branch clock http_head http_get fuel params
                         maxCreationDays
                  else fetch_window http_get fuel params)) s.
Proof. reflexivity. Qed.

Lemma after_result {A} t (out : list event * state W * res A) :
  (after t out).2 = out.2.
Proof. reflexivity. Qed.

(** More fuel does not change a run that finished. *)
Lemma page_loop_mono n : ∀ n' params g rp d e (s : state W),
  (n ≤ n')%nat →
  finished (page_loop http_get n params g rp d e s).2 →
  page_loop http_get n' params g rp d e s
  = page_loop http_get n params g rp d e s.
Proof.
  induction n as [|n IH]; intros n' params g rp d e s Hn Hfin.
  - simpl in *. destruct (Z.ltb_spec d e); [done|].
    by rewrite page_loop_done by lia.
  - destruct n' as [|n']; [lia|].
    destruct (Z.lt_ge_cases d e) as [Hlt | Hge];
      [| by rewrite !page_loop_done by done].
    destruct (http_get (deref s params) (world s)) as [r w'] eqn:Hget.
    destruct (unexpected (status_code r)) eqn:Hst.
    + rewrite !(page_loop_skip _ _ _ _ _ _ _ _ _ Hlt Hget Hst) in *.
      f_equal. apply IH; [lia | done].
    + destruct (resultats r) as [c|y|] eqn:Hres.
      * rewrite !(page_loop_yield _ _ _ _ _ _ _ _ _ _ Hlt Hget Hst Hres) in *.
        f_equal. apply IH; [lia | done].
      * by rewrite !(page_loop_raise_body _ _ _ _ _ _ _ _ _ _ Hlt Hget Hst
                       Hres).
      * by destruct (resultats_not_out_of_fuel r).
Qed.

Lemma fetch_window_mono n n' params (s : state W) :
  (n ≤ n')%nat →
  finished (fetch_window http_get n params s).2 →
  fetch_window http_get n' params s = fetch_window http_get n params s.
Proof.
  intros Hn. unfold fetch_window, bind, session_get, lift, yield.
  destruct (http_get _ _) as [r w'].
  destruct (status_code r =? 200); [done|].
  destruct (status_code r =? 206); [|done].
  destruct (resultats r); [|done..].
  destruct (range_total _ _) as [e| |]; [|done..].
  destruct (int_header _ _) as [g| |]; [|done..].
  intros Hfin.
  rewrite (page_loop_mono n n'); [done | done |].
  by destruct (page_loop _ _ _ _ _ _ _ _) as [[??]?].
Qed.

Lemma split_branch_mono n n' params maxCreationDays (s : state W) :
  (∀ l m (s0 : state W),
     finished (get_lazy_job_offers clock http_head http_get n l m s0).2 →
     get_lazy_job_offers clock http_head http_get n' l m s0
     = get_lazy_job_offers clock http_head http_get n l m s0) →
  finished (split_branch clock http_head http_get n params
              maxCreationDays s).2 →
  split_branch clock http_head http_get n' params maxCreationDays s
  = split_branch clock http_head http_get n params maxCreationDays s.
Proof.
  intros IH. unfold split_branch, bind.
  destruct (effective_window _ _ _ _) as [[t1 s1] [[a b]| |]]; [|done..].
  destruct (split_params _ _ _ _) as [[t2 s2] [[l1 l2]| |]]; [|done..].
  destruct (get_lazy_job_offers _ _ _ n l1 _ _) as [[t3 s3] r3] eqn:Hleft.
  intros Hfin.
  rewrite (IH l1 365 s2), Hleft; [| rewrite Hleft; by destruct r3].
  destruct r3 as [[]| |]; [|done..].
  destruct (get_lazy_job_offers _ _ _ n l2 _ _) as [[t4 s4] r4] eqn:Hright.
  rewrite (IH l2 365 s3), Hright; [done | by rewrite Hright].
Qed.

Lemma get_lazy_mono n : ∀ n' params maxCreationDays (s : state W),
  (n ≤ n')%nat →
  finished (get_lazy_job_offers clock http_head http_get n params
              maxCreationDays s).2 →
  get_lazy_job_offers clock http_head http_get n' params maxCreationDays s
  = get_lazy_job_offers clock http_head http_get n params maxCreationDays s.
Proof.
  induction n as [|n IH]; intros n' params m s Hn Hfin; [done|].
  destruct n' as [|n']; [lia|].
  rewrite !get_lazy_S in *.
  destruct (get_nb_offers http_head params s) as [[t0 s0] [nb| |]] eqn:Hnb;
    [| by rewrite !(bind_raise _ _ _ _ _ _ Hnb)
     | by rewrite !(bind_out_of_fuel _ _ _ _ _ Hnb)].
  rewrite !(bind_after _ _ _ _ _ _ Hnb) in *. f_equal.
  rewrite after_result in Hfin.
  destruct (ge_max_range nb) as [b| |] eqn:Hge; [|done..].
  rewrite !(bind_after (lift (Ok b)) _ s0 [] s0 b eq_refl) in *. f_equal.
  rewrite after_result in Hfin.
  destruct b.
  - apply split_branch_mono; [|done].
    intros l m0 s1. apply IH. lia.
  - apply fetch_window_mono; [lia | done].
Qed.

(** The paging loop ends when the granted page size is positive. *)
Lemma page_loop_terminates g : 0 < g →
  ∀ k params rp d e (s : state W),
    e - d ≤ Z.of_nat k →
    finished (page_loop http_get k params g rp d e s).2.
Proof.
  intros Hg. induction k as [|k IH]; intros params rp d e s Hk.
  - by rewrite page_loop_done by lia.
  - destruct (Z.lt_ge_cases d e) as [Hlt | Hge];
      [| by rewrite page_loop_done by done].
    assert (e - range_advance d g e ≤ Z.of_nat k) as Hk'
      by (rewrite range_advance_min; lia).
    destruct (http_get (deref s params) (world s)) as [r w'] eqn:Hget.
    destruct (unexpected (status_code r)) eqn:Hst.
    + rewrite (page_loop_skip _ _ _ _ _ _ _ _ _ Hlt Hget Hst).
      rewrite after_result. by apply IH.
    + destruct (resultats r) as [c|y|] eqn:Hres.
      * rewrite (page_loop_yield _ _ _ _ _ _ _ _ _ _ Hlt Hget Hst Hres).
        rewrite after_result. by apply IH.
      * by rewrite (page_loop_raise_body _ _ _ _ _ _ _ _ _ _ Hlt Hget Hst
                      Hres).
      * by destruct (resultats_not_out_of_fuel r).
Qed.

Lemma int_not_out_of_fuel v : PyStr.int v ≠ OutOfFuel.
Proof. unfold PyStr.int. repeat case_match; done. Qed.

Lemma fetch_window_terminates params (s : state W) :
  pages_positive http_get →
  ∃ n, finished (fetch_window http_get n params s).2.
Proof.
  intros Hpos.
  destruct (http_get (deref s params) (world s)) as [r w'] eqn:Hget.
  pose proof (Hpos (deref s params) (world s)) as Hg.
  rewrite Hget in Hg. simpl in Hg.
  unfold fetch_window, bind, session_get, lift, yield, read, emit, finished.
  rewrite Hget.
  pose proof (resultats_not_out_of_fuel r) as Hres.
  destruct (resultats r) as [c|y|]; [| |done].
  2:{ exists 0%nat. destruct (_ =? 200); [done|].
      by destruct (_ =? 206). }
  destruct (Z.eqb_spec (status_code r) 200); [by exists 0%nat|].
  destruct (Z.eqb_spec (status_code r) 206); [|by exists 0%nat].
  destruct (range_total _ _) as [tot| |] eqn:He; [| by exists 0%nat | ].
  2:{ exfalso. unfold range_total in He. repeat case_match; try done.
      by eapply int_not_out_of_fuel. }
  destruct (int_header _ _) as [g| |] eqn:Hgr; [| by exists 0%nat | ].
  2:{ exfalso. unfold int_header in Hgr. repeat case_match; try done.
      by eapply int_not_out_of_fuel. }
  exists (Z.to_nat (tot - (g - 1))).
  pose proof (page_loop_terminates g (Hg g ltac:(done) eq_refl)
                (Z.to_nat (tot - (g - 1))) params 0 (g - 1) tot
                (State (heap s) w') ltac:(lia)) as Hfin.
  by destruct (page_loop _ _ _ _ _ _ _ _) as [[??]?].
Qed.

Lemma window_start_lookup d a :
  window_start d = Some a → d !! "minCreationDate" = Some (PTime a).
Proof. unfold window_start. repeat case_match; congruence. Qed.

Lemma window_end_lookup d b :
  window_end d = Some b → d !! "maxCreationDate" = Some (PTime b).
Proof. unfold window_end. repeat case_match; congruence. Qed.

Lemma fold_published_raises params start_date (s s' : state W) t start' :
  fold_published clock params start_date s = (t, s', Ok start') →
  start_date ≤ start'.
Proof.
  unfold fold_published, bind, read, lift, ret, now, modify.
  repeat (case_match; simpl in *; simplify_eq); intros; simplify_eq; lia.
Qed.

Lemma effective_window_explicit params maxCreationDays (s s1 : state W)
    a b t start_date end_date :
  window_start (deref s params) = Some a →
  window_end (deref s params) = Some b →
  effective_window clock params maxCreationDays s
  = (t, s1, Ok (start_date, end_date)) →
  a * PyDate.US_PER_SECOND ≤ start_date
  ∧ end_date = b * PyDate.US_PER_SECOND.
Proof.
  intros Ha%window_start_lookup Hb%window_end_lookup.
  unfold effective_window, bind at 1.
  unfold window_bounds, bind, read, lift, ret, strptime.
  rewrite Ha, Hb. simpl.
  destruct (PyDate.valid (a * _)); simpl; [|done].
  destruct (PyDate.valid (b * _)); simpl; [|done].
  destruct (fold_published _ _ _ _) as [[t2 s2] [x| |]] eqn:Hfold; [|done..].
  intros [= <- <- <- <-].
  split; [|done]. by eapply fold_published_raises.
Qed.

Lemma split_params_two params start_date end_date (s s' : state W) t l1 l2 :
  split_params params start_date end_date s = (t, s', Ok (l1, l2)) →
  ∃ d1 d2, heap s' = heap s ++ [d1; d2].
Proof.
  unfold split_params, bind, lift, copy, modify, ret.
  destruct (PyDate.add start_date _) as [mid| |]; simpl; [|done..].
  destruct (PyDate.add mid _) as [after_mid| |]; simpl; [|done..].
  rewrite length_app. simpl. rewrite Nat.add_1_r.
  intros [= _ <- _ _]. simpl.
  rewrite <- app_assoc. simpl.
  rewrite !alter_app_r_alt by (simpl; lia). rewrite Nat.sub_diag.
  replace (S (List.length (heap s)) - List.length (heap s))%nat
    with 1%nat by lia.
  by eexists _, _.
Qed.

Lemma get_nb_offers_finished params (s : state W) :
  finished (get_nb_offers http_head params s).2.
Proof.
  unfold get_nb_offers, bind, head_request, lift, ret, finished.
  destruct (http_head _ _) as [h w'].
  destruct (h !! "Content-Range") eqn:E; [|done].
  destruct (range_total _ _) eqn:He; [done | done |].
  unfold range_total in He. rewrite E in He.
  repeat case_match; try done. by destruct (int_not_out_of_fuel _ He).
Qed.

Lemma split_params_finished params start_date end_date (s : state W) :
  finished (split_params params start_date end_date s).2.
Proof.
  unfold split_params, bind, lift, copy, modify, ret, finished, PyDate.add.
  repeat (case_match; simpl in *; simplify_eq); done.
Qed.

Lemma effective_window_finished params maxCreationDays (s : state W) :
  finished (effective_window clock params maxCreationDays s).2.
Proof.
  unfold effective_window, window_bounds, fold_published, bind, read, lift,
    ret, now, modify, finished, strptime, int_of_pvalue,
    PyDate.timedelta_days, PyDate.sub, PyDate.add.
  repeat (case_match; simpl in *; simplify_eq);
    try done; exfalso; eapply int_not_out_of_fuel; eassumption.
Qed.

(** A call ends as soon as the children of its split, if any, do. *)
Lemma call_terminates params maxCreationDays (s : state W) :
  pages_positive http_get →
  (∀ t0 s0 c t1 s1 start_date end_date t2 s2 l1 l2,
     get_nb_offers http_head params s = (t0, s0, Ok (Some c)) →
     MAX_RANGE ≤ c →
     effective_window clock params maxCreationDays s0
     = (t1, s1, Ok (start_date, end_date)) →
     split_params params start_date end_date s1 = (t2, s2, Ok (l1, l2)) →
     (∃ n, finished
             (get_lazy_job_offers clock http_head http_get n l1 365 s2).2)
     ∧ (∀ s3 : state W, deref s3 l2 = deref s2 l2 →
          ∃ n, finished
                 (get_lazy_job_offers clock http_head http_get n l2 365
                    s3).2)) →
  ∃ n, finished
         (get_lazy_job_offers clock http_head http_get n params
            maxCreationDays s).2.
Proof.
  intros Hpos Hchildren.
  destruct (get_nb_offers http_head params s) as [[t0 s0] r0] eqn:Hnb.
  pose proof (get_nb_offers_finished params s) as Hf0.
  rewrite Hnb in Hf0.
  destruct r0 as [nb| |];
    [| exists 1%nat; rewrite get_lazy_S;
       by rewrite (bind_raise _ _ _ _ _ _ Hnb)
     | done].
  destruct nb as [c|].
  2:{ exists 1%nat. rewrite get_lazy_S, (bind_after _ _ _ _ _ _ Hnb). done. }
  destruct (Z.leb_spec MAX_RANGE c) as [Hc | Hc].
  2:{ destruct (fetch_window_terminates params s0 Hpos) as [n Hn].
      exists (S n). rewrite (get_lazy_known _ _ _ _ _ _ _ Hnb).
      destruct (Z.leb_spec MAX_RANGE c); [lia|]. done. }
  assert (∀ n, get_lazy_job_offers clock http_head http_get (S n) params
                 maxCreationDays s
               = after t0 (split_branch clock http_head http_get n params
                             maxCreationDays s0)) as Hsplit.
  { intros n. rewrite (get_lazy_known _ _ _ _ _ _ _ Hnb).
    by destruct (Z.leb_spec MAX_RANGE c); [|lia]. }
  destruct (effective_window clock params maxCreationDays s0)
    as [[t1 s1] r1] eqn:Hwin.
  pose proof (effective_window_finished params maxCreationDays s0) as Hf1.
  rewrite Hwin in Hf1.
  destruct r1 as [[start_date end_date]| |];
    [| exists 1%nat; rewrite Hsplit, after_result; unfold split_branch;
       by rewrite (bind_raise _ _ _ _ _ _ Hwin)
     | done].
  destruct (split_params params start_date end_date s1)
    as [[t2 s2] r2] eqn:Hsp.
  pose proof (split_params_finished params start_date end_date s1) as Hf2.
  rewrite Hsp in Hf2.
  destruct r2 as [[l1 l2]| |];
    [| exists 1%nat; rewrite Hsplit, after_result; unfold split_branch;
       rewrite (bind_after _ _ _ _ _ _ Hwin), after_result; cbn beta iota;
       by rewrite (bind_raise _ _ _ _ _ _ Hsp)
     | done].
  destruct (Hchildren _ _ _ _ _ _ _ _ _ _ _ eq_refl Hc Hwin Hsp)
    as [[n1 Hn1] Hright].
  destruct (get_lazy_job_offers clock http_head http_get n1 l1 365 s2)
    as [[t3 s3] r3] eqn:Hleft.
  assert (∀ n, (n1 ≤ n)%nat →
            get_lazy_job_offers clock http_head http_get n l1 365 s2
            = (t3, s3, r3)) as Hleft'.
  { intros n Hn. rewrite (get_lazy_mono n1 n); [done | done |].
    by rewrite Hleft. }
  destruct r3 as [[]| |]; simpl in Hn1; [| |done].
  2:{ exists (S n1).
      rewrite Hsplit, after_result,
        (split_branch_run _ _ _ _ _ _ _ _ _ _ _ _ Hwin Hsp), after_result.
      by rewrite (bind_raise _ _ _ _ _ _ (Hleft' n1 ltac:(lia))). }
  destruct (split_params_locs _ _ _ _ _ _ _ _ Hsp) as [-> ->].
  destruct (split_params_two _ _ _ _ _ _ _ _ Hsp) as (d1 & d2 & Hheap).
  pose proof (get_lazy_frame n1 (List.length (heap s1)) 365 s2) as [_ Hfr].
  rewrite Hleft in Hfr. simpl in Hfr.
  destruct (Hright s3) as [n2 Hn2].
  { unfold deref.
    destruct (Hfr (S (List.length (heap s1)))) as [-> | [? _]]; [|done|lia].
    rewrite Hheap, length_app. simpl. lia. }
  exists (S (Nat.max n1 n2)).
  rewrite Hsplit, after_result,
    (split_branch_run _ _ _ _ _ _ _ _ _ _ _ _ Hwin Hsp), after_result.
  rewrite (bind_after _ _ _ _ _ _ (Hleft' (Nat.max n1 n2) ltac:(lia))).
  rewrite after_result.
  rewrite (get_lazy_mono n2 (Nat.max n1 n2)); [done | lia | done].
Qed.

Lemma window_start_child (d : dict) a v :
  window_start (<["maxCreationDate" := v]>
                  (<["minCreationDate" := PTime a]> d)) = Some a.
Proof.
  unfold window_start. rewrite lookup_insert_ne by done.
  by rewrite lookup_insert_eq.
Qed.

Lemma window_end_child (d : dict) b :
  window_end (<["maxCreationDate" := PTime b]> d) = Some b.
Proof. unfold window_end. by rewrite lookup_insert_eq. Qed.

(** A call on a window of less than [k] seconds ends. *)
Lemma windowed_call_terminates :
  splits_reduce clock http_head → pages_positive http_get →
  ∀ (k : nat) params maxCreationDays (s : state W) a b,
    window_start (deref s params) = Some a →
    window_end (deref s params) = Some b →
    b - a < Z.of_nat k →
    ∃ n, finished
           (get_lazy_job_offers clock http_head http_get n params
              maxCreationDays s).2.
Proof.
  intros Hred Hpos.
  induction k as [|k IH]; intros params m s a b Ha Hb Hk;
    apply call_terminates; try done;
    intros t0 s0 c t1 s1 start_date end_date t2 s2 l1 l2 Hnb Hc Hwin Hsp.
  all: destruct (Hred _ _ _ _ _ _ _ _ _ _ _ _ _ _ Hnb Hc Hwin Hsp)
         as [(a1 & b1 & Ha1 & Hb1 & Hd1) (a2 & b2 & Ha2 & Hb2 & Hd2)].
  all: destruct (get_nb_offers_inv _ _ _ _ _ Hnb) as [_ Hh0].
  all: pose proof (deref_valid _ _ _ _ (window_start_lookup _ _ Ha)) as Hv.
  all: assert (params < List.length (heap s1))%nat as Hv1
         by (rewrite (effective_window_length _ _ _ _ _ _ Hwin); congruence).
  all: rewrite <- (deref_heap s s0 params Hh0) in Ha, Hb.
  all: destruct (effective_window_explicit _ _ _ _ _ _ _ _ _ Ha Hb Hwin)
         as [Hstart ->].
  all: pose proof (second_of_mono _ _ Hstart) as Hs.
  all: rewrite second_of_scaled in Hs, Hd1, Hd2.
  all: destruct (split_params_children _ _ _ _ _ _ _ _ Hv1 Hsp)
         as (_ & -> & -> & _ & Hheap).
  all: assert (deref s2 (List.length (heap s1))
               = <["maxCreationDate" :=
                     PTime (PyDate.second_of
                              (start_date
                               + PyDate.halve
                                   (b * PyDate.US_PER_SECOND - start_date)))]>
                   (<["minCreationDate" :=
                        PTime (PyDate.second_of start_date)]>
                      (deref s1 params))) as E1
         by (apply deref_lookup; rewrite Hheap, lookup_app_r by lia;
             by rewrite Nat.sub_diag).
  all: assert (deref s2 (S (List.length (heap s1)))
               = <["maxCreationDate" := PTime b]>
                   (<["minCreationDate" :=
                        PTime (PyDate.second_of
                                 (start_date
                                  + PyDate.halve
                                      (b * PyDate.US_PER_SECOND - start_date))
                               + 1)]>
                      (deref s1 params))) as E2
         by (apply deref_lookup; rewrite Hheap, lookup_app_r by lia;
             replace (S (List.length (heap s1)) - List.length (heap s1))%nat
               with 1%nat by lia;
             simpl; by rewrite second_of_scaled).
  all: rewrite E1 in Ha1, Hb1; rewrite E2 in Ha2, Hb2.
  all: rewrite window_start_child in Ha1, Ha2.
  all: rewrite window_end_child in Hb1, Hb2.
  all: simplify_eq.
  - lia.
  - split.
    + eapply (IH _ 365 s2);
        [rewrite E1; apply window_start_child
        | rewrite E1; apply window_end_child
        | lia].
    + intros s3 Hs3.
      eapply (IH _ 365 s3);
        [rewrite Hs3, E2; apply window_start_child
        | rewrite Hs3, E2; apply window_end_child
        | lia].
Qed.


End Properties.

(** * The properties on the simulated servers *)

Lemma missing_resultats_raises_witness :
  fetch_window Mock.http_get 1 0%nat
    (Mock.start params_dept (Mock.World [] [] [empty_body]))
  = ([EGet params_dept empty_body],
     Mock.start params_dept (Mock.World [] [] []), Raise TypeError).
Proof.
  apply (missing_resultats_raises Mock.http_get 1 0%nat
           (Mock.start params_dept (Mock.World [] [] [empty_body]))
           empty_body (Mock.World [] [] []) ∅);
    [reflexivity | reflexivity | reflexivity | by left].
Defined.

(** The whole call on that server: one probe, one fetch, no chunk. *)
Example missing_resultats_run :
  Mock.get_all_job_offers 2 0%nat 365 (Mock.start params_dept world_empty_body)
  = ([EHead params_dept (content_range "12"); EGet params_dept empty_body],
     Mock.start params_dept (Mock.World [] [] []), Raise TypeError).
Proof. vm_compute. reflexivity. Qed.

Lemma unknown_count_raises_witness :
  Mock.get_nb_offers 0%nat (Mock.start params_dept world_no_range)
  = ([EHead params_dept ∅],
     Mock.start params_dept (Mock.World [] [] [page 200 ∅ ["offer-1"]]),
     Ok None)
  ∧ Mock.get_lazy_job_offers 1 0%nat 365 (Mock.start params_dept world_no_range)
    = ([EHead params_dept ∅],
       Mock.start params_dept (Mock.World [] [] [page 200 ∅ ["offer-1"]]),
       Raise TypeError).
Proof.
  apply (unknown_count_raises Mock.clock Mock.http_head Mock.http_get
           0 0%nat 365 (Mock.start params_dept world_no_range) ∅
           (Mock.World [] [] [page 200 ∅ ["offer-1"]]));
    reflexivity.
Defined.

Lemma split_windows_partition_witness :
  ∃ s' : state Mock.world,
    (window_start (deref s' 1%nat) = Some (S2024 - 2 * DAY)
     ∧ window_end (deref s' 1%nat) = Some (S2024 - 2 * DAY + 43200))
    ∧ (window_start (deref s' 2%nat) = Some (S2024 - 2 * DAY + 43201)
       ∧ window_end (deref s' 2%nat) = Some (S2024 - DAY)).
Proof.
  eexists.
  pose proof (split_windows_partition 0%nat
    (T2024 - 2 * PyDate.US_PER_DAY) (T2024 - PyDate.US_PER_DAY)
    (Mock.start params_window (Mock.World [] [] []))) as H.
  edestruct H as (H1 & H2 & _).
  - simpl. lia.
  - vm_compute. discriminate.
  - vm_compute. reflexivity.
  - split; [exact H1 | exact H2].
Defined.

Lemma flaky_page_body p w :
  successful (Sim.http_get flaky_page p w).1 = true →
  ∃ c, resultats (Sim.http_get flaky_page p w).1 = Ok c.
Proof.
  simpl. unfold flaky_page. destruct (Nat.even w); [|discriminate].
  intros _. eexists. vm_compute. reflexivity.
Qed.

Lemma paging_320_by_100_witness :
  ∃ t s',
    fetch_window (Sim.http_get flaky_page) 3 0%nat (State [params_dept] 0%nat)
    = (t, s', Ok tt)
    ∧ List.length (fetched t) = 4%nat
    ∧ chunk_per_success t.
Proof.
  apply (paging_320_by_100 (Sim.http_get flaky_page) 0 0%nat
           (State [params_dept] 0%nat) (flaky_page 0) 1%nat).
  - reflexivity.
  - reflexivity.
  - vm_compute. reflexivity.
  - vm_compute. reflexivity.
  - apply flaky_page_body.
Defined.

(** The same walk, evaluated: the second and the fourth fetch fail. *)
Example paging_320_by_100_run :
  let out := fetch_window (Sim.http_get flaky_page) 3 0%nat
               (State [params_dept] 0%nat) in
  map status_code (fetched out.1.1) = [206; 503; 206; 503]
  ∧ yielded out.1.1 = [["offer"]; ["offer"]]
  ∧ out.2 = Ok tt.
Proof. vm_compute. done. Qed.

Lemma split_iff_ceiling_witness :
  ∃ t s',
    Mock.get_all_job_offers 2 0%nat 365 (Mock.start params_dept world_two_halves)
    = (t, s', Ok ["offer-1"; "offer-2"; "offer-3"])
    ∧ List.length (probed t) = 3%nat.
Proof.
  edestruct (split_iff_ceiling Mock.clock Mock.http_head Mock.http_get
               0 0%nat 365 (Mock.start params_dept world_two_halves))
    as (_ & _ & H).
  - simpl. lia.
  - vm_compute. reflexivity.
  - edestruct H as (Hrun & Hprobed & _).
    + vm_compute. discriminate.
    + vm_compute. reflexivity.
    + vm_compute. reflexivity.
    + vm_compute. reflexivity.
    + vm_compute. reflexivity.
    + vm_compute. reflexivity.
    + vm_compute. reflexivity.
    + vm_compute. reflexivity.
    + vm_compute. reflexivity.
    + eexists _, _. split; [exact Hrun|].
      rewrite Hprobed. reflexivity.
Defined.

(** The scenario of the documentation, evaluated: the windows of the three
    probes and the flattened result. *)
Example split_iff_ceiling_run :
  let out := Mock.get_all_job_offers 2 0%nat 365
               (Mock.start params_dept world_two_halves) in
  out.2 = Ok ["offer-1"; "offer-2"; "offer-3"]
  ∧ map window_start (probed out.1.1)
    = [None; Some (S2024 - 365 * DAY); Some (S2024 - 365 * DAY + 15768000 + 1)]
  ∧ map window_end (probed out.1.1)
    = [None; Some (S2024 - 365 * DAY + 15768000); Some S2024].
Proof. vm_compute. done. Qed.

(** C6 as stated fails: with a window that starts 5 days ago and
    [publieeDepuis] = 10, the root call splits and the params of its two
    children still hold [publieeDepuis]. *)
Lemma published_since_kept_counterexample :
  let out := Mock.get_lazy_job_offers 2 0%nat 365
               (Mock.start params_recent world_one_split) in
  out.2 = Ok tt
  ∧ List.length (probed out.1.1) = 3%nat
  ∧ map (λ p : dict, p !! "publieeDepuis") (probed out.1.1)
    = [Some (PStr "10"); Some (PStr "10"); Some (PStr "10")].
Proof. vm_compute. done. Qed.

Lemma published_since_folded_witness :
  ∃ s2 : state Mock.world,
    T2024 - 10 * PyDate.US_PER_DAY
    = Z.max (T2024 - 30 * PyDate.US_PER_DAY) (T2024 - 10 * PyDate.US_PER_DAY)
    ∧ window_start (deref s2 1%nat) = Some (S2024 - 10 * DAY)
    ∧ deref s2 1%nat !! "publieeDepuis" = None
    ∧ deref s2 2%nat !! "publieeDepuis" = None.
Proof.
  edestruct (published_since_folded Mock.clock 0%nat
               (T2024 - 30 * PyDate.US_PER_DAY) T2024
               (Mock.start params_month (Mock.World [T2024] [] [])))
    as (H1 & H2 & H3 & _).
  - vm_compute. reflexivity.
  - vm_compute. reflexivity.
  - vm_compute. reflexivity.
  - vm_compute. reflexivity.
  - eexists. split; [exact H1|]. split; [exact H2|].
    apply H3. vm_compute. reflexivity.
Defined.

(** C10 as stated fails: the root call removes [publieeDepuis] from the
    dict it was given by the caller. *)
Lemma caller_params_changed_counterexample :
  let out := Mock.get_lazy_job_offers 2 0%nat 365
               (Mock.start params_month world_one_split) in
  out.2 = Ok tt
  ∧ params_month !! "publieeDepuis" = Some (PStr "10")
  ∧ deref out.1.2 0%nat !! "publieeDepuis" = None
  ∧ deref out.1.2 0%nat ≠ params_month.
Proof. vm_compute. split_and!; done. Qed.

Lemma params_copied_not_aliased_witness :
  let s' := (Mock.get_lazy_job_offers 2 0%nat 365
               (State [params_month; params_dept] world_one_split)).1.2 in
  deref s' 1%nat = params_dept
  ∧ (deref s' 0%nat = params_month
     ∨ deref s' 0%nat = delete "publieeDepuis" params_month).
Proof.
  destruct (params_copied_not_aliased Mock.clock Mock.http_head Mock.http_get
              2 0%nat 365 (State [params_month; params_dept] world_one_split))
    as (Hother & Hown & _).
  - simpl. lia.
  - split; [| exact Hown].
    apply (Hother 1%nat); [simpl; lia | lia].
Defined.

(** C8 as stated fails on the params of the example of the source file,
    whose window is inverted: when the root splits, the chunk of the left
    child carries a later window start than the chunk of the right child
    that follows it.  It also fails on a window with
    [minCreationDate <= maxCreationDate] when [publieeDepuis] is kept by the
    root and folded by its left child 10 seconds later, beyond the end of
    the child's window. *)
Lemma window_order_counterexample :
  (let out := Mock.get_lazy_job_offers 2 0%nat 365
                (Mock.start params_example world_split_dated) in
   out.2 = Ok tt
   ∧ yielded out.1.1 = [["offer-1"; "offer-2"]; ["offer-3"]]
   ∧ yield_starts out.1.1 = [63807180132; 63791432848]
   ∧ ¬ StronglySorted Z.le (yield_starts out.1.1))
  ∧ (let out := Mock.get_lazy_job_offers 3 0%nat 365
                  (Mock.start params_narrow world_late_fold) in
     out.2 = Ok tt
     ∧ yielded out.1.1 = [["offer-1"]; ["offer-2"]; ["offer-3"]]
     ∧ yield_starts out.1.1
       = [S2024 - 10 * DAY + 10; S2024 - 10 * DAY + 7; S2024 - 10 * DAY + 3]
     ∧ ¬ StronglySorted Z.le (yield_starts out.1.1)).
Proof.
  cbv zeta.
  assert (yield_starts
            (Mock.get_lazy_job_offers 2 0%nat 365
               (Mock.start params_example world_split_dated)).1.1
          = [63807180132; 63791432848]) as E1 by (vm_compute; done).
  assert (yield_starts
            (Mock.get_lazy_job_offers 3 0%nat 365
               (Mock.start params_narrow world_late_fold)).1.1
          = [63838800010; 63838800007; 63838800003]) as E2
    by (vm_compute; done).
  split; split_and!.
  - vm_compute. reflexivity.
  - vm_compute. reflexivity.
  - exact E1.
  - rewrite E1. intros H. apply StronglySorted_cons in H as [H _].
    apply Forall_cons in H as [H _]. lia.
  - vm_compute. reflexivity.
  - vm_compute. reflexivity.
  - rewrite E2. vm_compute. reflexivity.
  - rewrite E2. intros H. apply StronglySorted_cons in H as [H _].
    apply Forall_cons in H as [H _]. lia.
Qed.

Lemma chunks_in_window_order_witness :
  let t := (Mock.get_lazy_job_offers 2 0%nat 365
              (Mock.start params_window world_split_dated)).1.1 in
  StronglySorted Z.le (yield_starts t) ∧ Forall has_start t.
Proof.
  apply (proj2 (proj2 (chunks_in_window_order Mock.clock Mock.http_head
                         Mock.http_get 2 0%nat 365
                         (Mock.start params_window world_split_dated)))
           (S2024 - 2 * DAY) (S2024 - DAY)).
  - vm_compute. done.
  - vm_compute. discriminate.
Defined.

(** The same stream, evaluated. *)
Example chunks_in_window_order_run :
  let t := (Mock.get_lazy_job_offers 2 0%nat 365
              (Mock.start params_window world_split_dated)).1.1 in
  yield_starts t = [S2024 - 2 * DAY; S2024 - 2 * DAY + 43201]
  ∧ yielded t = [["offer-1"; "offer-2"]; ["offer-3"]].
Proof. vm_compute. done. Qed.

(** ** A page size of zero *)

Lemma sim_get_nb_offers count params (s : state nat) n :
  range_total (content_range (count (deref s params))) "Content-Range" = Ok n →
  get_nb_offers (Sim.http_head count) params s
  = ([EHead (deref s params) (content_range (count (deref s params)))],
     State (heap s) (S (world s)), Ok (Some n)).
Proof.
  intros Hn.
  eapply (get_nb_offers_known (Sim.http_head count)); [reflexivity | | done].
  unfold content_range. by rewrite lookup_singleton_eq.
Qed.

Lemma stuck_loop n : ∀ rp (s : state nat),
  (page_loop (Sim.http_get stuck_page) n 0%nat 0 rp (-1) 12 s).2 = OutOfFuel.
Proof.
  induction n as [|n IH]; intros rp s; [done|].
  rewrite (page_loop_yield (Sim.http_get stuck_page) n 0%nat 0 rp (-1) 12 s
             (stuck_page (world s)) (S (world s)) ["offer"]);
    [| lia | reflexivity | reflexivity | vm_compute; reflexivity].
  rewrite after_result. apply IH.
Qed.

Lemma stuck_stream n :
  (get_lazy_job_offers Sim.clock (Sim.http_head small_count)
     (Sim.http_get stuck_page) n 0%nat 365 (State [params_dept] 0%nat)).2
  = OutOfFuel.
Proof.
  destruct n as [|n]; [done|].
  rewrite (get_lazy_known Sim.clock (Sim.http_head small_count)
             (Sim.http_get stuck_page) n 0%nat 365 _ _ _ 12
             (sim_get_nb_offers small_count 0%nat _ 12
                ltac:(vm_compute; reflexivity))).
  rewrite after_result.
  change (MAX_RANGE <=? 12) with false. cbv iota.
  rewrite (fetch_window_206 (Sim.http_get stuck_page) n 0%nat _
             (stuck_page 1%nat) 2%nat ["offer"] 12 0);
    [| reflexivity | reflexivity | vm_compute; reflexivity
     | vm_compute; reflexivity | vm_compute; reflexivity].
  rewrite after_result. apply stuck_loop.
Qed.


(** ** A server on which every split reduces the window *)

Lemma steady_page_positive : pages_positive (Sim.http_get steady_page).
Proof.
  intros p w g _. vm_compute. intros [= <-]. reflexivity.
Qed.

Lemma halve_upper td : PyDate.halve td ≤ td `div` 2 + 1.
Proof. unfold PyDate.halve. case_match; lia. Qed.

Lemma mid_second_strict a b :
  a < b →
  let m := PyDate.second_of
             (a * PyDate.US_PER_SECOND
              + PyDate.halve (b * PyDate.US_PER_SECOND
                              - a * PyDate.US_PER_SECOND)) in
  a ≤ m ∧ m < b.
Proof.
  intros Hab m. subst m. unfold PyDate.second_of, PyDate.US_PER_SECOND.
  pose proof (halve_bounds (b * 1000000 - a * 1000000) ltac:(lia)).
  pose proof (halve_upper (b * 1000000 - a * 1000000)).
  Z.div_mod_to_equations. lia.
Qed.

Lemma splittable_dated d :
  splittable d = true → ∃ a b, dated d a b ∧ a < b.
Proof.
  unfold splittable, window_start, window_end, dated.
  repeat case_match; try done. intros Hlen%Z.leb_le.
  simplify_eq. eexists _, _. split_and!; [done..|lia].
Qed.

Lemma bisect_count_reduces :
  splits_reduce Sim.clock (Sim.http_head bisect_count).
Proof.
  intros params m s s0 s1 s2 t0 n t1 start_date end_date t2 l1 l2
    Hnb Hn Hwin Hsp.
  destruct (splittable (deref s params)) eqn:Hsplittable.
  2:{ rewrite (sim_get_nb_offers bisect_count params s 120) in Hnb.
      - injection Hnb as _ _ <-. unfold MAX_RANGE in Hn. lia.
      - unfold bisect_count. rewrite Hsplittable. vm_compute. reflexivity. }
  rewrite (sim_get_nb_offers bisect_count params s 3500) in Hnb.
  2:{ unfold bisect_count. rewrite Hsplittable. vm_compute. reflexivity. }
  injection Hnb as _ <- _.
  destruct (splittable_dated _ Hsplittable) as (a & b & Hd & Hab).
  pose proof (deref_valid _ _ _ _ (proj1 Hd)) as Hv.
  destruct (effective_window_dated Sim.clock params m
              (State (heap s) (S (world s))) a b Hd) as (r & Hwin' & Hr).
  rewrite Hwin' in Hwin. injection Hwin as _ <- ->.
  destruct (Hr _ _ eq_refl) as [-> ->].
  destruct (split_params_children params _ _
              (State (heap s) (S (world s))) _ _ _ _ Hv Hsp)
    as (_ & -> & -> & _ & Hheap).
  simpl in Hheap |- *.
  rewrite !second_of_scaled in *.
  destruct (mid_second_strict a b Hab) as [Hlo Hhi].
  split.
  - eexists _, _. split_and!.
    + erewrite deref_lookup;
        [| rewrite Hheap, lookup_app_r by (simpl; lia);
           rewrite Nat.sub_diag; reflexivity].
      apply window_start_child.
    + erewrite deref_lookup;
        [| rewrite Hheap, lookup_app_r by (simpl; lia);
           rewrite Nat.sub_diag; reflexivity].
      apply window_end_child.
    + lia.
  - eexists _, _. split_and!.
    + erewrite deref_lookup;
        [| rewrite Hheap, lookup_app_r by (simpl; lia);
           replace (S (List.length (heap s)) - List.length (heap s))%nat
             with 1%nat by lia; reflexivity].
      apply window_start_child.
    + erewrite deref_lookup;
        [| rewrite Hheap, lookup_app_r by (simpl; lia);
           replace (S (List.length (heap s)) - List.length (heap s))%nat
             with 1%nat by lia; reflexivity].
      apply window_end_child.
    + lia.
Qed.


(** The same stream, evaluated with enough fuel: the window of one day is
    split twice, and the three windows are walked in the order of their
    starts. *)
Example stream_terminates_run :
  let out := get_lazy_job_offers Sim.clock (Sim.http_head bisect_count)
               (Sim.http_get steady_page) 6 0%nat 365
               (State [params_window] 0%nat) in
  out.2 = Ok tt
  ∧ map window_start (probed out.1.1)
    = [Some (S2024 - 2 * DAY); Some (S2024 - 2 * DAY);
       Some (S2024 - 2 * DAY); Some (S2024 - 2 * DAY + 21601);
       Some (S2024 - 2 * DAY + 43201)]
  ∧ List.length (fetched out.1.1) = 12%nat
  ∧ List.length (yielded out.1.1) = 12%nat.
Proof. vm_compute. done. Qed.

(** * Further properties of the traversal *)

Section Coverage.

Context {W : Type}.
Variable clock : W → Z * W.
Variable http_head : dict → W → gmap string string * W.
Variable http_get : dict → W → response * W.

(** ** The cost of a window *)

Lemma turns_done g d e : 0 < g → e ≤ d → turns g d e = 0%nat.
Proof.
  intros Hg Hle. unfold turns.
  assert ((e - d + g - 1) `div` g ≤ 0); [|lia].
  apply Z.lt_succ_r, Z.div_lt_upper_bound; lia.
Qed.

Lemma turns_step g d e :
  0 < g → d < e → turns g d e = S (turns g (range_advance d g e) e).
Proof.
  intros Hg Hlt. unfold turns. rewrite range_advance_min.
  destruct (Z.le_gt_cases (d + g) e) as [Hle | Hgt].
  - rewrite Z.min_l by done.
    replace (e - d + g - 1) with (e - (d + g) + g - 1 + 1 * g) by lia.
    rewrite Z.div_add by lia.
    assert (0 ≤ (e - (d + g) + g - 1) `div` g)
      by (apply Z.div_pos; lia).
    lia.
  - rewrite Z.min_r by lia.
    replace (e - e + g - 1) with (g - 1) by lia.
    rewrite (Z.div_small (g - 1) g) by lia.
    replace (e - d + g - 1) with (e - d - 1 + 1 * g) by lia.
    rewrite Z.div_add by lia.
    rewrite (Z.div_small (e - d - 1) g) by lia. reflexivity.
Qed.

Lemma page_loop_count g params e :
  0 < g →
  (∀ p w, successful (http_get p w).1 = true →
          ∃ c, resultats (http_get p w).1 = Ok c) →
  ∀ fuel rp d (s : state W),
    (turns g d e ≤ fuel)%nat →
    ∃ t s',
      page_loop http_get fuel params g rp d e s = (t, s', Ok tt)
      ∧ List.length (fetched t) = turns g d e
      ∧ chunk_per_success t.
Proof.
  intros Hg Hbody. induction fuel as [|fuel IH]; intros rp d s Hfuel.
  all: destruct (Z.lt_ge_cases d e) as [Hlt | Hge].
  - rewrite (turns_step g d e Hg Hlt) in Hfuel. lia.
  - rewrite page_loop_done by done. rewrite turns_done by done.
    eexists _, _. split_and!; [done | done | constructor].
  - rewrite (turns_step g d e Hg Hlt) in Hfuel |- *.
    destruct (page_loop_turn http_get fuel params g rp d e s Hbody Hlt)
      as (ev & -> & Hn & Hp).
    destruct (IH (rp + g) (range_advance d g e)
                (State (heap s) (http_get (deref s params) (world s)).2)
                ltac:(lia)) as (t & s' & -> & Hlen & Hpair).
    eexists _, _. split; [reflexivity|]. simpl.
    rewrite fetched_app, length_app, Hn, Hlen. split; [done|].
    by apply chunk_per_success_app.
  - rewrite page_loop_done by done. rewrite turns_done by done.
    eexists _, _. split_and!; [done | done | constructor].
Qed.

(** X1: a window answered with status 206, a total [total] and pages of
    [page > 0] costs one fetch plus [total / page] (rounded down) turns of
    the loop, when the responses with status 200 or 206 carry [resultats]:
    one fetch more than the number of pages when [page] divides [total]. *)
Theorem window_costs_total_div_page fuel params (s : state W) r0 w0
    total page :
  http_get (deref s params) (world s) = (r0, w0) →
  status_code r0 = 206 →
  range_total (headers r0) "Content-Range" = Ok total →
  int_header (headers r0) "Accept-Range" = Ok page →
  0 < page →
  (∀ p w, successful (http_get p w).1 = true →
          ∃ c, resultats (http_get p w).1 = Ok c) →
  (Z.to_nat (total `div` page) ≤ fuel)%nat →
  ∃ t s',
    fetch_window http_get fuel params s = (t, s', Ok tt)
    ∧ List.length (fetched t) = S (Z.to_nat (total `div` page))
    ∧ chunk_per_success t.
Proof.
  intros Hget Hst He Hg Hpos Hbody Hfuel.
  destruct (Hbody (deref s params) (world s)) as [c0 Hc0].
  { rewrite Hget. simpl. unfold successful, unexpected. by rewrite Hst. }
  rewrite Hget in Hc0. simpl in Hc0.
  rewrite (fetch_window_206 http_get _ _ _ _ _ _ _ _ Hget Hst Hc0 He Hg).
  assert (turns page (page - 1) total = Z.to_nat (total `div` page)) as Ht
    by (unfold turns; f_equal; f_equal; lia).
  destruct (page_loop_count page params total Hpos Hbody fuel 0 (page - 1)
              (State (heap s) w0) ltac:(lia)) as (t & s' & -> & Hlen & Hpair).
  eexists _, _. split; [reflexivity|]. simpl. split; [lia|].
  change (?a :: ?b :: t) with ([a; b] ++ t).
  apply chunk_per_success_app; [|done].
  unfold chunk_per_success. simpl.
  unfold successful, unexpected. rewrite Hst. simpl. by repeat constructor.
Qed.

(** ** What a window walk sends and yields *)

Lemma page_loop_stateless (f : dict → response) params g e c :
  (∀ p w, (http_get p w).1 = f p) →
  0 < g →
  ∀ fuel rp d (s : state W),
    unexpected (status_code (f (deref s params))) = false →
    resultats (f (deref s params)) = Ok c →
    (turns g d e ≤ fuel)%nat →
    ∃ t s',
      page_loop http_get fuel params g rp d e s = (t, s', Ok tt)
      ∧ fetched t = replicate (turns g d e) (f (deref s params))
      ∧ yielded t = replicate (turns g d e) c.
Proof.
  intros Hf Hg. induction fuel as [|fuel IH]; intros rp d s Hst Hc Hfuel.
  all: destruct (Z.lt_ge_cases d e) as [Hlt | Hge].
  - rewrite (turns_step g d e Hg Hlt) in Hfuel. lia.
  - rewrite page_loop_done by done. rewrite turns_done by done.
    by eexists _, _.
  - rewrite (turns_step g d e Hg Hlt) in Hfuel |- *.
    destruct (http_get (deref s params) (world s)) as [r w'] eqn:Hget.
    assert (r = f (deref s params)) as ->
      by (rewrite <- (Hf (deref s params) (world s)), Hget; done).
    rewrite (page_loop_yield http_get _ _ _ _ _ _ _ _ _ _ Hlt Hget Hst Hc).
    destruct (IH (rp + g) (range_advance d g e) (State (heap s) w')
                Hst Hc ltac:(lia)) as (t & s' & -> & Hfe & Hy).
    eexists _, _. split; [reflexivity|]. simpl.
    change (deref (State (heap s) w') params) with (deref s params) in *.
    by rewrite Hfe, Hy.
  - rewrite page_loop_done by done. rewrite turns_done by done.
    by eexists _, _.
Qed.

(** X2: every fetch of a window, the first one and each page of the 206
    loop, is sent with the params of the window as they are: the offsets the
    loop computes are never part of a request.  So, on a server that answers
    a GET from its params alone, a 206 walk over a total [total] with pages
    of [page > 0] yields the chunk of the first response
    [1 + total / page] times. *)
Theorem pages_sent_with_same_params fuel params (s : state W) :
  Forall (λ e, match e with
               | EGet p _ => p = deref s params
               | _ => True
               end) (fetch_window http_get fuel params s).1.1
  ∧ ∀ (f : dict → response) c total page,
      (∀ p w, (http_get p w).1 = f p) →
      status_code (f (deref s params)) = 206 →
      resultats (f (deref s params)) = Ok c →
      range_total (headers (f (deref s params))) "Content-Range" = Ok total →
      int_header (headers (f (deref s params))) "Accept-Range" = Ok page →
      0 < page →
      (Z.to_nat (total `div` page) ≤ fuel)%nat →
      (fetch_window http_get fuel params s).2 = Ok tt
      ∧ yielded (fetch_window http_get fuel params s).1.1
        = replicate (S (Z.to_nat (total `div` page))) c.
Proof.
  split.
  - destruct (fetch_window_events http_get fuel params s) as [Hev _].
    eapply Forall_impl; [exact Hev|].
    intros [] He; simpl in *; done.
  - intros f c total page Hf Hst Hc He Hg Hpos Hfuel.
    destruct (http_get (deref s params) (world s)) as [r w'] eqn:Hget.
    assert (r = f (deref s params)) as ->
      by (rewrite <- (Hf (deref s params) (world s)), Hget; done).
    rewrite (fetch_window_206 http_get _ _ _ _ _ _ _ _ Hget Hst Hc He Hg).
    assert (turns page (page - 1) total = Z.to_nat (total `div` page)) as Ht
      by (unfold turns; f_equal; f_equal; lia).
    destruct (page_loop_stateless f params page total c Hf Hpos fuel 0
                (page - 1) (State (heap s) w')) as (t & s' & -> & _ & Hy).
    + change (deref (State (heap s) w') params) with (deref s params).
      unfold unexpected. by rewrite Hst.
    + done.
    + lia.
    + simpl. split; [done|]. by rewrite Hy, Ht.
Qed.

(** ** The chunks of a stream *)

Lemma chunk_per_success_nil : chunk_per_success [].
Proof. constructor. Qed.

Lemma page_loop_faithful fuel : ∀ params g rp d e (s s' : state W) t,
  page_loop http_get fuel params g rp d e s = (t, s', Ok tt) →
  chunk_per_success t.
Proof.
  induction fuel as [|fuel IH]; intros params g rp d e s s' t Hrun.
  - simpl in Hrun. destruct (d <? e); [done|].
    injection Hrun as <- _. apply chunk_per_success_nil.
  - destruct (Z.lt_ge_cases d e) as [Hlt | Hge].
    2:{ rewrite page_loop_done in Hrun by done. injection Hrun as <- _.
        apply chunk_per_success_nil. }
    destruct (http_get (deref s params) (world s)) as [r w'] eqn:Hget.
    destruct (unexpected (status_code r)) eqn:Hst.
    + rewrite (page_loop_skip http_get _ _ _ _ _ _ _ _ _ Hlt Hget Hst) in Hrun.
      destruct (page_loop _ _ _ _ _ _ _ _) as [[t1 s1] r1] eqn:Hrest.
      unfold after in Hrun. simpl in Hrun. injection Hrun as <- <- ->.
      change (?a :: ?b :: t1) with ([a; b] ++ t1).
      apply chunk_per_success_app; [|by eapply IH].
      unfold chunk_per_success. simpl. unfold successful. rewrite Hst.
      constructor.
    + destruct (resultats r) as [c|y|] eqn:Hres.
      * rewrite (page_loop_yield http_get _ _ _ _ _ _ _ _ _ _ Hlt Hget Hst
                   Hres) in Hrun.
        destruct (page_loop _ _ _ _ _ _ _ _) as [[t1 s1] r1] eqn:Hrest.
        unfold after in Hrun. simpl in Hrun. injection Hrun as <- <- ->.
        change (?a :: ?b :: t1) with ([a; b] ++ t1).
        apply chunk_per_success_app; [|by eapply IH].
        unfold chunk_per_success. simpl. unfold successful. rewrite Hst.
        simpl. by repeat constructor.
      * by rewrite (page_loop_raise_body http_get _ _ _ _ _ _ _ _ _ _ Hlt
                      Hget Hst Hres) in Hrun.
      * by destruct (resultats_not_out_of_fuel r).
Qed.

Lemma fetch_window_faithful fuel params (s s' : state W) t :
  fetch_window http_get fuel params s = (t, s', Ok tt) →
  chunk_per_success t.
Proof.
  destruct (http_get (deref s params) (world s)) as [r w'] eqn:Hget.
  destruct (unexpected (status_code r)) eqn:Hst.
  { rewrite (fetch_window_abort http_get _ _ _ _ _ Hget Hst).
    intros [= <- _]. unfold chunk_per_success. simpl.
    unfold successful. rewrite Hst. constructor. }
  unfold fetch_window, bind, session_get, lift, yield. rewrite Hget.
  destruct (resultats r) as [c|y|] eqn:Hres.
  2:{ destruct (status_code r =? 200) eqn:E200; [done|].
      destruct (status_code r =? 206) eqn:E206; [done|].
      unfold unexpected in Hst. by rewrite E200, E206 in Hst. }
  2:{ by destruct (resultats_not_out_of_fuel r). }
  assert (chunk_per_success [EGet (deref s params) r;
                             EYield (deref s params) c]) as Hfirst.
  { unfold chunk_per_success. simpl. unfold successful. rewrite Hst.
    simpl. by repeat constructor. }
  destruct (status_code r =? 200) eqn:E200; [by intros [= <- _]|].
  destruct (status_code r =? 206) eqn:E206.
  2:{ unfold unexpected in Hst. by rewrite E200, E206 in Hst. }
  destruct (range_total _ _) as [e| |]; [|done..].
  destruct (int_header _ _) as [g| |]; [|done..].
  destruct (page_loop _ _ _ _ _ _ _ _) as [[t1 s1] r1] eqn:Hrest.
  simpl. intros [= <- <- ->].
  change (?a :: ?b :: t1) with ([a; b] ++ t1).
  apply chunk_per_success_app; [done|]. by eapply page_loop_faithful.
Qed.

Lemma get_lazy_faithful fuel : ∀ params maxCreationDays (s s' : state W) t,
  get_lazy_job_offers clock http_head http_get fuel params maxCreationDays s
  = (t, s', Ok tt) →
  chunk_per_success t.
Proof.
  induction fuel as [|fuel IH]; intros params m s s' t Hrun; [done|].
  rewrite get_lazy_S in Hrun.
  destruct (get_nb_offers http_head params s) as [[t0 s0] [nb| |]] eqn:Hnb;
    [| by rewrite (bind_raise _ _ _ _ _ _ Hnb) in Hrun
     | by rewrite (bind_out_of_fuel _ _ _ _ _ Hnb) in Hrun].
  destruct (get_nb_offers_inv http_head _ _ _ _ _ Hnb) as [-> _].
  rewrite (bind_after _ _ _ _ _ _ Hnb) in Hrun.
  destruct (ge_max_range nb) as [b| |] eqn:Hge; [|done..].
  rewrite (bind_after (lift (Ok b)) _ s0 [] s0 b eq_refl) in Hrun.
  rewrite after_nil in Hrun.
  assert (∀ out : list event * state W * res unit,
            after [EHead (deref s params)
                     (http_head (deref s params) (world s)).1] out
            = (t, s', Ok tt) →
            (∀ t1 s1, out = (t1, s1, Ok tt) → chunk_per_success t1) →
            chunk_per_success t) as Hhead.
  { intros [[t1 s1] r1] [= <- <- ->] H1.
    change (?a :: t1) with ([a] ++ t1).
    apply chunk_per_success_app; [constructor | by eapply H1]. }
  eapply Hhead; [exact Hrun|]. clear Hrun Hhead.
  intros t1 s1 Hout. destruct b.
  - unfold split_branch, bind in Hout.
    pose proof (effective_window_silent clock params m s0) as Hw.
    destruct (effective_window _ _ _ _) as [[tw sw] [[a b]| |]]; [|done..].
    simpl in Hw. subst tw.
    pose proof (split_params_silent params a b sw) as Hp.
    destruct (split_params _ _ _ _) as [[tp sp] [[l1 l2]| |]]; [|done..].
    simpl in Hp. subst tp.
    destruct (get_lazy_job_offers _ _ _ fuel l1 _ _)
      as [[t3 s3] [[]| |]] eqn:Hleft; [|done..].
    destruct (get_lazy_job_offers _ _ _ fuel l2 _ _)
      as [[t4 s4] r4] eqn:Hright.
    injection Hout as <- <- ->. simpl.
    apply chunk_per_success_app; by eapply IH.
  - by eapply fetch_window_faithful.
Qed.

(** X3: when a traversal completes, the chunks it yielded are the
    [resultats] of the responses with status 200 or 206, one for one and in
    the order of the fetches: no chunk is made up, dropped or moved; and
    [get_all_job_offers] returns their concatenation. *)
Theorem stream_is_the_successful_pages fuel params maxCreationDays
    (s s' : state W) t offers :
  get_all_job_offers clock http_head http_get fuel params maxCreationDays s
  = (t, s', Ok offers) →
  Forall2 (λ c r, resultats r = Ok c) (yielded t)
    (List.filter successful (fetched t))
  ∧ offers = List.concat (yielded t).
Proof.
  unfold get_all_job_offers.
  destruct (get_lazy_job_offers _ _ _ _ _ _ _) as [[t1 s1] [[]| |]] eqn:Hrun;
    [|done..].
  intros [= <- <- <-]. split; [|done].
  by eapply get_lazy_faithful.
Qed.

(** ** [maxCreationDays] *)

Lemma window_bounds_explicit params m m' (s : state W) v1 v2 :
  deref s params !! "minCreationDate" = Some v1 →
  deref s params !! "maxCreationDate" = Some v2 →
  window_bounds clock params m s = window_bounds clock params m' s.
Proof.
  intros H1 H2. unfold window_bounds, bind, read. by rewrite H1, H2.
Qed.

(** X4: when the params hold both [minCreationDate] and [maxCreationDate],
    whatever their values, [maxCreationDays] has no effect on the
    traversal: it only sets the start of the window of a call that splits
    without a [minCreationDate], and the recursive calls, which always carry
    both dates, never pass it on. *)
Theorem max_creation_days_unused fuel params m m' (s : state W) v1 v2 :
  deref s params !! "minCreationDate" = Some v1 →
  deref s params !! "maxCreationDate" = Some v2 →
  get_lazy_job_offers clock http_head http_get fuel params m s
  = get_lazy_job_offers clock http_head http_get fuel params m' s.
Proof.
  intros H1 H2. destruct fuel as [|fuel]; [done|].
  rewrite !get_lazy_S.
  destruct (get_nb_offers http_head params s) as [[t0 s0] [nb| |]] eqn:Hnb;
    [| by rewrite !(bind_raise _ _ _ _ _ _ Hnb)
     | by rewrite !(bind_out_of_fuel _ _ _ _ _ Hnb)].
  destruct (get_nb_offers_inv http_head _ _ _ _ _ Hnb) as [_ Hh0].
  rewrite !(bind_after _ _ _ _ _ _ Hnb). f_equal.
  destruct (ge_max_range nb) as [[]| |]; [|done..].
  rewrite !(bind_after (lift (Ok true)) _ s0 [] s0 true eq_refl). f_equal.
  unfold split_branch, effective_window. unfold bind at 1 2 6 7.
  rewrite <- (deref_heap s s0 params Hh0) in H1, H2.
  by rewrite (window_bounds_explicit params m m' s0 v1 v2 H1 H2).
Qed.

(** ** The two halves of a window, in seconds *)

Lemma halve_even k : PyDate.halve (2 * k) = k.
Proof.
  unfold PyDate.halve.
  replace (2 * k) with (k * 2) by lia.
  rewrite Z.div_mul, Z.mod_mul by lia. reflexivity.
Qed.

Lemma mid_second a b :
  PyDate.second_of
    (a * PyDate.US_PER_SECOND
     + PyDate.halve (b * PyDate.US_PER_SECOND - a * PyDate.US_PER_SECOND))
  = a + (b - a) `div` 2.
Proof.
  unfold PyDate.US_PER_SECOND.
  replace (b * 1000000 - a * 1000000) with (2 * ((b - a) * 500000)) by lia.
  rewrite halve_even. unfold PyDate.second_of, PyDate.US_PER_SECOND.
  Z.div_mod_to_equations. lia.
Qed.

(** X5: a window given in whole seconds [a .. b] is cut at the second
    [m = a + (b - a) / 2] (rounded down): the left child is [a .. m] and the
    right child is [m + 1 .. b].  When [a <= b] each child lasts at most
    half as long as the parent, and the left child of a window of zero
    duration is that same window. *)
Theorem split_halves_seconds params a b (s s' : state W) t l1 l2 :
  (params < List.length (heap s))%nat →
  split_params params (a * PyDate.US_PER_SECOND) (b * PyDate.US_PER_SECOND) s
  = (t, s', Ok (l1, l2)) →
  let m := a + (b - a) `div` 2 in
  window_start (deref s' l1) = Some a
  ∧ window_end (deref s' l1) = Some m
  ∧ window_start (deref s' l2) = Some (m + 1)
  ∧ window_end (deref s' l2) = Some b
  ∧ (a ≤ b → 2 * (m - a) ≤ b - a ∧ 2 * (b - (m + 1)) < b - a)
  ∧ (a = b → m = a).
Proof.
  intros Hv Hsplit m.
  destruct (split_params_children _ _ _ _ _ _ _ _ Hv Hsplit)
    as (_ & -> & -> & _ & Hheap).
  rewrite !second_of_scaled, mid_second in Hheap. fold m in Hheap.
  erewrite (deref_lookup s' (List.length (heap s)));
    [| rewrite Hheap, lookup_app_r by lia;
       rewrite Nat.sub_diag; reflexivity].
  erewrite (deref_lookup s' (S (List.length (heap s))));
    [| rewrite Hheap, lookup_app_r by lia;
       replace (S (List.length (heap s)) - List.length (heap s))%nat
         with 1%nat by lia; reflexivity].
  rewrite !window_start_child, !window_end_child.
  split_and!; try done; subst m; intros; Z.div_mod_to_equations; lia.
Qed.

(** ** More than the ceiling within one second *)

Lemma effective_window_dated_ok params maxCreationDays (s : state W) a b :
  dated (deref s params) a b →
  PyDate.valid (a * PyDate.US_PER_SECOND) = true →
  PyDate.valid (b * PyDate.US_PER_SECOND) = true →
  effective_window clock params maxCreationDays s
  = ([], s, Ok (a * PyDate.US_PER_SECOND, b * PyDate.US_PER_SECOND)).
Proof.
  intros (Hmin & Hmax & Hpub) Ha Hb.
  unfold effective_window, window_bounds, fold_published, bind, read, lift,
    ret, strptime.
  rewrite Hmin, Hmax. simpl. rewrite Ha. simpl. rewrite Hb. simpl.
  by rewrite Hpub.
Qed.

(** ** The [Content-Range] header of the count probe *)

Lemma split_no_sep sep v :
  sep ∉ list_ascii_of_string v → PyStr.split sep v = [v].
Proof.
  induction v as [|c r IH]; [done|]. simpl. intros Hnot.
  destruct (Ascii.eqb_spec c sep) as [->|Hne].
  - exfalso. apply Hnot. constructor.
  - rewrite IH; [done|]. intros Hin. apply Hnot. by constructor.
Qed.

Lemma split_first_sep sep p q :
  sep ∉ list_ascii_of_string p →
  PyStr.split sep (String.append p (String sep q)) = p :: PyStr.split sep q.
Proof.
  induction p as [|c r IH]; simpl; intros Hnot.
  - by rewrite Ascii.eqb_refl.
  - destruct (Ascii.eqb_spec c sep) as [->|Hne].
    + exfalso. apply Hnot. constructor.
    + rewrite IH; [done|]. intros Hin. apply Hnot. by constructor.
Qed.

Lemma split_nonempty sep v : PyStr.split sep v ≠ [].
Proof.
  destruct v as [|c r]; [done|]. simpl.
  destruct (Ascii.eqb c sep); [done|]. by destruct (PyStr.split sep r).
Qed.

Lemma int_raises_value_error v e : PyStr.int v = Raise e → e = ValueError.
Proof. unfold PyStr.int. repeat case_match; congruence. Qed.

Lemma get_nb_offers_raises params (s : state W) h w' v e :
  http_head (deref s params) (world s) = (h, w') →
  h !! "Content-Range" = Some v →
  range_total h "Content-Range" = Raise e →
  get_nb_offers http_head params s
  = ([EHead (deref s params) h], State (heap s) w', Raise e).
Proof.
  intros Hhead Hh Hn. unfold get_nb_offers, bind, head_request.
  rewrite Hhead, Hh. unfold lift. rewrite Hn. reflexivity.
Qed.

(** X7: when the count probe's response has a [Content-Range] header whose
    value holds no slash, [get_nb_offers] raises [IndexError] instead of
    returning [None], and so does the generator, after that one probe and
    before any page is fetched. *)
Theorem content_range_without_slash params (s : state W) h w' v :
  http_head (deref s params) (world s) = (h, w') →
  h !! "Content-Range" = Some v →
  "/"%char ∉ list_ascii_of_string v →
  get_nb_offers http_head params s
  = ([EHead (deref s params) h], State (heap s) w', Raise IndexError)
  ∧ ∀ fuel maxCreationDays,
      get_lazy_job_offers clock http_head http_get (S fuel) params
        maxCreationDays s
      = ([EHead (deref s params) h], State (heap s) w', Raise IndexError).
Proof.
  intros Hhead Hh Hnot.
  assert (range_total h "Content-Range" = Raise IndexError) as Hr
    by (unfold range_total; by rewrite Hh, (split_no_sep _ _ Hnot)).
  pose proof (get_nb_offers_raises _ _ _ _ _ _ Hhead Hh Hr) as Hnb.
  split; [done|]. intros fuel m. simpl.
  by rewrite (bind_raise _ _ _ _ _ _ Hnb).
Qed.

(** X8: the count is read from what stands between the first and the
    second slash of the [Content-Range] value (to its end when there is one
    slash only), with surrounding white space removed: it is returned when
    that text is an integer literal, and [get_nb_offers] raises [ValueError]
    when it is not. *)
Theorem count_follows_first_slash params (s : state W) h w' p q :
  http_head (deref s params) (world s) = (h, w') →
  h !! "Content-Range" = Some (String.append p (String "/" q)) →
  "/"%char ∉ list_ascii_of_string p →
  let total := PyStr.strip (default "" (head (PyStr.split "/" q))) in
  (∀ n, PyStr.int total = Ok n →
     get_nb_offers http_head params s
     = ([EHead (deref s params) h], State (heap s) w', Ok (Some n)))
  ∧ ((∀ n, PyStr.int total ≠ Ok n) →
     get_nb_offers http_head params s
     = ([EHead (deref s params) h], State (heap s) w', Raise ValueError)).
Proof.
  intros Hhead Hh Hnot total.
  assert (range_total h "Content-Range" = PyStr.int total) as Hr.
  { unfold range_total. rewrite Hh, (split_first_sep _ _ _ Hnot). simpl.
    subst total. pose proof (split_nonempty "/" q).
    by destruct (PyStr.split "/" q). }
  split.
  - intros n Hn. rewrite Hn in Hr.
    exact (get_nb_offers_known http_head _ _ _ _ _ _ Hhead Hh Hr).
  - intros Hno. destruct (PyStr.int total) as [n|e|] eqn:Hint.
    + by destruct (Hno n).
    + rewrite (int_raises_value_error _ _ Hint) in Hr.
      exact (get_nb_offers_raises _ _ _ _ _ _ Hhead Hh Hr).
    + by destruct (int_not_out_of_fuel total).
Qed.

(** ** Dates that are not timestamps *)

(** X9: the creation dates of the params are parsed only by a call that
    splits.  With a [minCreationDate] that [strptime] does not parse with
    the format of the timestamps, a call whose count is at or above the
    ceiling raises [ValueError] right after its count probe, while a call
    whose count is below the ceiling fetches its window with the params as
    they are. *)
Theorem dates_parsed_only_when_splitting fuel params maxCreationDays
    (s : state W) h w' v n x :
  http_head (deref s params) (world s) = (h, w') →
  h !! "Content-Range" = Some v →
  range_total h "Content-Range" = Ok n →
  deref s params !! "minCreationDate" = Some (PStr x) →
  PyDate.parse x = None →
  get_lazy_job_offers clock http_head http_get (S fuel) params
    maxCreationDays s
  = if MAX_RANGE <=? n
    then ([EHead (deref s params) h], State (heap s) w', Raise ValueError)
    else after [EHead (deref s params) h]
           (fetch_window http_get fuel params (State (heap s) w')).
Proof.
  intros Hhead Hh Hn Hmin Hparse.
  rewrite (get_lazy_known clock http_head http_get _ _ _ _ _ _ _
             (get_nb_offers_known http_head _ _ _ _ _ _ Hhead Hh Hn)).
  destruct (MAX_RANGE <=? n); [|done].
  assert (window_bounds clock params maxCreationDays (State (heap s) w')
          = ([], State (heap s) w', Raise ValueError)) as Hwin.
  { unfold window_bounds, bind, read.
    change (deref (State (heap s) w') params) with (deref s params).
    rewrite Hmin. unfold lift, strptime. by rewrite Hparse. }
  unfold split_branch, effective_window.
  rewrite (bind_raise _ _ _ _ _ _ (bind_raise _ _ _ _ _ _ Hwin)).
  done.
Qed.

End Coverage.

(** * Properties of the client object *)

Section ApiProperties.

Context {Proxies Config J W : Type}.
Variable fetch_token :
  string → string → string → string → option Proxies → W → Api.token * W.
Variable send : Api.request Proxies → W → Api.reply J * W.

Local Abbreviation frugal :=
  (Api.frugal (Proxies:=Proxies) (Config:=Config) (J:=J) (W:=W)).
Local Abbreviation tidy :=
  (Api.tidy (Proxies:=Proxies) (Config:=Config) (J:=J) (W:=W)).

Implicit Types s : Api.state Proxies Config W.
Implicit Types c : Api.client Proxies Config.

Lemma act_bind_after {A B} (m : Api.act Proxies Config J W A)
    (k : A → Api.act Proxies Config J W B) s t1 s1 a :
  m s = (t1, s1, Ok a) →
  Api.bind m k s = (t1 ++ (k a s1).1.1, (k a s1).1.2, (k a s1).2).
Proof.
  unfold Api.bind. intros ->. by destruct (k a s1) as [[??]?].
Qed.

Lemma act_bind_raise {A B} (m : Api.act Proxies Config J W A)
    (k : A → Api.act Proxies Config J W B) s t1 s1 e :
  m s = (t1, s1, Raise e) → Api.bind m k s = (t1, s1, Raise e).
Proof. unfold Api.bind. by intros ->. Qed.

Lemma ensure_session_some s x :
  Api.session_ (Api.self s) = Some x →
  Api.ensure_session (J:=J) s = ([], s, Ok tt).
Proof. unfold Api.ensure_session. by intros ->. Qed.

Lemma cached_token s tk :
  Api.token_ (Api.self s) = Some tk → tk ≠ ∅ →
  Api._get_oauth_token (J:=J) fetch_token s = ([], s, Ok tk).
Proof.
  intros Htk Hne. unfold Api._get_oauth_token. rewrite Htk.
  by rewrite bool_decide_eq_false_2.
Qed.

Lemma cached_headers s tk a :
  Api.token_ (Api.self s) = Some tk → tk ≠ ∅ →
  tk !! "access_token" = Some a →
  Api._build_headers (J:=J) fetch_token s
  = ([], s, Ok (<["Authorization" := "Bearer " +:+ a]>
                  (<["Accept" := "application/json"]> ∅))).
Proof.
  intros Htk Hne Ha. unfold Api._build_headers.
  rewrite (act_bind_after _ _ _ _ _ _ (cached_token s tk Htk Hne)).
  by rewrite Ha.
Qed.

(** ** Token fetches are paid for by refusals *)

Lemma fetches_app (t1 t2 : list (Api.call Proxies J)) :
  Api.fetches (t1 ++ t2) = (Api.fetches t1 + Api.fetches t2)%nat.
Proof. unfold Api.fetches. by rewrite List.filter_app, length_app. Qed.

Lemma refusals_app (t1 t2 : list (Api.call Proxies J)) :
  Api.refusals (t1 ++ t2) = (Api.refusals t1 + Api.refusals t2)%nat.
Proof. unfold Api.refusals. by rewrite List.filter_app, length_app. Qed.

Lemma sent_app (t1 t2 : list (Api.call Proxies J)) :
  Api.sent (t1 ++ t2) = Api.sent t1 ++ Api.sent t2.
Proof. apply omap_app. Qed.

Lemma owed_set_token c tk : tk ≠ ∅ → Api.owed (Api.set_token tk c) = 0%nat.
Proof.
  intros Hne. unfold Api.owed, Api.has_token. simpl.
  by rewrite bool_decide_eq_false_2.
Qed.

Lemma frugal_bind {A B} (m : Api.act Proxies Config J W A)
    (k : A → Api.act Proxies Config J W B) :
  frugal m → (∀ a, frugal (k a)) → frugal (Api.bind m k).
Proof.
  intros Hm Hk s. specialize (Hm s). unfold Api.bind.
  destruct (m s) as [[t1 s1] [a|e|]]; simpl in *; try done.
  specialize (Hk a s1). destruct (k a s1) as [[t2 s2] r]. simpl in *.
  rewrite fetches_app, refusals_app. lia.
Qed.

Lemma frugal_ret {A} (a : A) : frugal (Api.ret a : Api.act Proxies Config J W A).
Proof. intros s. simpl. unfold Api.fetches, Api.refusals. simpl. lia. Qed.

Lemma frugal_lift {A} (r : res A) : frugal (Api.lift r : Api.act Proxies Config J W A).
Proof. intros s. simpl. unfold Api.fetches, Api.refusals. simpl. lia. Qed.

Lemma frugal_log e : Api.is_fetch e = false → frugal (Api.log e : Api.act Proxies Config J W unit).
Proof.
  intros He s. simpl. unfold Api.fetches, Api.refusals. simpl.
  rewrite He. destruct (Api.is_refusal e); simpl; lia.
Qed.

Section Frugal.

Hypothesis tokens_hold :
  ∀ u i k sc p w, (fetch_token u i k sc p w).1 ≠ ∅.

Lemma frugal_get_oauth_token : frugal (Api._get_oauth_token fetch_token).
Proof.
  intros s. unfold Api._get_oauth_token, Api._get_new_oauth_token.
  destruct (Api.token_ (Api.self s)) as [tk|] eqn:Htk.
  - destruct (bool_decide (tk = ∅)) eqn:Hd.
    + pose proof (tokens_hold Api.TOKEN_URL (Api.client_id (Api.self s))
        (Api.client_secret (Api.self s)) Api.SCOPE
        (Api.proxies (Api.self s)) (Api.world s)) as Hne.
      destruct (fetch_token _ _ _ _ _ _) as [t' w']. simpl in *.
      rewrite (owed_set_token _ _ Hne).
      unfold Api.owed, Api.has_token. rewrite Htk, Hd. simpl.
      unfold Api.fetches, Api.refusals. simpl. lia.
    + simpl. unfold Api.fetches, Api.refusals. simpl. lia.
  - pose proof (tokens_hold Api.TOKEN_URL (Api.client_id (Api.self s))
      (Api.client_secret (Api.self s)) Api.SCOPE
      (Api.proxies (Api.self s)) (Api.world s)) as Hne.
    destruct (fetch_token _ _ _ _ _ _) as [t' w']. simpl in *.
    rewrite (owed_set_token _ _ Hne).
    unfold Api.owed, Api.has_token. rewrite Htk. simpl.
    unfold Api.fetches, Api.refusals. simpl. lia.
Qed.

Lemma frugal_build_headers : frugal (Api._build_headers fetch_token).
Proof.
  unfold Api._build_headers. apply frugal_bind.
  - apply frugal_get_oauth_token.
  - intros tk. destruct (tk !! "access_token");
      [apply frugal_ret | apply frugal_lift].
Qed.

Lemma frugal_ensure_session : frugal (Api.ensure_session (J:=J) (W:=W)).
Proof.
  intros s. unfold Api.ensure_session.
  destruct (Api.session_ (Api.self s)); simpl;
    unfold Api.fetches, Api.refusals, Api.owed, Api.has_token; simpl; lia.
Qed.

Lemma frugal_requests_head url params hs :
  frugal (Api.requests_head send url params hs).
Proof.
  intros s. unfold Api.requests_head.
  destruct (send _ _) as [r w']. simpl.
  unfold Api.fetches, Api.refusals. simpl. lia.
Qed.

Lemma frugal_send_retry url params hs :
  frugal (Api.bind (Api.session_send send url hs params)
            (λ r, if Api.status_code r =? 403
                  then Api.bind (Api._get_new_oauth_token fetch_token)
                         (λ _, Api.session_send send url hs params)
                  else Api.ret r)).
Proof.
  intros s. unfold Api.bind, Api.session_send, Api._get_new_oauth_token.
  destruct (Api.session_ (Api.self s)) as [x|] eqn:Hx; simpl.
  2:{ unfold Api.fetches, Api.refusals. simpl. lia. }
  destruct (send _ (Api.world s)) as [r w1]. simpl.
  destruct (Api.status_code r =? 403) eqn:Hst; simpl.
  2:{ unfold Api.fetches, Api.refusals. simpl. rewrite Hst. simpl. lia. }
  pose proof (tokens_hold Api.TOKEN_URL (Api.client_id (Api.self s))
    (Api.client_secret (Api.self s)) Api.SCOPE
    (Api.proxies (Api.self s)) w1) as Hne.
  destruct (fetch_token _ _ _ _ _ _) as [t' w2]. simpl in *.
  rewrite Hx. destruct (send _ w2) as [r2 w3]. simpl.
  rewrite (owed_set_token _ _ Hne).
  unfold Api.fetches, Api.refusals. simpl. rewrite Hst. simpl.
  destruct (Api.status_code r2 =? 403); simpl; lia.
Qed.

Lemma frugal_session_get url params hs :
  frugal (Api.session_get fetch_token send url params hs).
Proof.
  unfold Api.session_get. apply frugal_bind; [apply frugal_ensure_session|].
  intros _. apply frugal_bind.
  - destruct hs; [apply frugal_ret | apply frugal_build_headers].
  - intros h. apply frugal_send_retry.
Qed.

Lemma frugal_run_op o : frugal (Api.run_op fetch_token send o).
Proof.
  destruct o as [url params hs|mdata|params|offer_id]; simpl;
    (apply frugal_bind; [|intros; apply frugal_ret]).
  - apply frugal_session_get.
  - unfold Api.get_masterdata. case_match.
    + apply frugal_bind; [apply frugal_session_get|].
      intros; apply frugal_lift.
    + apply frugal_bind; [by apply frugal_log|]. intros; apply frugal_ret.
  - unfold Api.get_nb_offers. apply frugal_bind; [apply frugal_build_headers|].
    intros hs. apply frugal_bind; [apply frugal_requests_head|].
    intros r. case_match; [|apply frugal_ret].
    apply frugal_bind; [apply frugal_lift|]. intros; apply frugal_ret.
  - unfold Api.get_offer. apply frugal_bind; [apply frugal_session_get|].
    intros r. case_match; [apply frugal_lift|].
    apply frugal_bind; [by apply frugal_log|]. intros; apply frugal_ret.
Qed.

Lemma frugal_run_ops os : frugal (Api.run_ops fetch_token send os).
Proof.
  induction os as [|o os IH]; [apply frugal_ret|].
  intros s. simpl. pose proof (frugal_run_op o s) as Ho.
  destruct (Api.run_op fetch_token send o s) as [[t1 s1] r1].
  specialize (IH s1).
  destruct (Api.run_ops fetch_token send os s1) as [[t2 s2] r2].
  simpl in *. rewrite fetches_app, refusals_app. lia.
Qed.

End Frugal.

(** X10: over any series of uses of the object, when the token endpoint
    delivers non-empty tokens, the number of tokens fetched is at most the
    number of session requests answered with status 403, plus one when the
    series starts without a token, as it does on a new object. *)
Theorem token_fetches_bounded os :
  (∀ u i k sc p w, (fetch_token u i k sc p w).1 ≠ ∅) →
  (∀ s,
     (Api.fetches (Api.run_ops fetch_token send os s).1.1
      ≤ Api.owed (Api.self s)
        + Api.refusals (Api.run_ops fetch_token send os s).1.1)%nat)
  ∧ (∀ client_id client_secret proxies (config : option Config) w,
       let s := Api.State
                  (Api.__init__ client_id client_secret proxies config) w in
       (Api.fetches (Api.run_ops fetch_token send os s).1.1
        ≤ 1 + Api.refusals (Api.run_ops fetch_token send os s).1.1)%nat).
Proof.
  intros Hne.
  assert (∀ s,
    (Api.fetches (Api.run_ops fetch_token send os s).1.1
     ≤ Api.owed (Api.self s)
       + Api.refusals (Api.run_ops fetch_token send os s).1.1)%nat) as H
    by (intros s; pose proof (frugal_run_ops Hne os s); lia).
  split; [done|]. intros i k p cfg w s. exact (H s).
Qed.

(** ** Which requests go through the session *)

Lemma tidy_bind {A B} a p (m : Api.act Proxies Config J W A)
    (k : A → Api.act Proxies Config J W B) :
  tidy a p m → (∀ x, tidy a p (k x)) → tidy a p (Api.bind m k).
Proof.
  intros Hm Hk s Hs. specialize (Hm s Hs). unfold Api.bind.
  destruct (m s) as [[t1 s1] [x|e|]]; simpl in *; try done.
  destruct Hm as [Hs1 Ht1]. specialize (Hk x s1 Hs1).
  destruct (k x s1) as [[t2 s2] r]. simpl in *.
  split; [tauto|]. apply Forall_app. tauto.
Qed.

Lemma tidy_ret {A} a p (x : A) : tidy a p (Api.ret x : Api.act Proxies Config J W A).
Proof. intros s Hs. simpl. by split. Qed.

Lemma tidy_lift {A} a p (r : res A) : tidy a p (Api.lift r : Api.act Proxies Config J W A).
Proof. intros s Hs. simpl. by split. Qed.

Lemma tidy_log a p e : Api.routed a p e → tidy a p (Api.log e : Api.act Proxies Config J W unit).
Proof. intros He s Hs. simpl. split; [done|]. by constructor. Qed.

Lemma tidy_get_new_oauth_token a p :
  tidy a p (Api._get_new_oauth_token fetch_token).
Proof.
  intros s Hs. unfold Api._get_new_oauth_token.
  destruct (fetch_token _ _ _ _ _ _) as [t' w']. simpl.
  split; [done|]. by repeat constructor.
Qed.

Lemma tidy_build_headers a p : tidy a p (Api._build_headers fetch_token).
Proof.
  unfold Api._build_headers. apply tidy_bind.
  - intros s Hs. unfold Api._get_oauth_token.
    destruct (Api.token_ (Api.self s)) as [tk|];
      [destruct (bool_decide (tk = ∅))|];
      try apply (tidy_get_new_oauth_token a p s Hs).
    by apply tidy_ret.
  - intros tk. destruct (tk !! "access_token");
      [apply tidy_ret | apply tidy_lift].
Qed.

Lemma tidy_ensure_session a p : tidy a p (Api.ensure_session (J:=J) (W:=W)).
Proof.
  intros s (Ha & Hp & Hx). unfold Api.ensure_session.
  destruct (Api.session_ (Api.self s)) eqn:E; simpl.
  - split; [|done]. unfold Api.wired. rewrite E. tauto.
  - split; [|done]. unfold Api.wired. simpl. rewrite Ha. tauto.
Qed.

Lemma tidy_session_send a p url hs params :
  tidy a p (Api.session_send send url hs params).
Proof.
  intros s (Ha & Hp & Hx). unfold Api.session_send.
  destruct (Api.session_ (Api.self s)) as [x|] eqn:E; simpl.
  - destruct (send _ _) as [r w']. simpl.
    split; [unfold Api.wired; rewrite E; tauto|].
    repeat constructor; simpl; [done|]. destruct Hx; congruence.
  - split; [unfold Api.wired; rewrite E; tauto|done].
Qed.

Lemma tidy_requests_head a p url params hs :
  tidy a p (Api.requests_head send url params hs).
Proof.
  intros s (Ha & Hp & Hx). unfold Api.requests_head.
  destruct (send _ _) as [r w']. simpl. split; [unfold Api.wired; tauto|].
  by repeat constructor.
Qed.

Lemma tidy_session_get a p url params hs :
  tidy a p (Api.session_get fetch_token send url params hs).
Proof.
  unfold Api.session_get. apply tidy_bind; [apply tidy_ensure_session|].
  intros _. apply tidy_bind.
  - destruct hs; [apply tidy_ret | apply tidy_build_headers].
  - intros h. apply tidy_bind; [apply tidy_session_send|].
    intros r. case_match; [|apply tidy_ret].
    apply tidy_bind; [apply tidy_get_new_oauth_token|].
    intros _. apply tidy_session_send.
Qed.

Lemma tidy_run_op a p o : tidy a p (Api.run_op fetch_token send o).
Proof.
  destruct o as [url params hs|mdata|params|offer_id]; simpl;
    (apply tidy_bind; [|intros; apply tidy_ret]).
  - apply tidy_session_get.
  - unfold Api.get_masterdata. case_match.
    + apply tidy_bind; [apply tidy_session_get|]. intros; apply tidy_lift.
    + apply tidy_bind; [by apply tidy_log|]. intros; apply tidy_ret.
  - unfold Api.get_nb_offers. apply tidy_bind; [apply tidy_build_headers|].
    intros hs. apply tidy_bind; [apply tidy_requests_head|].
    intros r. case_match; [|apply tidy_ret].
    apply tidy_bind; [apply tidy_lift|]. intros; apply tidy_ret.
  - unfold Api.get_offer. apply tidy_bind; [apply tidy_session_get|].
    intros r. case_match; [apply tidy_lift|].
    apply tidy_bind; [by apply tidy_log|]. intros; apply tidy_ret.
Qed.

Lemma tidy_run_ops a p os : tidy a p (Api.run_ops fetch_token send os).
Proof.
  induction os as [|o os IH]; [apply tidy_ret|].
  intros s Hs. simpl. pose proof (tidy_run_op a p o s Hs) as Ho.
  destruct (Api.run_op fetch_token send o s) as [[t1 s1] r1].
  destruct Ho as [Hs1 Ht1]. specialize (IH s1 Hs1).
  destruct (Api.run_ops fetch_token send os s1) as [[t2 s2] r2].
  simpl in *. split; [tauto|]. apply Forall_app. tauto.
Qed.

(** X11: whatever is done with a new object, every GET it sends goes through
    one session whose https adapter retries at most 4 times on the statuses
    429, 500, 502 and 503, every HEAD (the count probe) is sent outside any
    session, hence without that retry policy, and every request carries the
    proxies the object was made with. *)
Theorem gets_retry_heads_do_not client_id client_secret proxies
    (config : option Config) os w q r :
  let policy :=
    Api.MkHTTPAdapter
      (Api.MkRetry 4 (QArith_base.Qmake 2 10) [429; 500; 502; 503]) in
  Api.CSend q r
    ∈ (Api.run_ops fetch_token send os
         (Api.State (Api.__init__ client_id client_secret proxies config)
            w)).1.1 →
  Api.req_proxies q = proxies
  ∧ Api.through q = match Api.method q with
                    | Api.GET => Some (Api.mounted policy)
                    | Api.HEAD => None
                    end.
Proof.
  intros policy Hin.
  pose proof (tidy_run_ops policy proxies os
    (Api.State (Api.__init__ client_id client_secret proxies config) w))
    as [_ Hall].
  { unfold Api.wired. simpl. tauto. }
  rewrite Forall_forall in Hall. exact (Hall _ Hin).
Qed.

(** ** One call of [session_get] *)

Lemma ensure_session_run s :
  Api.ensure_session (J:=J) s
  = ([],
     Api.State
       (Api.Client (Api.client_id (Api.self s))
          (Api.client_secret (Api.self s)) (Api.proxies (Api.self s))
          (Api.config (Api.self s)) (Api.token_ (Api.self s))
          (Some (default (Api.mounted (Api.adapter (Api.self s)))
                   (Api.session_ (Api.self s))))
          (Api.adapter (Api.self s)))
       (Api.world s),
     Ok tt).
Proof.
  unfold Api.ensure_session. destruct s as [[i k p cfg tk x a] w]. simpl.
  by destruct x.
Qed.

Lemma session_send_run url hs params s x r w' :
  Api.session_ (Api.self s) = Some x →
  send (Api.Request Api.GET (Some x) url params hs (Api.proxies (Api.self s)))
    (Api.world s) = (r, w') →
  Api.session_send send url hs params s
  = ([Api.CSend
        (Api.Request Api.GET (Some x) url params hs
           (Api.proxies (Api.self s))) r],
     Api.State (Api.self s) w', Ok r).
Proof. intros Hx Hsend. unfold Api.session_send. by rewrite Hx, Hsend. Qed.

(** A call that is accepted at once, on an object that holds a token. *)
Lemma session_get_accepted url params s tk a r w' :
  Api.token_ (Api.self s) = Some tk → tk ≠ ∅ →
  tk !! "access_token" = Some a →
  let x := default (Api.mounted (Api.adapter (Api.self s)))
             (Api.session_ (Api.self s)) in
  let q :=
    Api.Request Api.GET (Some x) url params
      (<["Authorization" := "Bearer " +:+ a]>
         (<["Accept" := "application/json"]> ∅))
      (Api.proxies (Api.self s)) in
  send q (Api.world s) = (r, w') →
  Api.status_code r ≠ 403 →
  Api.session_get fetch_token send url params None s
  = ([Api.CSend q r],
     Api.State (Api.set_session x (Api.self s)) w', Ok r).
Proof.
  intros Htk Hne Ha x q Hsend Hst. unfold Api.session_get.
  rewrite (act_bind_after _ _ _ _ _ _ (ensure_session_run s)).
  cbn beta iota. set (s1 := Api.State _ (Api.world s)).
  rewrite (act_bind_after _ _ _ _ _ _
             (cached_headers s1 tk a Htk Hne Ha)).
  cbn beta iota.
  rewrite (act_bind_after _ _ _ _ _ _
             (session_send_run url _ params s1 x r w' eq_refl Hsend)).
  cbn beta iota. by rewrite (proj2 (Z.eqb_neq _ _) Hst).
Qed.

Lemma retry_run url hs params s x r1 w1 tk' w2 r2 w3 :
  Api.session_ (Api.self s) = Some x →
  let q :=
    Api.Request Api.GET (Some x) url params hs (Api.proxies (Api.self s)) in
  send q (Api.world s) = (r1, w1) →
  Api.status_code r1 = 403 →
  fetch_token Api.TOKEN_URL (Api.client_id (Api.self s))
    (Api.client_secret (Api.self s)) Api.SCOPE (Api.proxies (Api.self s)) w1
  = (tk', w2) →
  send q w2 = (r2, w3) →
  Api.bind (Api.session_send send url hs params)
    (λ r, if Api.status_code r =? 403
          then Api.bind (Api._get_new_oauth_token fetch_token)
                 (λ _, Api.session_send send url hs params)
          else Api.ret r) s
  = ([Api.CSend q r1; Api.CToken tk'; Api.CSend q r2],
     Api.State (Api.set_token tk' (Api.self s)) w3, Ok r2).
Proof.
  intros Hx q Hsend1 Hst Hfetch Hsend2.
  rewrite (act_bind_after _ _ _ _ _ _
             (session_send_run url _ params s x r1 w1 Hx Hsend1)).
  cbn beta iota. rewrite Hst. change (403 =? 403) with true. cbn beta iota.
  unfold Api.bind, Api._get_new_oauth_token. simpl.
  rewrite Hfetch. simpl.
  unfold Api.session_send. simpl. rewrite Hx. fold q. by rewrite Hsend2.
Qed.

(** X12: when the first reply of [session_get] has status 403, a new token
    is fetched and stored, and the request is sent once more exactly as it
    was: with the headers built before the refresh, so with the access
    token that was just refused.  The reply to that second request is
    returned whatever its status. *)
Theorem refusal_retried_with_old_headers url params s tk a r1 w1 tk' w2
    r2 w3 :
  Api.token_ (Api.self s) = Some tk → tk ≠ ∅ →
  tk !! "access_token" = Some a →
  let x := default (Api.mounted (Api.adapter (Api.self s)))
             (Api.session_ (Api.self s)) in
  let q :=
    Api.Request Api.GET (Some x) url params
      (<["Authorization" := "Bearer " +:+ a]>
         (<["Accept" := "application/json"]> ∅))
      (Api.proxies (Api.self s)) in
  send q (Api.world s) = (r1, w1) →
  Api.status_code r1 = 403 →
  fetch_token Api.TOKEN_URL (Api.client_id (Api.self s))
    (Api.client_secret (Api.self s)) Api.SCOPE (Api.proxies (Api.self s)) w1
  = (tk', w2) →
  send q w2 = (r2, w3) →
  Api.session_get fetch_token send url params None s
  = ([Api.CSend q r1; Api.CToken tk'; Api.CSend q r2],
     Api.State (Api.set_token tk' (Api.set_session x (Api.self s))) w3,
     Ok r2).
Proof.
  intros Htk Hne Ha x q Hsend1 Hst Hfetch Hsend2. unfold Api.session_get.
  rewrite (act_bind_after _ _ _ _ _ _ (ensure_session_run s)).
  cbn beta iota. set (s1 := Api.State _ (Api.world s)).
  rewrite (act_bind_after _ _ _ _ _ _
             (cached_headers s1 tk a Htk Hne Ha)).
  cbn beta iota.
  by rewrite (retry_run url _ params s1 x r1 w1 tk' w2 r2 w3 eq_refl
                Hsend1 Hst Hfetch Hsend2).
Qed.

(** X13: suppose the server refuses with status 403 exactly the requests
    that do not carry the access token [fresh], the token endpoint hands out
    [fresh], and the object holds another access token.  Then a call of
    [session_get] fetches the new token and still returns a reply of status
    403; only the next call is accepted. *)
Theorem expired_token_costs_one_call url params s tk old fresh :
  (∀ q w, Api.status_code (send q w).1 = 403
          ↔ Api.req_headers q !! "Authorization"
            ≠ Some ("Bearer " +:+ fresh)) →
  (∀ u i k sc p w, (fetch_token u i k sc p w).1 !! "access_token"
                   = Some fresh) →
  Api.token_ (Api.self s) = Some tk →
  tk !! "access_token" = Some old →
  old ≠ fresh →
  let first := Api.session_get fetch_token send url params None s in
  let second :=
    Api.session_get fetch_token send url params None first.1.2 in
  (∃ r1, first.2 = Ok r1 ∧ Api.status_code r1 = 403)
  ∧ Api.fetches first.1.1 = 1%nat
  ∧ (∃ r2, second.2 = Ok r2 ∧ Api.status_code r2 ≠ 403)
  ∧ Api.fetches second.1.1 = 0%nat.
Proof.
  intros Hsrv Htok Htk Hold Hdiff first second.
  assert (tk ≠ ∅) as Hne by (intros ->; by rewrite lookup_empty in Hold).
  set (x := default (Api.mounted (Api.adapter (Api.self s)))
              (Api.session_ (Api.self s))).
  set (q := Api.Request Api.GET (Some x) url params
              (<["Authorization" := "Bearer " +:+ old]>
                 (<["Accept" := "application/json"]> ∅))
              (Api.proxies (Api.self s))).
  assert (∀ w, Api.status_code (send q w).1 = 403) as Hrefused.
  { intros w. apply Hsrv. subst q. simpl. rewrite lookup_insert_eq.
    intros [= E]. by apply Hdiff. }
  destruct (send q (Api.world s)) as [r1 w1] eqn:Hsend1.
  pose proof (Hrefused (Api.world s)) as Hst1. rewrite Hsend1 in Hst1.
  destruct (fetch_token Api.TOKEN_URL (Api.client_id (Api.self s))
              (Api.client_secret (Api.self s)) Api.SCOPE
              (Api.proxies (Api.self s)) w1) as [tk' w2] eqn:Hfetch.
  pose proof (Htok Api.TOKEN_URL (Api.client_id (Api.self s))
              (Api.client_secret (Api.self s)) Api.SCOPE
              (Api.proxies (Api.self s)) w1) as Hfresh.
  rewrite Hfetch in Hfresh. simpl in Hfresh.
  destruct (send q w2) as [r2 w3] eqn:Hsend2.
  pose proof (Hrefused w2) as Hst2. rewrite Hsend2 in Hst2.
  assert (first
          = ([Api.CSend q r1; Api.CToken tk'; Api.CSend q r2],
             Api.State (Api.set_token tk' (Api.set_session x (Api.self s)))
               w3, Ok r2)) as Hfirst.
  { subst first. unfold Api.session_get.
    rewrite (act_bind_after _ _ _ _ _ _ (ensure_session_run s)).
    cbn beta iota. set (s1 := Api.State _ (Api.world s)).
    rewrite (act_bind_after _ _ _ _ _ _
               (cached_headers s1 tk old Htk Hne Hold)).
    cbn beta iota.
    by rewrite (retry_run url _ params s1 x r1 w1 tk' w2 r2 w3 eq_refl
                  Hsend1 Hst1 Hfetch Hsend2). }
  assert (tk' ≠ ∅) as Hne'
    by (intros ->; by rewrite lookup_empty in Hfresh).
  subst second. rewrite Hfirst. simpl.
  set (s' := Api.State _ w3).
  set (q' := Api.Request Api.GET
               (Some (default (Api.mounted (Api.adapter (Api.self s')))
                        (Api.session_ (Api.self s'))))
               url params
               (<["Authorization" := "Bearer " +:+ fresh]>
                  (<["Accept" := "application/json"]> ∅))
               (Api.proxies (Api.self s'))).
  destruct (send q' w3) as [r3 w4] eqn:Hsend3.
  assert (Api.status_code r3 ≠ 403) as Hst3.
  { intros Hst. pose proof (proj1 (Hsrv q' w3)) as H.
    rewrite Hsend3 in H. apply (H Hst). subst q'. simpl.
    by rewrite lookup_insert_eq. }
  rewrite (session_get_accepted url params s' tk' fresh r3 w4 eq_refl Hne'
             Hfresh Hsend3 Hst3).
  simpl. split_and!; eauto.
Qed.

(** ** Where the requests go *)

Lemma all_bind {A B} (P : Api.call Proxies J → Prop)
    (m : Api.act Proxies Config J W A)
    (k : A → Api.act Proxies Config J W B) :
  (∀ s, Forall P (m s).1.1) → (∀ a s, Forall P (k a s).1.1) →
  ∀ s, Forall P (Api.bind m k s).1.1.
Proof.
  intros Hm Hk s. specialize (Hm s). unfold Api.bind.
  destruct (m s) as [[t1 s1] [a|e|]]; simpl in *; try done.
  specialize (Hk a s1). destruct (k a s1) as [[t2 s2] r]. simpl in *.
  by apply Forall_app.
Qed.

Lemma session_send_aimed url hs params s :
  Forall (Api.aimed url params) (Api.session_send send url hs params s).1.1.
Proof.
  unfold Api.session_send. destruct (Api.session_ (Api.self s)); [|done].
  destruct (send _ _) as [r w']. simpl. by repeat constructor.
Qed.

Lemma build_headers_aimed url params s :
  Forall (Api.aimed (J:=J) url params)
    (Api._build_headers fetch_token s).1.1.
Proof.
  revert s. unfold Api._build_headers. apply all_bind.
  - intros s. unfold Api._get_oauth_token, Api._get_new_oauth_token.
    destruct (Api.token_ (Api.self s)) as [tk|];
      [destruct (bool_decide (tk = ∅))|];
      try (destruct (fetch_token _ _ _ _ _ _); by repeat constructor).
    done.
  - intros tk s. by destruct (tk !! "access_token").
Qed.

Lemma session_get_aimed url params hs s :
  Forall (Api.aimed url params)
    (Api.session_get fetch_token send url params hs s).1.1.
Proof.
  revert s. unfold Api.session_get. apply all_bind.
  - intros s. unfold Api.ensure_session.
    by destruct (Api.session_ (Api.self s)).
  - intros _. apply all_bind.
    + intros s. destruct hs; [done|apply build_headers_aimed].
    + intros h. apply all_bind; [apply session_send_aimed|].
      intros r s. case_match; [|done].
      revert s. apply all_bind; [|intros; apply session_send_aimed].
      intros s. unfold Api._get_new_oauth_token.
      destruct (fetch_token _ _ _ _ _ _). by repeat constructor.
Qed.

Lemma length_append (p x : string) :
  String.length (p +:+ x) = (String.length p + String.length x)%nat.
Proof. induction p as [|c p IH]; simpl; [done|]. by rewrite IH. Qed.

Lemma append_longer (p x : string) : p ≠ "" → p +:+ x ≠ x.
Proof.
  intros Hp E. apply (f_equal String.length) in E.
  rewrite length_append in E.
  destruct p; [done|]. simpl in E. lia.
Qed.

(** X14: every request that [get_offer] sends for an offer id goes to the
    URL of the search endpoint with the id appended to it
    ([.../v2/offres/search<id>]), which is never the URL of the offer
    endpoint followed by the id ([.../v2/offres/<id>]). *)
Theorem offer_requested_at_search_url offer_id s q r :
  Api.CSend q r ∈ (Api.get_offer fetch_token send offer_id s).1.1 →
  Api.method q = Api.GET
  ∧ Api.params q = None
  ∧ Api.url q = Api.BASE_URL +:+ "v2/offres/search" +:+ offer_id
  ∧ Api.url q ≠ Api.ENDPOINT_OFFER +:+ offer_id.
Proof.
  intros Hin.
  assert (Forall (Api.aimed (Api.ENDPOINT_OFFERS +:+ offer_id) None)
            (Api.get_offer fetch_token send offer_id s).1.1) as Hall.
  { revert s Hin. intros s _. revert s. unfold Api.get_offer.
    apply all_bind; [intros; apply session_get_aimed|].
    intros rp s. case_match; [done|]. simpl. by repeat constructor. }
  rewrite Forall_forall in Hall. destruct (Hall _ Hin) as (Hm & Hu & Hp).
  split; [done|]. split; [done|]. split; [by rewrite Hu|].
  rewrite Hu. unfold Api.ENDPOINT_OFFERS, Api.ENDPOINT_OFFER, Api.BASE_URL.
  cbn. intros E. simplify_eq.
  by apply (append_longer "search" offer_id).
Qed.

(** X15: [get_masterdata] sends nothing for a name that is not a key of
    [MASTER_DATA]: it logs an error and returns [None], the object and the
    environment unchanged.  Every request it does send is a GET, without
    params, of the URL of the referential endpoint followed by the name,
    which is then one of the keys. *)
Theorem masterdata_only_for_known_names mdata s :
  (mdata ∉ dom Api.MASTER_DATA →
   Api.get_masterdata fetch_token send mdata s
   = ([Api.CLogError mdata], s, Ok None))
  ∧ (∀ q r,
       Api.CSend q r ∈ (Api.get_masterdata fetch_token send mdata s).1.1 →
       mdata ∈ dom Api.MASTER_DATA
       ∧ Api.method q = Api.GET
       ∧ Api.params q = None
       ∧ Api.url q = Api.BASE_URL +:+ "v2/referentiel/" +:+ mdata).
Proof.
  unfold Api.get_masterdata. split.
  - intros Hnot. by rewrite bool_decide_eq_false_2.
  - intros q r Hin. destruct (bool_decide_reflect (mdata ∈ dom Api.MASTER_DATA))
      as [Hk|Hk].
    + assert (Forall (Api.aimed (Api.ENDPOINT_MASTERDATA +:+ mdata) None)
                (Api.bind
                   (Api.session_get fetch_token send
                      (Api.ENDPOINT_MASTERDATA +:+ mdata) None None)
                   (λ response, Api.lift (Api.json response)) s).1.1)
        as Hall.
      { revert s Hin. intros s _. revert s.
        apply all_bind; [intros; apply session_get_aimed|]. done. }
      rewrite Forall_forall in Hall.
      destruct (Hall _ Hin) as (Hm & Hu & Hp).
      split; [done|]. split; [done|]. split; [done|]. by rewrite Hu.
    + simpl in Hin. apply list_elem_of_singleton in Hin. done.
Qed.

(** X16: [get_masterdata] does not look at the status of the reply: for a
    known name and a reply of any status other than 403, what it returns or
    raises is what [json()] gives on that reply, be it the body of an
    error. *)
Theorem masterdata_ignores_status mdata s tk a r w' :
  mdata ∈ dom Api.MASTER_DATA →
  Api.token_ (Api.self s) = Some tk → tk ≠ ∅ →
  tk !! "access_token" = Some a →
  let x := default (Api.mounted (Api.adapter (Api.self s)))
             (Api.session_ (Api.self s)) in
  let q :=
    Api.Request Api.GET (Some x) (Api.ENDPOINT_MASTERDATA +:+ mdata) None
      (<["Authorization" := "Bearer " +:+ a]>
         (<["Accept" := "application/json"]> ∅))
      (Api.proxies (Api.self s)) in
  send q (Api.world s) = (r, w') →
  Api.status_code r ≠ 403 →
  Api.get_masterdata fetch_token send mdata s
  = ([Api.CSend q r], Api.State (Api.set_session x (Api.self s)) w',
     Api.json r).
Proof.
  intros Hk Htk Hne Ha x q Hsend Hst. unfold Api.get_masterdata.
  rewrite bool_decide_eq_true_2 by done.
  rewrite (act_bind_after _ _ _ _ _ _
             (session_get_accepted _ None s tk a r w' Htk Hne Ha Hsend Hst)).
  done.
Qed.

(** ** What [get_offer] returns *)

Lemma session_get_last url params hs s t s' r :
  Api.session_get fetch_token send url params hs s = (t, s', Ok r) →
  ∃ pre q, t = pre ++ [Api.CSend q r].
Proof.
  unfold Api.session_get. unfold Api.bind at 1.
  rewrite ensure_session_run. set (s1 := Api.State _ (Api.world s)).
  unfold Api.bind at 1.
  destruct (match hs with
            | Some h => Api.ret h
            | None => Api._build_headers fetch_token
            end s1) as [[t1 s2] [h|e|]] eqn:Hh; simpl; try done.
  unfold Api.bind at 1. unfold Api.session_send at 1.
  destruct (Api.session_ (Api.self s2)) as [x|] eqn:Hx; simpl; [|done].
  destruct (send _ (Api.world s2)) as [r1 w1]. simpl.
  destruct (Api.status_code r1 =? 403).
  - unfold Api.bind, Api._get_new_oauth_token, Api.session_send. simpl.
    destruct (fetch_token _ _ _ _ _ _) as [tk' w2]. simpl. rewrite Hx.
    destruct (send _ w2) as [r2 w3]. simpl. intros [= <- <- <-].
    eexists (t1 ++ [_; _]), _. by rewrite <- !app_assoc.
  - simpl. intros [= <- <- <-]. by eexists t1, _.
Qed.

(** X17: [get_offer] returns data only from a reply of status 200: when it
    returns something other than [None], the last thing it did was to
    receive a reply of status 200, and what it returns is the JSON body of
    that reply.  No warning is logged then. *)
Theorem offer_data_only_from_200 offer_id s j :
  (Api.get_offer fetch_token send offer_id s).2 = Ok (Some j) →
  ∃ pre q r,
    (Api.get_offer fetch_token send offer_id s).1.1
    = pre ++ [Api.CSend q r]
    ∧ Api.status_code r = 200
    ∧ Api.json r = Ok (Some j).
Proof.
  unfold Api.get_offer.
  destruct (Api.session_get fetch_token send
              (Api.ENDPOINT_OFFERS +:+ offer_id) None None s)
    as [[t s'] [r|e|]] eqn:Hget.
  - rewrite (act_bind_after _ _ _ _ _ _ Hget). cbn beta iota.
    destruct (session_get_last _ _ _ _ _ _ _ Hget) as (pre & q & ->).
    destruct (Z.eqb_spec (Api.status_code r) 200) as [Hst|Hst]; simpl.
    + intros Hj. exists pre, q, r. by rewrite app_nil_r.
    + done.
  - by rewrite (act_bind_raise _ _ _ _ _ _ Hget).
  - unfold Api.bind. by rewrite Hget.
Qed.

(** X18: the count probe does not refresh an expired token.  With a token
    held, [get_nb_offers] sends one HEAD outside the session, with that
    token, and leaves the object as it was; when the reply has no
    [Content-Range] header, as a refusal has none, it returns [None]
    whatever the status, 403 included. *)
Theorem count_probe_never_refreshes params s tk a r w' :
  Api.token_ (Api.self s) = Some tk → tk ≠ ∅ →
  tk !! "access_token" = Some a →
  let q :=
    Api.Request Api.HEAD None Api.ENDPOINT_OFFERS (Some params)
      (<["Authorization" := "Bearer " +:+ a]>
         (<["Accept" := "application/json"]> ∅))
      (Api.proxies (Api.self s)) in
  send q (Api.world s) = (r, w') →
  Api.headers r !! "Content-Range" = None →
  Api.get_nb_offers (Config:=Config) fetch_token send params s
  = ([Api.CSend q r], Api.State (Api.self s) w', Ok None).
Proof.
  intros Htk Hne Ha q Hsend Hcr. unfold Api.get_nb_offers.
  rewrite (act_bind_after _ _ _ _ _ _ (cached_headers s tk a Htk Hne Ha)).
  cbn beta iota. unfold Api.bind, Api.requests_head. fold q.
  rewrite Hsend. simpl. by rewrite Hcr.
Qed.

End ApiProperties.

(** * The further properties on the simulated servers *)

Lemma steady_page_body p w :
  successful (Sim.http_get steady_page p w).1 = true →
  ∃ c, resultats (Sim.http_get steady_page p w).1 = Ok c.
Proof. intros _. eexists. vm_compute. reflexivity. Qed.

Lemma window_costs_total_div_page_witness :
  ∃ t s',
    fetch_window (Sim.http_get steady_page) 3 0%nat (State [params_dept] 0%nat)
    = (t, s', Ok tt)
    ∧ List.length (fetched t) = 4%nat
    ∧ chunk_per_success t.
Proof.
  apply (window_costs_total_div_page (Sim.http_get steady_page) 3 0%nat
           (State [params_dept] 0%nat) (steady_page 0) 1%nat 320 100).
  - reflexivity.
  - reflexivity.
  - vm_compute. reflexivity.
  - vm_compute. reflexivity.
  - lia.
  - apply steady_page_body.
  - vm_compute. lia.
Defined.

Lemma pages_sent_with_same_params_witness :
  let out := fetch_window (Sim.http_get steady_page) 3 0%nat
               (State [params_dept] 0%nat) in
  out.2 = Ok tt ∧ yielded out.1.1 = replicate 4 ["offer"].
Proof.
  apply (proj2 (pages_sent_with_same_params (Sim.http_get steady_page) 3
                  0%nat (State [params_dept] 0%nat))
           (λ _, steady_page 0) ["offer"] 320 100).
  - reflexivity.
  - reflexivity.
  - vm_compute. reflexivity.
  - vm_compute. reflexivity.
  - vm_compute. reflexivity.
  - lia.
  - vm_compute. lia.
Defined.

Lemma stream_is_the_successful_pages_witness :
  let out := Mock.get_all_job_offers 3 0%nat 365
               (Mock.start params_window world_split_dated) in
  Forall2 (λ c r, resultats r = Ok c) (yielded out.1.1)
    (List.filter successful (fetched out.1.1))
  ∧ ["offer-1"; "offer-2"; "offer-3"] = List.concat (yielded out.1.1).
Proof.
  eapply (stream_is_the_successful_pages Mock.clock Mock.http_head
            Mock.http_get 3 0%nat 365
            (Mock.start params_window world_split_dated)).
  vm_compute. reflexivity.
Defined.

Lemma max_creation_days_unused_witness :
  Mock.get_lazy_job_offers 3 0%nat 365
    (Mock.start params_window world_split_dated)
  = Mock.get_lazy_job_offers 3 0%nat 7
      (Mock.start params_window world_split_dated).
Proof.
  apply (max_creation_days_unused Mock.clock Mock.http_head Mock.http_get 3
           0%nat 365 7 (Mock.start params_window world_split_dated)
           (PTime (S2024 - 2 * DAY)) (PTime (S2024 - DAY))).
  - vm_compute. reflexivity.
  - vm_compute. reflexivity.
Defined.

Lemma split_halves_seconds_witness :
  let out := split_params 0%nat (10 * PyDate.US_PER_SECOND)
               (15 * PyDate.US_PER_SECOND) (State [params_dept] tt) in
  window_start (deref out.1.2 1%nat) = Some 10
  ∧ window_end (deref out.1.2 1%nat) = Some 12
  ∧ window_start (deref out.1.2 2%nat) = Some 13
  ∧ window_end (deref out.1.2 2%nat) = Some 15
  ∧ (10 ≤ 15 → 2 * (12 - 10) ≤ 15 - 10 ∧ 2 * (15 - (12 + 1)) < 15 - 10)
  ∧ (10 = 15 → 12 = 10).
Proof.
  eapply (split_halves_seconds 0%nat 10 15 (State [params_dept] tt)).
  - simpl. lia.
  - vm_compute. reflexivity.
Defined.

Lemma bare_total_has_no_slash :
  "/"%char ∉ list_ascii_of_string "3500".
Proof. apply (bool_decide_unpack _). vm_compute. exact I. Qed.

Lemma content_range_without_slash_witness :
  Mock.get_nb_offers 0%nat (Mock.start params_dept world_bare_total)
  = ([EHead params_dept {[ "Content-Range" := "3500" ]}],
     State [params_dept] (Mock.World [] [] []), Raise IndexError)
  ∧ ∀ fuel maxCreationDays,
      Mock.get_lazy_job_offers (S fuel) 0%nat maxCreationDays
        (Mock.start params_dept world_bare_total)
      = ([EHead params_dept {[ "Content-Range" := "3500" ]}],
         State [params_dept] (Mock.World [] [] []), Raise IndexError).
Proof.
  apply (content_range_without_slash Mock.clock Mock.http_head Mock.http_get
           0%nat (Mock.start params_dept world_bare_total)
           {[ "Content-Range" := "3500" ]} (Mock.World [] [] []) "3500").
  - reflexivity.
  - vm_compute. reflexivity.
  - apply bare_total_has_no_slash.
Defined.

Lemma range_prefix_has_no_slash :
  "/"%char ∉ list_ascii_of_string "offres 0-149".
Proof. apply (bool_decide_unpack _). vm_compute. exact I. Qed.

Lemma count_follows_first_slash_witness :
  Mock.get_nb_offers 0%nat (Mock.start params_dept world_empty_body)
  = ([EHead params_dept (content_range "12")],
     State [params_dept] (Mock.World [] [] [empty_body]), Ok (Some 12)).
Proof.
  apply (proj1 (count_follows_first_slash Mock.http_head 0%nat
                  (Mock.start params_dept world_empty_body)
                  (content_range "12") (Mock.World [] [] [empty_body])
                  "offres 0-149" "12" eq_refl eq_refl
                  range_prefix_has_no_slash) 12).
  vm_compute. reflexivity.
Defined.

Lemma dates_parsed_only_when_splitting_witness :
  Mock.get_lazy_job_offers 2 0%nat 365 (Mock.start params_day world_one_split)
  = ([EHead params_day (content_range "3500")],
     State [params_day]
       (Mock.World [T2024] [content_range "1800"; content_range "1700"]
          [page 200 ∅ ["offer-1"; "offer-2"]; page 200 ∅ ["offer-3"]]),
     Raise ValueError).
Proof.
  apply (dates_parsed_only_when_splitting Mock.clock Mock.http_head
           Mock.http_get 1 0%nat 365 (Mock.start params_day world_one_split)
           (content_range "3500")
           (Mock.World [T2024] [content_range "1800"; content_range "1700"]
              [page 200 ∅ ["offer-1"; "offer-2"]; page 200 ∅ ["offer-3"]])
           "offres 0-149/3500" 3500 "2023-12-30").
  - reflexivity.
  - vm_compute. reflexivity.
  - vm_compute. reflexivity.
  - vm_compute. reflexivity.
  - vm_compute. reflexivity.
Defined.

(** ** The client object on the simulated token endpoint and server *)

Lemma token_of_holds a : Net.token_of a ≠ ∅.
Proof. unfold Net.token_of. apply insert_non_empty. Qed.

Lemma net_tokens_hold (u i k sc : string) (p : option unit) (w : nat) :
  (Net.fetch_token u i k sc p w).1 ≠ ∅.
Proof. apply token_of_holds. Qed.

Lemma token_fetches_bounded_witness :
  let run :=
    Api.run_ops Net.fetch_token Net.send
      [Api.GetOffer "123ABC"; Api.GetNbOffers params_dept;
       Api.GetMasterdata "themes"] in
  (Api.fetches (run (Api.State Net.stale 0%nat)).1.1
   ≤ 0 + Api.refusals (run (Api.State Net.stale 0%nat)).1.1)%nat
  ∧ (Api.fetches (run (Api.State Net.new 0%nat)).1.1
     ≤ 1 + Api.refusals (run (Api.State Net.new 0%nat)).1.1)%nat.
Proof.
  split.
  - apply (proj1 (token_fetches_bounded Net.fetch_token Net.send
                    [Api.GetOffer "123ABC"; Api.GetNbOffers params_dept;
                     Api.GetMasterdata "themes"] net_tokens_hold)
             (Api.State Net.stale 0%nat)).
  - apply (proj2 (token_fetches_bounded Net.fetch_token Net.send
                    [Api.GetOffer "123ABC"; Api.GetNbOffers params_dept;
                     Api.GetMasterdata "themes"] net_tokens_hold)
             "id" "secret" None None 0%nat).
Defined.

(** The same series, evaluated: on the object that holds a stale token the
    first call is refused twice around one token fetch; the new object
    fetches its token once and is never refused. *)
Example token_fetches_run :
  let run :=
    Api.run_ops Net.fetch_token Net.send
      [Api.GetOffer "123ABC"; Api.GetNbOffers params_dept;
       Api.GetMasterdata "themes"] in
  Api.fetches (run (Api.State Net.stale 0%nat)).1.1 = 1%nat
  ∧ Api.refusals (run (Api.State Net.stale 0%nat)).1.1 = 2%nat
  ∧ Api.fetches (run (Api.State Net.new 0%nat)).1.1 = 1%nat
  ∧ Api.refusals (run (Api.State Net.new 0%nat)).1.1 = 0%nat.
Proof. vm_compute. done. Qed.

Lemma gets_retry_heads_do_not_witness :
  let probe :=
    Api.Request Api.HEAD None Api.ENDPOINT_OFFERS (Some params_dept)
      (<["Authorization" := "Bearer fresh"]>
         (<["Accept" := "application/json"]> ∅)) (None : option unit) in
  Api.req_proxies probe = None
  ∧ Api.through probe = match Api.method probe with
                        | Api.GET =>
                            Some (Api.mounted
                                    (Api.MkHTTPAdapter
                                       (Api.MkRetry 4 (QArith_base.Qmake 2 10)
                                          [429; 500; 502; 503])))
                        | Api.HEAD => None
                        end.
Proof.
  intros probe.
  apply (gets_retry_heads_do_not Net.fetch_token Net.send "id" "secret"
           None (None : option unit)
           [Api.GetNbOffers params_dept; Api.GetOffer "123ABC"] 0%nat
           probe (Net.answer probe)).
  vm_compute. right. left.
Defined.

Lemma refusal_retried_with_old_headers_witness :
  let x := Api.mounted (Api.adapter Net.stale) in
  let q :=
    Api.Request Api.GET (Some x) (Api.ENDPOINT_OFFERS +:+ "123ABC") None
      (<["Authorization" := "Bearer stale"]>
         (<["Accept" := "application/json"]> ∅)) None in
  Api.session_get Net.fetch_token Net.send
    (Api.ENDPOINT_OFFERS +:+ "123ABC") None None (Api.State Net.stale 0%nat)
  = ([Api.CSend q Net.refusal; Api.CToken (Net.token_of "fresh");
      Api.CSend q Net.refusal],
     Api.State
       (Api.set_token (Net.token_of "fresh") (Api.set_session x Net.stale))
       3%nat,
     Ok Net.refusal).
Proof.
  apply (refusal_retried_with_old_headers Net.fetch_token Net.send
           (Api.ENDPOINT_OFFERS +:+ "123ABC") None
           (Api.State Net.stale 0%nat) (Net.token_of "stale") "stale"
           Net.refusal 1%nat (Net.token_of "fresh") 2%nat Net.refusal 3%nat).
  - reflexivity.
  - apply token_of_holds.
  - vm_compute. reflexivity.
  - vm_compute. reflexivity.
  - reflexivity.
  - reflexivity.
  - vm_compute. reflexivity.
Defined.

Lemma net_refuses_the_others (q : Api.request unit) (w : nat) :
  Api.status_code (Net.send q w).1 = 403
  ↔ Api.req_headers q !! "Authorization" ≠ Some ("Bearer " +:+ "fresh").
Proof.
  unfold Net.send, Net.accepted. simpl.
  destruct (bool_decide_reflect
              (Api.req_headers q !! "Authorization" = Some "Bearer fresh"))
    as [Hyes|Hno].
  - split; [|done]. unfold Net.answer. by repeat case_match.
  - done.
Qed.

Lemma expired_token_costs_one_call_witness :
  let first :=
    Api.session_get Net.fetch_token Net.send
      (Api.ENDPOINT_OFFERS +:+ "123ABC") None None
      (Api.State Net.stale 0%nat) in
  let second :=
    Api.session_get Net.fetch_token Net.send
      (Api.ENDPOINT_OFFERS +:+ "123ABC") None None first.1.2 in
  (∃ r1, first.2 = Ok r1 ∧ Api.status_code r1 = 403)
  ∧ Api.fetches first.1.1 = 1%nat
  ∧ (∃ r2, second.2 = Ok r2 ∧ Api.status_code r2 ≠ 403)
  ∧ Api.fetches second.1.1 = 0%nat.
Proof.
  apply (expired_token_costs_one_call Net.fetch_token Net.send
           (Api.ENDPOINT_OFFERS +:+ "123ABC") None
           (Api.State Net.stale 0%nat) (Net.token_of "stale") "stale"
           "fresh").
  - apply net_refuses_the_others.
  - intros. vm_compute. reflexivity.
  - reflexivity.
  - vm_compute. reflexivity.
  - discriminate.
Defined.

Lemma offer_requested_at_search_url_witness :
  let q :=
    Api.Request Api.GET (Some (Api.mounted (Api.adapter Net.renewed)))
      (Api.ENDPOINT_OFFERS +:+ "123ABC") None
      (<["Authorization" := "Bearer fresh"]>
         (<["Accept" := "application/json"]> ∅)) (None : option unit) in
  Api.method q = Api.GET
  ∧ Api.params q = None
  ∧ Api.url q = Api.BASE_URL +:+ "v2/offres/search" +:+ "123ABC"
  ∧ Api.url q ≠ Api.ENDPOINT_OFFER +:+ "123ABC".
Proof.
  intros q.
  apply (offer_requested_at_search_url Net.fetch_token Net.send "123ABC"
           (Api.State Net.renewed 0%nat) q (Net.answer q)).
  vm_compute. left.
Defined.

Lemma masterdata_only_for_known_names_witness :
  Api.get_masterdata Net.fetch_token Net.send "salaires"
    (Api.State Net.renewed 0%nat)
  = ([Api.CLogError "salaires"], Api.State Net.renewed 0%nat, Ok None).
Proof.
  apply (proj1 (masterdata_only_for_known_names Net.fetch_token Net.send
                  "salaires" (Api.State Net.renewed 0%nat))).
  apply (bool_decide_unpack _). vm_compute. exact I.
Defined.

Lemma masterdata_ignores_status_witness :
  let x := Api.mounted (Api.adapter Net.renewed) in
  let q :=
    Api.Request Api.GET (Some x) (Api.ENDPOINT_MASTERDATA +:+ "pays") None
      (<["Authorization" := "Bearer fresh"]>
         (<["Accept" := "application/json"]> ∅)) None in
  Api.get_masterdata Net.fetch_token Net.send "pays"
    (Api.State Net.renewed 0%nat)
  = ([Api.CSend q (Api.Reply 404 ∅ (Ok (Some "not found")) "not found")],
     Api.State (Api.set_session x Net.renewed) 1%nat,
     Ok (Some "not found")).
Proof.
  apply (masterdata_ignores_status Net.fetch_token Net.send "pays"
           (Api.State Net.renewed 0%nat) (Net.token_of "fresh") "fresh"
           (Api.Reply 404 ∅ (Ok (Some "not found")) "not found") 1%nat).
  - apply (bool_decide_unpack _). vm_compute. exact I.
  - reflexivity.
  - apply token_of_holds.
  - vm_compute. reflexivity.
  - vm_compute. reflexivity.
  - simpl. lia.
Defined.

Lemma offer_data_only_from_200_witness :
  ∃ pre q r,
    (Api.get_offer Net.fetch_token Net.send "123ABC"
       (Api.State Net.new 0%nat)).1.1
    = pre ++ [Api.CSend q r]
    ∧ Api.status_code r = 200
    ∧ Api.json r = Ok (Some "offer 123ABC").
Proof.
  apply (offer_data_only_from_200 Net.fetch_token Net.send "123ABC"
           (Api.State Net.new 0%nat) "offer 123ABC").
  vm_compute. reflexivity.
Defined.

Lemma count_probe_never_refreshes_witness :
  let q :=
    Api.Request Api.HEAD None Api.ENDPOINT_OFFERS (Some params_dept)
      (<["Authorization" := "Bearer stale"]>
         (<["Accept" := "application/json"]> ∅)) None in
  Api.get_nb_offers Net.fetch_token Net.send params_dept
    (Api.State Net.stale 0%nat)
  = ([Api.CSend q Net.refusal], Api.State Net.stale 1%nat, Ok None).
Proof.
  apply (count_probe_never_refreshes Net.fetch_token Net.send params_dept
           (Api.State Net.stale 0%nat) (Net.token_of "stale") "stale"
           Net.refusal 1%nat).
  - reflexivity.
  - apply token_of_holds.
  - vm_compute. reflexivity.
  - vm_compute. reflexivity.
  - reflexivity.
Defined.

(** * The traversal when a request can fail *)

Section RuntimeProperties.

Context {W : Type}.
Variable net : Runtime.network W.

(** ** Requests *)

Lemma session_get_returns params (s : state W) r w' :
  Runtime.session_get_io net (deref s params) (world s) = (inr r, w') →
  Runtime.session_get net params s
  = ([EGet (deref s params) r], State (heap s) w', Ok r).
Proof.
  intros Hget. unfold Runtime.session_get, bind, read, Runtime.perform, emit,
    ret. simpl. by rewrite Hget.
Qed.

Lemma session_get_raises params (s : state W) x w' :
  Runtime.session_get_io net (deref s params) (world s) = (inl x, w') →
  Runtime.session_get net params s = ([], State (heap s) w', Raise x).
Proof.
  intros Hget. unfold Runtime.session_get, bind, read, Runtime.perform.
  simpl. by rewrite Hget.
Qed.

Lemma head_request_returns params (s : state W) h w' :
  Runtime.head net (deref s params) (world s) = (inr h, w') →
  Runtime.head_request net params s
  = ([EHead (deref s params) h], State (heap s) w', Ok h).
Proof.
  intros Hhead. unfold Runtime.head_request, bind, read, Runtime.perform,
    emit, ret. simpl. by rewrite Hhead.
Qed.

Lemma head_request_raises params (s : state W) x w' :
  Runtime.head net (deref s params) (world s) = (inl x, w') →
  Runtime.head_request net params s = ([], State (heap s) w', Raise x).
Proof.
  intros Hhead. unfold Runtime.head_request, bind, read, Runtime.perform.
  simpl. by rewrite Hhead.
Qed.

(** What the adapter returns is a response that its policy does not
    retry: its status is not of the force list. *)
Lemma adapter_send_unforced total : ∀ d (w w' : W) r,
  Runtime.adapter_send net total d w = (inr r, w') →
  status_code r ∉ Api.status_forcelist Runtime.policy.
Proof.
  induction total as [|total IH]; intros d w w' r; simpl;
    unfold Runtime.io_bind.
  - destruct (Runtime.exchange net d w) as [[e|r0] w0]; [done|].
    destruct (Runtime.is_retry Runtime.policy 0 r0) eqn:Hretry; [done|].
    intros [= <- <-]. unfold Runtime.is_retry in Hretry.
    apply orb_false_iff in Hretry as [Hforce _].
    by apply bool_decide_eq_false in Hforce.
  - destruct (Runtime.exchange net d w) as [[e|r0] w0]; [done|].
    destruct (Runtime.is_retry Runtime.policy (S total) r0) eqn:Hretry.
    + apply IH.
    + intros [= <- <-]. unfold Runtime.is_retry in Hretry.
      apply orb_false_iff in Hretry as [Hforce _].
      by apply bool_decide_eq_false in Hforce.
Qed.

Lemma session_get_io_unforced d (w w' : W) r :
  Runtime.session_get_io net d w = (inr r, w') →
  status_code r ∉ Api.status_forcelist Runtime.policy.
Proof.
  unfold Runtime.session_get_io, Runtime.io_bind, Runtime.session_send.
  destruct (Runtime.build_headers net w) as [[e|[]] w1]; [done|].
  destruct (Runtime.adapter_send net _ d w1) as [[e|r1] w2] eqn:Hfirst;
    [done|].
  destruct (status_code r1 =? 403).
  - destruct (Runtime.new_token net w2) as [[e|[]] w3]; [done|].
    apply adapter_send_unforced.
  - intros [= <- <-]. by eapply adapter_send_unforced.
Qed.

(** ** The paging loop and the window *)

Lemma runtime_page_loop_done fuel params g rp d e (s : state W) :
  e ≤ d → Runtime.page_loop net fuel params g rp d e s = ([], s, Ok tt).
Proof.
  intros Hle. destruct fuel; simpl;
    by destruct (Z.ltb_spec d e); [lia|].
Qed.

Lemma runtime_page_loop_skip fuel params g rp d e (s : state W) r w' :
  d < e →
  Runtime.session_get_io net (deref s params) (world s) = (inr r, w') →
  unexpected (status_code r) = true →
  Runtime.page_loop net (S fuel) params g rp d e s
  = after [EGet (deref s params) r; ELogPage (status_code r)]
      (Runtime.page_loop net fuel params g (rp + g) (range_advance d g e) e
         (State (heap s) w')).
Proof.
  intros Hlt Hget Hbad. simpl. destruct (Z.ltb_spec d e); [|lia].
  rewrite (bind_after _ _ _ _ _ _ (session_get_returns _ _ _ _ Hget)).
  rewrite Hbad. unfold bind at 1, emit at 1.
  by destruct (Runtime.page_loop _ _ _ _ _ _ _ _) as [[??]?].
Qed.

Lemma runtime_page_loop_yield fuel params g rp d e (s : state W) r w' c :
  d < e →
  Runtime.session_get_io net (deref s params) (world s) = (inr r, w') →
  unexpected (status_code r) = false →
  resultats r = Ok c →
  Runtime.page_loop net (S fuel) params g rp d e s
  = after [EGet (deref s params) r; EYield (deref s params) c]
      (Runtime.page_loop net fuel params g (rp + g) (range_advance d g e) e
         (State (heap s) w')).
Proof.
  intros Hlt Hget Hgood Hres. simpl. destruct (Z.ltb_spec d e); [|lia].
  rewrite (bind_after _ _ _ _ _ _ (session_get_returns _ _ _ _ Hget)).
  rewrite Hgood. unfold bind, lift, yield. rewrite Hres.
  by destruct (Runtime.page_loop _ _ _ _ _ _ _ _) as [[??]?].
Qed.

Lemma runtime_page_loop_defect fuel params g rp d e (s : state W) r w' x :
  d < e →
  Runtime.session_get_io net (deref s params) (world s) = (inr r, w') →
  unexpected (status_code r) = false →
  resultats r = Raise x →
  Runtime.page_loop net (S fuel) params g rp d e s
  = ([EGet (deref s params) r], State (heap s) w', Raise x).
Proof.
  intros Hlt Hget Hgood Hres. simpl. destruct (Z.ltb_spec d e); [|lia].
  rewrite (bind_after _ _ _ _ _ _ (session_get_returns _ _ _ _ Hget)).
  rewrite Hgood. unfold bind, lift. by rewrite Hres.
Qed.

Lemma runtime_page_loop_abort fuel params g rp d e (s : state W) x w' :
  d < e →
  Runtime.session_get_io net (deref s params) (world s) = (inl x, w') →
  Runtime.page_loop net (S fuel) params g rp d e s
  = ([], State (heap s) w', Raise x).
Proof.
  intros Hlt Hget. simpl. destruct (Z.ltb_spec d e); [|lia].
  by rewrite (bind_raise _ _ _ _ _ _ (session_get_raises _ _ _ _ Hget)).
Qed.

Lemma runtime_fetch_window_abort fuel params (s : state W) x w' :
  Runtime.session_get_io net (deref s params) (world s) = (inl x, w') →
  Runtime.fetch_window net fuel params s = ([], State (heap s) w', Raise x).
Proof.
  intros Hget. unfold Runtime.fetch_window.
  by rewrite (bind_raise _ _ _ _ _ _ (session_get_raises _ _ _ _ Hget)).
Qed.

Lemma runtime_fetch_window_unexpected fuel params (s : state W) r w' :
  Runtime.session_get_io net (deref s params) (world s) = (inr r, w') →
  unexpected (status_code r) = true →
  Runtime.fetch_window net fuel params s
  = ([EGet (deref s params) r; ELogAbort (status_code r) (deref s params)],
     State (heap s) w', Ok tt).
Proof.
  intros Hget Hbad. unfold Runtime.fetch_window.
  rewrite (bind_after _ _ _ _ _ _ (session_get_returns _ _ _ _ Hget)).
  unfold unexpected in Hbad. apply andb_true_iff in Hbad as [H200 H206].
  apply negb_true_iff in H200, H206. by rewrite H200, H206.
Qed.

(** When the loop raises, it raises either on the body of a response with
    status 200 or 206, which is then the last one fetched, or because a GET
    raised. *)
Lemma runtime_page_loop_raise fuel : ∀ params g rp d e (s s' : state W) t x,
  Runtime.page_loop net fuel params g rp d e s = (t, s', Raise x) →
  (∃ r, last (fetched t) = Some r ∧ successful r = true)
  ∨ (∃ w, (Runtime.session_get_io net (deref s params) w).1 = inl x).
Proof.
  induction fuel as [|fuel IH]; intros params g rp d e s s' t x Hrun.
  - simpl in Hrun. by destruct (d <? e).
  - destruct (Z.lt_ge_cases d e) as [Hlt | Hge];
      [| by rewrite runtime_page_loop_done in Hrun].
    destruct (Runtime.session_get_io net (deref s params) (world s))
      as [[y|r] w'] eqn:Hget.
    + rewrite (runtime_page_loop_abort _ _ _ _ _ _ _ _ _ Hlt Hget) in Hrun.
      injection Hrun as _ _ <-. right. exists (world s). by rewrite Hget.
    + destruct (unexpected (status_code r)) eqn:Hst.
      * rewrite (runtime_page_loop_skip _ _ _ _ _ _ _ _ _ Hlt Hget Hst)
          in Hrun.
        destruct (Runtime.page_loop _ _ _ _ _ _ _ _) as [[t1 s1] r1]
          eqn:Hrest.
        unfold after in Hrun. simpl in Hrun. injection Hrun as <- <- ->.
        destruct (IH _ _ _ _ _ _ _ _ _ Hrest) as [(r' & Hlast & Hr') | Hw].
        -- left. exists r'. split; [|done].
           change (fetched (_ :: _ :: t1)) with (r :: fetched t1).
           destruct (fetched t1); [done|]. by rewrite last_cons, Hlast.
        -- by right.
      * destruct (resultats r) as [c|y|] eqn:Hres.
        -- rewrite (runtime_page_loop_yield _ _ _ _ _ _ _ _ _ _ Hlt Hget Hst
                      Hres) in Hrun.
           destruct (Runtime.page_loop _ _ _ _ _ _ _ _) as [[t1 s1] r1]
             eqn:Hrest.
           unfold after in Hrun. simpl in Hrun. injection Hrun as <- <- ->.
           destruct (IH _ _ _ _ _ _ _ _ _ Hrest)
             as [(r' & Hlast & Hr') | Hw].
           ++ left. exists r'. split; [|done].
              change (fetched (_ :: _ :: t1)) with (r :: fetched t1).
              destruct (fetched t1); [done|]. by rewrite last_cons, Hlast.
           ++ by right.
        -- rewrite (runtime_page_loop_defect _ _ _ _ _ _ _ _ _ _ Hlt Hget Hst
                      Hres) in Hrun.
           injection Hrun as <- _ _. left. exists r. split; [done|].
           unfold successful. by rewrite Hst.
        -- by destruct (resultats_not_out_of_fuel r).
Qed.

Lemma runtime_fetch_window_raise fuel params (s s' : state W) t x :
  Runtime.fetch_window net fuel params s = (t, s', Raise x) →
  (∃ r, last (fetched t) = Some r ∧ successful r = true)
  ∨ (∃ w, (Runtime.session_get_io net (deref s params) w).1 = inl x).
Proof.
  intros Hrun.
  destruct (Runtime.session_get_io net (deref s params) (world s))
    as [[y|r] w'] eqn:Hget.
  { rewrite (runtime_fetch_window_abort _ _ _ _ _ Hget) in Hrun.
    injection Hrun as _ _ <-. right. exists (world s). by rewrite Hget. }
  destruct (unexpected (status_code r)) eqn:Hst.
  { by rewrite (runtime_fetch_window_unexpected _ _ _ _ _ Hget Hst) in Hrun. }
  assert (successful r = true) as Hgood by (unfold successful; by rewrite Hst).
  pose proof (session_get_returns _ _ _ _ Hget) as Hsg.
  unfold Runtime.fetch_window, bind in Hrun. rewrite Hsg in Hrun.
  destruct (status_code r =? 200) eqn:E200.
  { unfold lift, yield in Hrun.
    destruct (resultats r); simplify_eq; left; by exists r. }
  destruct (status_code r =? 206) eqn:E206.
  2:{ unfold unexpected in Hst. rewrite E200, E206 in Hst. done. }
  unfold lift, yield in Hrun.
  destruct (resultats r); [|simplify_eq; left; by exists r..].
  destruct (range_total _ _); [|simplify_eq; left; by exists r..].
  destruct (int_header _ _); [|simplify_eq; left; by exists r..].
  destruct (Runtime.page_loop _ _ _ _ _ _ _ _) as [[t1 s1] r1] eqn:Hrest.
  simpl in Hrun. injection Hrun as <- <- ->.
  destruct (runtime_page_loop_raise _ _ _ _ _ _ _ _ _ _ Hrest)
    as [(r' & Hlast & Hr') | Hw]; [|by right].
  left. exists r'. split; [|done].
  change (fetched (_ :: _ :: t1)) with (r :: fetched t1).
  destruct (fetched t1); [done|]. by rewrite last_cons, Hlast.
Qed.

(** ** The stream *)

Lemma runtime_get_nb_offers_known params (s : state W) h w' v n :
  Runtime.head net (deref s params) (world s) = (inr h, w') →
  h !! "Content-Range" = Some v →
  range_total h "Content-Range" = Ok n →
  Runtime.get_nb_offers net params s
  = ([EHead (deref s params) h], State (heap s) w', Ok (Some n)).
Proof.
  intros Hhead Hh Hn. unfold Runtime.get_nb_offers.
  rewrite (bind_after _ _ _ _ _ _ (head_request_returns _ _ _ _ Hhead)).
  rewrite Hh. unfold bind, lift, ret. by rewrite Hn.
Qed.

Lemma runtime_get_lazy_S depth fuel params maxCreationDays (s : state W) :
  Runtime.get_lazy_job_offers net (S depth) fuel params maxCreationDays s
  = bind (Runtime.get_nb_offers net params)
      (λ nb, bind (lift (ge_max_range nb))
               (λ b : bool,
                  if b
                  then bind (effective_window (Runtime.clock net) params
                               maxCreationDays)
                         (λ '(start_date, end_date),
                            bind (split_params params start_date end_date)
                              (λ '(params1, params2),
                                 bind (Runtime.get_lazy_job_offers net depth
                                         fuel params1 365)
                                   (λ _, Runtime.get_lazy_job_offers net
                                           depth fuel params2 365)))
                  else Runtime.fetch_window net fuel params)) s.
Proof. reflexivity. Qed.

(** A call below the ceiling is the walk of its window. *)
Lemma runtime_get_lazy_base depth fuel params maxCreationDays
    (s s0 : state W) t0 n :
  Runtime.get_nb_offers net params s = (t0, s0, Ok (Some n)) →
  n < MAX_RANGE →
  Runtime.get_lazy_job_offers net (S depth) fuel params maxCreationDays s
  = after t0 (Runtime.fetch_window net fuel params s0).
Proof.
  intros Hnb Hn. rewrite runtime_get_lazy_S.
  rewrite (bind_after _ _ _ _ _ _ Hnb). cbn beta iota.
  unfold bind at 1, lift at 1. simpl.
  destruct (Z.leb_spec MAX_RANGE n); [lia|].
  by destruct (Runtime.fetch_window _ _ _ _) as [[??]?].
Qed.

(** A call at or above the ceiling is the walk of its two halves, the left
    one first. *)
Lemma runtime_get_lazy_split depth fuel params maxCreationDays
    (s s0 s1 s2 : state W) t0 n t1 start_date end_date t2 l1 l2 :
  Runtime.get_nb_offers net params s = (t0, s0, Ok (Some n)) →
  MAX_RANGE ≤ n →
  effective_window (Runtime.clock net) params maxCreationDays s0
  = (t1, s1, Ok (start_date, end_date)) →
  split_params params start_date end_date s1 = (t2, s2, Ok (l1, l2)) →
  Runtime.get_lazy_job_offers net (S depth) fuel params maxCreationDays s
  = after (t0 ++ t1 ++ t2)
      (bind (Runtime.get_lazy_job_offers net depth fuel l1 365)
         (λ _, Runtime.get_lazy_job_offers net depth fuel l2 365) s2).
Proof.
  intros Hnb Hn Hwin Hsplit. rewrite runtime_get_lazy_S.
  rewrite (bind_after _ _ _ _ _ _ Hnb). cbn beta iota.
  unfold bind at 1, lift at 1. simpl.
  destruct (Z.leb_spec MAX_RANGE n); [|lia].
  rewrite (bind_after _ _ _ _ _ _ Hwin). cbn beta iota.
  rewrite (bind_after _ _ _ _ _ _ Hsplit). cbn beta iota.
  destruct (bind _ _ s2) as [[t3 s3] r3]. unfold after. simpl.
  by rewrite !app_assoc.
Qed.

(** C7 (corrected): in the paging loop, a GET that returns a response whose
    status is neither 200 nor 206 is logged and yields nothing, and the loop
    goes on with the same range bookkeeping as after a page that was
    yielded; such a response to the first GET of a window is logged and ends
    the window normally, with no chunk.  No such response has a status 429,
    500, 502 or 503: the adapter of the session never returns these.  A GET
    that raises, as it does with [RetryError] when one of these statuses
    outlasts the retries, is not caught: the loop, the window and the call
    raise the same exception, and the right half of a window whose left
    half raised is never walked.  A window raises only so, or on the body of
    a response with status 200 or 206. *)
Theorem failed_fetch_is_skipped fuel params g rp d e (s : state W) :
  (∀ r w',
     Runtime.session_get_io net (deref s params) (world s) = (inr r, w') →
     unexpected (status_code r) = true →
     (status_code r ∉ [429; 500; 502; 503])
     ∧ (d < e →
        Runtime.page_loop net (S fuel) params g rp d e s
        = after [EGet (deref s params) r; ELogPage (status_code r)]
            (Runtime.page_loop net fuel params g (rp + g)
               (range_advance d g e) e (State (heap s) w')))
     ∧ Runtime.fetch_window net fuel params s
       = ([EGet (deref s params) r;
           ELogAbort (status_code r) (deref s params)],
          State (heap s) w', Ok tt))
  ∧ (∀ r w' c,
       Runtime.session_get_io net (deref s params) (world s) = (inr r, w') →
       unexpected (status_code r) = false →
       resultats r = Ok c →
       d < e →
       Runtime.page_loop net (S fuel) params g rp d e s
       = after [EGet (deref s params) r; EYield (deref s params) c]
           (Runtime.page_loop net fuel params g (rp + g)
              (range_advance d g e) e (State (heap s) w')))
  ∧ (∀ x w',
       Runtime.session_get_io net (deref s params) (world s) = (inl x, w') →
       (d < e →
        Runtime.page_loop net (S fuel) params g rp d e s
        = ([], State (heap s) w', Raise x))
       ∧ Runtime.fetch_window net fuel params s
         = ([], State (heap s) w', Raise x))
  ∧ (∀ depth maxCreationDays (s0 s1 : state W) t0 n t1 x,
       Runtime.get_nb_offers net params s = (t0, s0, Ok (Some n)) →
       n < MAX_RANGE →
       Runtime.fetch_window net fuel params s0 = (t1, s1, Raise x) →
       Runtime.get_lazy_job_offers net (S depth) fuel params
         maxCreationDays s
       = (t0 ++ t1, s1, Raise x))
  ∧ (∀ depth maxCreationDays (s0 s1 s2 s3 : state W) t0 n t1 start_date
       end_date t2 l1 l2 t3 x,
       Runtime.get_nb_offers net params s = (t0, s0, Ok (Some n)) →
       MAX_RANGE ≤ n →
       effective_window (Runtime.clock net) params maxCreationDays s0
       = (t1, s1, Ok (start_date, end_date)) →
       split_params params start_date end_date s1 = (t2, s2, Ok (l1, l2)) →
       Runtime.get_lazy_job_offers net depth fuel l1 365 s2
       = (t3, s3, Raise x) →
       Runtime.get_lazy_job_offers net (S depth) fuel params
         maxCreationDays s
       = (t0 ++ t1 ++ t2 ++ t3, s3, Raise x))
  ∧ (∀ fuel' params' (s0 s' : state W) t x,
       Runtime.fetch_window net fuel' params' s0 = (t, s', Raise x) →
       (∃ r', last (fetched t) = Some r' ∧ successful r' = true)
       ∨ (∃ w, (Runtime.session_get_io net (deref s0 params') w).1 = inl x)).
Proof.
  split_and!.
  - intros r w' Hget Hbad. split_and!.
    + exact (session_get_io_unforced _ _ _ _ Hget).
    + intros Hlt. by apply runtime_page_loop_skip.
    + by apply runtime_fetch_window_unexpected.
  - intros r w' c Hget Hgood Hres Hlt. by apply runtime_page_loop_yield.
  - intros x w' Hget. split.
    + intros Hlt. by apply runtime_page_loop_abort.
    + by apply runtime_fetch_window_abort.
  - intros depth m s0 s1 t0 n t1 x Hnb Hn Hwin.
    rewrite (runtime_get_lazy_base _ _ _ _ _ _ _ _ Hnb Hn).
    by rewrite Hwin.
  - intros depth m s0 s1 s2 s3 t0 n t1 a b t2 l1 l2 t3 x Hnb Hn Hwin Hsplit
      Hleft.
    rewrite (runtime_get_lazy_split _ _ _ _ _ _ _ _ _ _ _ _ _ _ _ _ Hnb Hn
               Hwin Hsplit).
    rewrite (bind_raise _ _ _ _ _ _ Hleft). unfold after. simpl.
    by rewrite <- !app_assoc.
  - intros fuel' params' s0 s' t x. apply runtime_fetch_window_raise.
Qed.

(** ** A window of zero duration above the ceiling *)

(** X6: a window of zero duration that is split has itself as left child.
    So, when the count probe keeps reporting a count at or above the ceiling
    for the params of a window [a .. a] without [publieeDepuis], each call
    probes, splits and calls itself on the same window, until the
    interpreter allows no further nested call: with [depth] nested calls
    allowed the traversal raises [RecursionError] after [depth] probes, all
    with the same params, and it has fetched and yielded nothing. *)
Theorem same_second_overflow_recurses (d : dict) a :
  dated d a a →
  PyDate.valid (a * PyDate.US_PER_SECOND) = true →
  PyDate.valid (a * PyDate.US_PER_SECOND + PyDate.one_second) = true →
  (∀ w, ∃ h v n,
     (Runtime.head net d w).1 = inr h
     ∧ h !! "Content-Range" = Some v
     ∧ range_total h "Content-Range" = Ok n
     ∧ MAX_RANGE ≤ n) →
  ∀ depth fuel params maxCreationDays (s : state W),
    heap s !! params = Some d →
    (Runtime.get_lazy_job_offers net depth fuel params maxCreationDays s).2
    = Raise RecursionError
    ∧ probed
        (Runtime.get_lazy_job_offers net depth fuel params
           maxCreationDays s).1.1
      = replicate depth d
    ∧ fetched
        (Runtime.get_lazy_job_offers net depth fuel params
           maxCreationDays s).1.1
      = []
    ∧ yielded
        (Runtime.get_lazy_job_offers net depth fuel params
           maxCreationDays s).1.1
      = [].
Proof.
  intros Hd Ha Hafter Hcount.
  induction depth as [|depth IH]; intros fuel params m s Hp; [done|].
  pose proof (deref_lookup s params d Hp) as Hderef.
  pose proof (lookup_lt_Some _ _ _ Hp) as Hv.
  destruct (Runtime.head net d (world s)) as [o w'] eqn:Hhead.
  destruct (Hcount (world s)) as (h & v & n & Ho & Hh & Hn & Hge).
  rewrite Hhead in Ho. simpl in Ho. subst o.
  rewrite <- Hderef in Hhead.
  pose proof (runtime_get_nb_offers_known _ _ _ _ _ _ Hhead Hh Hn) as Hnb.
  assert (dated (deref (State (heap s) w') params) a a) as Hd'
    by (change (deref (State (heap s) w') params) with (deref s params);
        by rewrite Hderef).
  pose proof (effective_window_dated_ok (Runtime.clock net) params m
                (State (heap s) w') a a Hd' Ha Ha) as Hwin.
  assert (PyDate.add (a * PyDate.US_PER_SECOND)
            (PyDate.halve (a * PyDate.US_PER_SECOND
                           - a * PyDate.US_PER_SECOND))
          = Ok (a * PyDate.US_PER_SECOND)) as Hmid.
  { rewrite Z.sub_diag. change (PyDate.halve 0) with 0.
    unfold PyDate.add. rewrite Z.add_0_r, Ha. done. }
  assert (PyDate.add (a * PyDate.US_PER_SECOND) PyDate.one_second
          = Ok (a * PyDate.US_PER_SECOND + PyDate.one_second)) as Hnext
    by (unfold PyDate.add; by rewrite Hafter).
  pose proof (split_params_ok params _ _ _ _ (State (heap s) w') Hv Hmid
                Hnext) as Hsplit.
  rewrite (runtime_get_lazy_split _ _ _ _ _ _ _ _ _ _ _ _ _ _ _ _ Hnb Hge
             Hwin Hsplit).
  match goal with
  | |- context [bind _ _ ?x] => set (s2 := x)
  end.
  assert (heap s2 !! List.length (heap s) = Some d) as Hleft.
  { subst s2. simpl. rewrite lookup_app_r by lia. rewrite Nat.sub_diag.
    simpl. f_equal. unfold strftime. rewrite second_of_scaled.
    change (deref (State (heap s) w') params) with (deref s params).
    rewrite Hderef. destruct Hd as (Hmin & Hmax & _).
    rewrite (insert_id d "minCreationDate") by done.
    by rewrite (insert_id d "maxCreationDate"). }
  destruct (IH fuel (List.length (heap s)) 365 s2 Hleft)
    as (Hres & Hprobed & Hfetched & Hyielded).
  destruct (Runtime.get_lazy_job_offers net depth fuel
              (List.length (heap s)) 365 s2) as [[t3 s3] r3] eqn:Hrun.
  simpl in Hres, Hprobed, Hfetched, Hyielded. subst r3.
  simpl in Hrun. rewrite (bind_raise _ _ _ _ _ _ Hrun).
  unfold after. simpl.
  rewrite Hderef. split_and!; [done|by rewrite Hprobed|done|done].
Qed.

(** ** The engine is the traversal on a network that returns *)

Lemma runtime_session_get_delivered params (s : state W) :
  Runtime.delivers net →
  Runtime.session_get net params s
  = session_get (Runtime.delivered_get net) params s.
Proof.
  intros [_ Hget]. unfold session_get, Runtime.delivered_get.
  destruct (Hget (deref s params) (world s)) as [r Hr].
  destruct (Runtime.session_get_io net (deref s params) (world s))
    as [o w'] eqn:Hio. simpl in Hr. subst o.
  by apply session_get_returns.
Qed.

Lemma runtime_get_nb_offers_delivered params (s : state W) :
  Runtime.delivers net →
  Runtime.get_nb_offers net params s
  = get_nb_offers (Runtime.delivered_head net) params s.
Proof.
  intros [Hhead _]. unfold Runtime.get_nb_offers, get_nb_offers.
  assert (Runtime.head_request net params s
          = head_request (Runtime.delivered_head net) params s) as Heq.
  { unfold head_request, Runtime.delivered_head.
    destruct (Hhead (deref s params) (world s)) as [h Hh].
    destruct (Runtime.head net (deref s params) (world s))
      as [o w'] eqn:Hio. simpl in Hh. subst o.
    by apply head_request_returns. }
  unfold bind. by rewrite Heq.
Qed.

Lemma runtime_page_loop_delivered fuel :
  Runtime.delivers net →
  ∀ params g rp d e (s : state W),
    Runtime.page_loop net fuel params g rp d e s
    = page_loop (Runtime.delivered_get net) fuel params g rp d e s.
Proof.
  intros Hnet. induction fuel as [|fuel IH]; intros params g rp d e s;
    simpl; [done|].
  destruct (d <? e); [|done].
  unfold bind. rewrite (runtime_session_get_delivered _ _ Hnet).
  destruct (session_get _ params s) as [[t1 s1] [r| |]]; [|done..].
  destruct (unexpected (status_code r)).
  - unfold emit. by rewrite IH.
  - unfold lift, yield. destruct (resultats r); [|done..]. by rewrite IH.
Qed.

Lemma runtime_fetch_window_delivered fuel params (s : state W) :
  Runtime.delivers net →
  Runtime.fetch_window net fuel params s
  = fetch_window (Runtime.delivered_get net) fuel params s.
Proof.
  intros Hnet. unfold Runtime.fetch_window, fetch_window, bind.
  rewrite (runtime_session_get_delivered _ _ Hnet).
  destruct (session_get _ params s) as [[t1 s1] [r| |]]; [|done..].
  destruct (status_code r =? 200); [done|].
  destruct (status_code r =? 206); [|done].
  unfold lift, yield. destruct (resultats r); [|done..].
  destruct (range_total _ _); [|done..].
  destruct (int_header _ _); [|done..].
  by rewrite (runtime_page_loop_delivered _ Hnet).
Qed.

Lemma runtime_get_lazy_delivered fuel :
  Runtime.delivers net →
  ∀ depth fuel' params maxCreationDays (s : state W),
    (fuel ≤ depth)%nat → (fuel ≤ fuel')%nat →
    finished
      (get_lazy_job_offers (Runtime.clock net) (Runtime.delivered_head net)
         (Runtime.delivered_get net) fuel params maxCreationDays s).2 →
    Runtime.get_lazy_job_offers net depth fuel' params maxCreationDays s
    = get_lazy_job_offers (Runtime.clock net) (Runtime.delivered_head net)
        (Runtime.delivered_get net) fuel params maxCreationDays s.
Proof.
  intros Hnet. induction fuel as [|fuel IH];
    intros depth fuel' params m s Hdepth Hfuel Hfin; [done|].
  destruct depth as [|depth]; [lia|].
  rewrite runtime_get_lazy_S. rewrite get_lazy_S in Hfin |- *.
  pose proof (runtime_get_nb_offers_delivered params s Hnet) as Hprobe.
  destruct (get_nb_offers (Runtime.delivered_head net) params s)
    as [[t0 s0] [nb| |]] eqn:Hnb;
    [| by rewrite (bind_raise _ _ _ _ _ _ Hprobe),
            (bind_raise _ _ _ _ _ _ Hnb)
     | by rewrite (bind_out_of_fuel _ _ _ _ _ Hprobe),
            (bind_out_of_fuel _ _ _ _ _ Hnb)].
  rewrite (bind_after _ _ _ _ _ _ Hprobe).
  rewrite (bind_after _ _ _ _ _ _ Hnb) in Hfin |- *. f_equal.
  rewrite after_result in Hfin.
  destruct (ge_max_range nb) as [b| |] eqn:Hge; [|done..].
  rewrite (bind_after (lift (Ok b)) _ s0 [] s0 b eq_refl) in Hfin.
  rewrite (bind_after (lift (Ok b)) _ s0 [] s0 b eq_refl).
  rewrite (bind_after (lift (Ok b)) _ s0 [] s0 b eq_refl).
  f_equal. rewrite after_result in Hfin.
  destruct b.
  - unfold split_branch, bind in Hfin |- *.
    destruct (effective_window _ _ _ _) as [[t1 s1] [[a b]| |]]; [|done..].
    destruct (split_params _ _ _ _) as [[t2 s2] [[l1 l2]| |]]; [|done..].
    destruct (get_lazy_job_offers _ _ _ fuel l1 365 s2)
      as [[t3 s3] r3] eqn:Hleft.
    rewrite (IH depth fuel' l1 365 s2), Hleft;
      [| lia | lia | rewrite Hleft; by destruct r3].
    destruct r3 as [[]| |]; [|done..].
    destruct (get_lazy_job_offers _ _ _ fuel l2 365 s3)
      as [[t4 s4] r4] eqn:Hright.
    rewrite (IH depth fuel' l2 365 s3), Hright;
      [done | lia | lia | rewrite Hright; by destruct r4].
  - rewrite (runtime_fetch_window_delivered _ _ _ Hnet).
    apply fetch_window_mono; [lia | done].
Qed.


End RuntimeProperties.

(** ** The traversal with failing requests on the simulated networks *)

Lemma failed_fetch_is_skipped_witness :
  (404 ∉ [429; 500; 502; 503])
  ∧ Runtime.page_loop (network_of steady_count gap_page) 1 0%nat 100 0 99 120
      (State [params_dept] 1%nat)
    = ([EGet params_dept (Response 404 ∅ None); ELogPage 404],
       State [params_dept] 2%nat, Ok tt)
  ∧ Runtime.fetch_window (network_of steady_count gap_page) 0 0%nat
      (State [params_dept] 1%nat)
    = ([EGet params_dept (Response 404 ∅ None); ELogAbort 404 params_dept],
       State [params_dept] 2%nat, Ok tt).
Proof.
  assert (Runtime.session_get_io (network_of steady_count gap_page)
            params_dept 1%nat = (inr (Response 404 ∅ None), 2%nat)) as Hget
    by (vm_compute; reflexivity).
  destruct (proj1 (failed_fetch_is_skipped (network_of steady_count gap_page)
                     0 0%nat 100 0 99 120 (State [params_dept] 1%nat))
              (Response 404 ∅ None) 2%nat Hget eq_refl)
    as (Hforce & Hloop & Hfirst).
  split; [exact Hforce|]. split; [|exact Hfirst].
  rewrite Hloop by lia. vm_compute. reflexivity.
Defined.

(** C7 as stated fails: the first page of this window is granted, and every
    later exchange is answered with status 503.  The adapter of the session
    gives up after five exchanges and raises [RetryError]; nothing catches
    it, so that the traversal raises after one chunk and the pages that are
    left are never asked for. *)
Lemma retry_error_aborts_stream_counterexample :
  let out :=
    Runtime.get_lazy_job_offers (network_of steady_count outage_page) 3 10
      0%nat 365 (State [params_dept] 0%nat) in
  (∀ n, (0 < n)%nat → status_code (outage_page n) = 503)
  ∧ out.2 = Raise RetryError
  ∧ yielded out.1.1 = [["offer"]]
  ∧ fetched out.1.1 = [outage_page 0]
  ∧ world out.1.2 = 6%nat.
Proof.
  split.
  - intros [|n] Hn; [lia|]. reflexivity.
  - vm_compute. done.
Qed.

Lemma crowded_probe w :
  ∃ h v n,
    (Runtime.head (network_of crowded steady_page) params_instant w).1
    = inr h
    ∧ h !! "Content-Range" = Some v
    ∧ range_total h "Content-Range" = Ok n
    ∧ MAX_RANGE ≤ n.
Proof.
  exists (content_range "3500"), "offres 0-149/3500", 3500. split_and!.
  - reflexivity.
  - vm_compute. reflexivity.
  - vm_compute. reflexivity.
  - vm_compute. discriminate.
Qed.

Lemma same_second_overflow_recurses_witness :
  let out :=
    Runtime.get_lazy_job_offers (network_of crowded steady_page) 40 10
      0%nat 365 (State [params_instant] 0%nat) in
  out.2 = Raise RecursionError
  ∧ probed out.1.1 = replicate 40 params_instant
  ∧ fetched out.1.1 = []
  ∧ yielded out.1.1 = [].
Proof.
  apply (same_second_overflow_recurses (network_of crowded steady_page)
           params_instant S2024).
  - vm_compute. done.
  - vm_compute. reflexivity.
  - vm_compute. reflexivity.
  - apply crowded_probe.
  - reflexivity.
Defined.

Lemma steady_network_delivers :
  Runtime.delivers (network_of bisect_count steady_page).
Proof.
  split.
  - intros d w. by eexists.
  - intros d w. eexists. vm_compute. reflexivity.
Qed.


(** ** Strings, integers and timestamps, evaluated *)

(** What [strptime] parses, with the instant it gives, and what it
    refuses. *)
Example strptime_run :
  map (λ x, strptime (PStr x))
    ["2024-01-01T00:00:00Z"; "2024-1-1T0:0:0Z"; "2024-01-01t00:00:00z";
     "2024-01- 1T00:00:00Z"; "2024-02-29T12:30:45Z";
     "0001-01-01T00:00:00Z"; "9999-12-31T23:59:59Z"]
  = [Ok T2024; Ok T2024; Ok T2024; Ok T2024;
     Ok ((738885 + 59) * PyDate.US_PER_DAY
         + (12 * 3600 + 30 * 60 + 45) * PyDate.US_PER_SECOND);
     Ok 0; Ok (PyDate.DATETIME_END - PyDate.US_PER_SECOND)]
  ∧ map (λ x, strptime (PStr x))
      ["2023-12-30"; "2024-01-01T00:00:00"; "2024-01-01T00:00:00Z ";
       " 2024-01-01T00:00:00Z"; "24-01-01T00:00:00Z";
       "2024-13-01T00:00:00Z"; "2024-00-01T00:00:00Z";
       "2024-01-00T00:00:00Z"; "2024-01- 0T00:00:00Z";
       "2024- 1-01T00:00:00Z"; "2024-001-01T00:00:00Z";
       "2024-02-30T00:00:00Z"; "2023-02-29T00:00:00Z";
       "2024-01-01T24:00:00Z"; "2024-01-01T00:60:00Z";
       "2024-01-01T00:00:60Z"; "2024-01-01T00:00:61Z";
       "0000-01-01T00:00:00Z"]
    = replicate 18 (Raise ValueError).
Proof. split; vm_compute; reflexivity. Qed.

(** The white space that [int] skips and [strip] removes: the no-break space
    and the next-line character by both, the separators 0x1C to 0x1F by
    [strip] only.  A literal of more than 4300 digits is refused. *)
Example int_run :
  map PyStr.int
    [String (ascii_of_nat 160) "12"; String (ascii_of_nat 133) "12 ";
     " +1_2 "; "-0012"; String (ascii_of_nat 28) "12"; "1__2"; "- 12"; "";
     string_of_list_ascii (replicate 4301 "1"%char)]
  = [Ok 12; Ok 12; Ok 12; Ok (-12); Raise ValueError; Raise ValueError;
     Raise ValueError; Raise ValueError; Raise ValueError]
  ∧ PyStr.strip (String (ascii_of_nat 28) "12") = "12"
  ∧ ∃ n, PyStr.int (string_of_list_ascii (replicate 4300 "1"%char)) = Ok n.
Proof.
  split; [vm_compute; reflexivity|].
  split; [vm_compute; reflexivity|].
  eexists. vm_compute. reflexivity.
Qed.

(** The count probe on such values. *)
Example range_total_run :
  map (λ v, range_total {[ "Content-Range" := v ]} "Content-Range")
    ["offres 0-149/" +:+ String (ascii_of_nat 160) "12";
     "offres 0-149/" +:+ String (ascii_of_nat 28) "12";
     "offres 0-149/" +:+ string_of_list_ascii (replicate 5000 "1"%char)]
  = [Ok 12; Ok 12; Raise ValueError].
Proof. vm_compute. reflexivity. Qed.
